(** * chalice.awsclient: a shallow embedding of [TypedAWSClient]

    The Python module wraps botocore clients for Lambda, IAM, API Gateway
    and CloudWatch Logs.  The embedding keeps the shape of the source:

    - Python values that cross the botocore boundary (keyword arguments,
      responses, decoded JSON documents) are values of [pyval];
    - exceptions are values of [exn]; a computation yields a [Result];
    - methods of [TypedAWSClient] are computations in the monad [M], which
      reads the external collaborators from an [Env] (the botocore session,
      the remote services, [json], [tempfile] and [zipfile]) and threads a
      [World]: the client cache of the instance, the trace of the calls
      that left the process, and the file system. *)

From Stdlib Require Import ZArith Bool Lia.
From stdpp Require Import base option list strings gmap fin_maps.

Set Warnings "-register-all,-clear-no-such-hyp".
Open Scope string_scope.

(** ** Python values *)

Inductive pyval : Type :=
  | PNone
  | PBool (b : bool)
  | PInt (n : Z)
  | PStr (s : string)
  | PList (items : list pyval)
  | PDict (items : list (string * pyval))
  (* a file-like object, as the ['body'] of a [get_sdk] response *)
  | PStream (data : string)
  (* [datetime.datetime.fromtimestamp(ms / 1000.0)], kept symbolic *)
  | PDatetime (ms : Z).

(** ** Exceptions *)

Inductive exn : Type :=
  (* an exception class that botocore generates for a service client:
     [client.exceptions.<code>], raised with a message *)
  | ClientError (service code message : string)
  (* [class ResourceDoesNotExistError(Exception)] of this module *)
  | ResourceDoesNotExistError (arg : string)
  | ValueError (msg : string)
  | RuntimeError (msg : string)
  | KeyError (key : string)
  | TypeError
  | AttributeError
  | OSError (msg : string)
  (* anything else a collaborator raises (connection errors, ...) *)
  | OtherError (name msg : string).

(** [Diverge] is the outcome of a [while True] loop whose unrolling budget
    ran out; [create_function_terminates] shows the budget is never
    exhausted. *)
Inductive Result (A : Type) : Type :=
  | Ok (a : A)
  | Raise (e : exn)
  | Diverge.
Arguments Ok {A} a.
Arguments Raise {A} e.
Arguments Diverge {A}.

Definition rbind {A B} (r : Result A) (k : A -> Result B) : Result B :=
  match r with
  | Ok a => k a
  | Raise e => Raise e
  | Diverge => Diverge
  end.

Declare Scope result_scope.
Delimit Scope result_scope with res.
Notation "x <~ r ;; k" := (rbind r (fun x => k))
  (at level 100, r at next level, right associativity) : result_scope.

(** ** Dictionaries and the Python operations on them *)

(** A dict is the list of its items in insertion order; keys are distinct
    in every dict Python builds, and lookup takes the first item found. *)
Fixpoint dict_get (k : string) (d : list (string * pyval)) : option pyval :=
  match d with
  | [] => None
  | (k', v) :: d' => if String.eqb k k' then Some v else dict_get k d'
  end.

(** [d[k] = v] *)
Fixpoint dict_set (k : string) (v : pyval) (d : list (string * pyval))
  : list (string * pyval) :=
  match d with
  | [] => [(k, v)]
  | (k', v') :: d' =>
      if String.eqb k k' then (k, v) :: d' else (k', v') :: dict_set k v d'
  end.

(** [obj[k]] for a string key *)
Definition py_getitem (obj : pyval) (k : string) : Result pyval :=
  match obj with
  | PDict d =>
      match dict_get k d with
      | Some v => Ok v
      | None => Raise (KeyError k)
      end
  | _ => Raise TypeError
  end.

(** [obj.get(k, default)] *)
Definition py_get (obj : pyval) (k : string) (default : pyval) : Result pyval :=
  match obj with
  | PDict d =>
      match dict_get k d with
      | Some v => Ok v
      | None => Ok default
      end
  | _ => Raise AttributeError
  end.

(** [obj == s] for a [str] [s]: only a [str] compares equal to a [str] *)
Definition py_eq_str (obj : pyval) (s : string) : bool :=
  match obj with
  | PStr t => String.eqb t s
  | _ => false
  end.

(** [iter(obj)], as a [for] statement takes it *)
Definition py_iter (obj : pyval) : Result (list pyval) :=
  match obj with
  | PList l => Ok l
  | PDict d => Ok (map (fun kv => PStr (fst kv)) d)
  | PStr s => Ok (map (fun c => PStr (String c EmptyString)) (String.list_ascii_of_string s))
  | _ => Raise TypeError
  end.

(** ** The permission check (pure part) *)

(** [_build_source_arn_str] *)
Definition _build_source_arn_str (region_name account_id rest_api_id : string)
  : string :=
  "arn:aws:execute-api:" +:+ region_name +:+ ":" +:+ account_id +:+ ":"
    +:+ rest_api_id +:+ "/*".

(** [_gives_apigateway_access] *)
Definition _gives_apigateway_access
    (statement : pyval) (function_name source_arn : string) : Result bool :=
  (action <~ py_getitem statement "Action" ;;
   if negb (py_eq_str action "lambda:InvokeFunction") then Ok false else
   condition <~ py_get statement "Condition" (PDict []) ;;
   arn_like <~ py_get condition "ArnLike" (PDict []) ;;
   arn <~ py_get arn_like "AWS:SourceArn" (PStr "") ;;
   if negb (py_eq_str arn source_arn) then Ok false else
   principal <~ py_get statement "Principal" (PDict []) ;;
   service <~ py_get principal "Service" (PStr "") ;;
   if negb (py_eq_str service "apigateway.amazonaws.com") then Ok false else
   (* "Resource" is not checked *)
   Ok true)%res.

(** The [for statement in ...: if ...: has_necessary_permissions = True; break]
    loop of [add_permission_for_apigateway_if_needed], started with
    [has_necessary_permissions = False]. *)
Fixpoint scan_statements
    (statements : list pyval) (function_name source_arn : string)
  : Result bool :=
  match statements with
  | [] => Ok false
  | statement :: rest =>
      (found <~ _gives_apigateway_access statement function_name source_arn ;;
       if found then Ok true
       else scan_statements rest function_name source_arn)%res
  end.

(** ** Tag reconciliation (pure part) *)

(** [list(set(remote_tags) - set(requested_tags))]; Python leaves the order
    of the list unspecified, [elements] fixes one. *)
Definition tag_keys_to_remove (requested_tags remote_tags : gmap string string)
  : list string :=
  elements (dom remote_tags ∖ dom requested_tags).

(** [{k: v for k, v in requested_tags.items()
       if k not in remote_tags or v != remote_tags[k]}] *)
Definition tags_to_add (requested_tags remote_tags : gmap string string)
  : gmap string string :=
  filter (fun kv => fst kv ∉ dom remote_tags ∨ Some (snd kv) ≠ remote_tags !! fst kv)
         requested_tags.

(** ** String maps at the botocore boundary *)

(** A [Dict[str, str]] passed as a keyword argument. *)
Definition py_of_strmap (m : gmap string string) : pyval :=
  PDict (map (fun kv => (fst kv, PStr (snd kv))) (map_to_list m)).

Fixpoint strmap_items (d : list (string * pyval)) : option (list (string * string)) :=
  match d with
  | [] => Some []
  | (k, PStr v) :: d' =>
      match strmap_items d' with
      | Some l => Some ((k, v) :: l)
      | None => None
      end
  | _ => None
  end.

(** The ['Tags'] of a [list_tags] response, which the service model types as
    a map from string to string; another shape is reported as a [TypeError]. *)
Definition strmap_of_py (obj : pyval) : Result (gmap string string) :=
  match obj with
  | PDict d =>
      match strmap_items d with
      | Some l => Ok (list_to_map l)
      | None => Raise TypeError
      end
  | _ => Raise TypeError
  end.

(** ** Clients, events, the file system *)

(** A botocore client object: the service it talks to, its identity as an
    object and [client.meta.region_name]. *)
Record Client : Type := mkClient {
  service : string;
  ident : nat;
  meta_region_name : string;
}.

(** [client.exceptions.<code>] *)
Definition exceptions (client : Client) (code : string) : string * string :=
  (service client, code).

Definition isinstance (e : exn) (cls : string * string) : bool :=
  match e with
  | ClientError s c _ => String.eqb s (fst cls) && String.eqb c (snd cls)
  | _ => false
  end.

(** What leaves the process, in order. *)
Inductive Event : Type :=
  | CreateClient (service_name : string) (out : Result Client)
  | Call (client : Client) (method : string)
         (kwargs : list (string * pyval)) (out : Result pyval)
  | Sleep (seconds : Z).

Inductive node : Type :=
  | File (data : string)
  | Dir (entries : list (string * node)).

(** A path is the list of its components from the root; [os.path.join(p, n)]
    for a name [n] without separator is [p ++ [n]]. *)
Abbreviation path := (list string).

(** ** The environment and the world *)

Record Env : Type := mkEnv {
  (* [session.create_client(service_name)]: the region of the new client *)
  session_create_client : list Event -> string -> Result string;
  (* [client.<method>(kwargs)], given what happened before *)
  remote : list Event -> Client -> string -> list (string * pyval) -> Result pyval;
  (* the pages [paginator.paginate(kwargs)] yields, each the outcome of
     one request *)
  remote_pages : list Event -> Client -> string -> list (string * pyval)
                 -> list (Result pyval);
  json_loads : string -> Result pyval;
  (* [json.dumps(obj, indent=...)] *)
  json_dumps : pyval -> option Z -> Result string;
  (* [tempfile.mkdtemp()]: the path of the directory it creates *)
  mkdtemp_path : node -> Result path;
  (* [ZipFile(...).extractall(target)]: the entries the archive puts under
     [target]; [None] when the archive has no member, and [target] is not
     even created *)
  zip_members : string -> Result (option (list (string * node)));
}.

(** The state of a [TypedAWSClient] instance ([_client_cache]; [_session]
    and [_sleep] belong to the environment) and of its surroundings. *)
Record World : Type := mkWorld {
  _client_cache : gmap string Client;
  trace : list Event;
  fs : node;
}.

(** [TypedAWSClient.__init__] *)
Definition init (root : node) : World :=
  {| _client_cache := ∅; trace := []; fs := root |}.

(** ** The monad of the methods *)

Definition M (A : Type) : Type := Env -> World -> Result A * World.

Definition ret {A} (a : A) : M A := fun _ w => (Ok a, w).

Definition bind {A B} (m : M A) (k : A -> M B) : M B :=
  fun E w =>
    match m E w with
    | (Ok a, w') => k a E w'
    | (Raise e, w') => (Raise e, w')
    | (Diverge, w') => (Diverge, w')
    end.

Definition lift {A} (r : Result A) : M A := fun _ w => (r, w).

Definition raise {A} (e : exn) : M A := lift (Raise e).

Declare Scope m_scope.
Delimit Scope m_scope with M.
Notation "x <- m ;; k" := (bind m (fun x => k))
  (at level 100, m at next level, right associativity) : m_scope.
Notation "m ;; k" := (bind m (fun _ => k))
  (at level 100, right associativity) : m_scope.
Open Scope m_scope.

(** The world after the events [evs] have left the process. *)
Definition log (evs : list Event) (w : World) : World :=
  {| _client_cache := _client_cache w;
     trace := trace w ++ evs;
     fs := fs w |}.

Definition emit (ev : Event) : M unit :=
  fun _ w => (Ok tt, log [ev] w).

(** [try: m  except cls as e: ...]: [inr e] hands the caught exception to
    the handler, [inl a] is the normal exit. *)
Definition try_except {A} (m : M A) (cls : string * string) : M (A + exn) :=
  fun E w =>
    match m E w with
    | (Ok a, w') => (Ok (inl a), w')
    | (Raise e, w') =>
        if isinstance e cls then (Ok (inr e), w') else (Raise e, w')
    | (Diverge, w') => (Diverge, w')
    end.

(** [while True: body], unrolled at most [fuel] times; the body answers
    [inl s] for [continue] with the loop variables [s], [inr a] for
    [return a]. *)
Fixpoint while_true {S A} (fuel : nat) (body : S -> M (S + A)) (s : S) : M A :=
  match fuel with
  | O => lift Diverge
  | Datatypes.S fuel' =>
      r <- body s ;;
      match r with
      | inl s' => while_true fuel' body s'
      | inr a => ret a
      end
  end.

(** [for x in l: body x] *)
Fixpoint for_each {A} (l : list A) (body : A -> M unit) : M unit :=
  match l with
  | [] => ret tt
  | x :: l' => body x ;; for_each l' body
  end.

(** ** Primitive effects *)

(** [self._session.create_client(service_name)] *)
Definition create_client (service_name : string) : M Client :=
  fun E w =>
    let out :=
      match session_create_client E (trace w) service_name with
      | Ok region => Ok (mkClient service_name (length (trace w)) region)
      | Raise e => Raise e
      | Diverge => Diverge
      end in
    (out, log [CreateClient service_name out] w).

(** [client.<method>(kwargs)] *)
Definition call (client : Client) (method : string)
    (kwargs : list (string * pyval)) : M pyval :=
  fun E w =>
    let out := remote E (trace w) client method kwargs in
    (out, log [Call client method kwargs out] w).

(** [self._sleep(seconds)] *)
Definition _sleep (seconds : Z) : M unit := emit (Sleep seconds).

(** Reading and writing [self._client_cache] *)
Definition get_cache : M (gmap string Client) :=
  fun _ w => (Ok (_client_cache w), w).

Definition cache_store (service_name : string) (client : Client) : M unit :=
  fun _ w =>
    (Ok tt, {| _client_cache := <[service_name := client]> (_client_cache w);
               trace := trace w;
               fs := fs w |}).

(** [_client] *)
Definition _client (service_name : string) : M Client :=
  cache <- get_cache ;;
  (if bool_decide (service_name ∉ dom cache) then
     client <- create_client service_name ;;
     cache_store service_name client
   else ret tt) ;;
  cache <- get_cache ;;
  match cache !! service_name with
  | Some client => ret client
  | None => raise (KeyError service_name)
  end.

(** ** The methods of [TypedAWSClient] *)

(** Class attributes: 30 * 5 == 150 seconds for the initial lambda creation
    and role propagation. *)
Definition LAMBDA_CREATE_ATTEMPTS : nat := 30.
Definition DELAY_TIME : Z := 5.

(** The truth value of a list or of a dict: it has an element. *)
Definition nonempty {A} (l : list A) : bool :=
  match l with
  | [] => false
  | _ :: _ => true
  end.

Definition set_opt {A} (k : string) (f : A -> pyval) (o : option A)
    (kwargs : list (string * pyval)) : list (string * pyval) :=
  match o with
  | Some a => dict_set k (f a) kwargs
  | None => kwargs
  end.

Definition lambda_function_exists (name : string) : M bool :=
  client <- _client "lambda" ;;
  r <- try_except
         (call client "get_function" [("FunctionName", PStr name)] ;;
          ret true)
         (exceptions client "ResourceNotFoundException") ;;
  match r with
  | inl b => ret b
  | inr _ => ret false
  end.

Definition get_function_configuration (name : string) : M pyval :=
  client <- _client "lambda" ;;
  response <- call client "get_function_configuration"
                [("FunctionName", PStr name)] ;;
  ret response.

(** The body of the [while True] loop of [create_function]; the loop
    variable is [attempts]. *)
Definition create_function_attempt (client : Client)
    (kwargs : list (string * pyval)) (attempts : nat) : M (nat + pyval) :=
  r <- try_except (call client "create_function" kwargs)
         (exceptions client "InvalidParameterValueException") ;;
  match r with
  | inr e =>
      _sleep DELAY_TIME ;;
      let attempts := attempts + 1 in
      if (LAMBDA_CREATE_ATTEMPTS <=? attempts)%nat then raise e
      else ret (inl attempts)
  | inl response =>
      arn <- lift (py_getitem response "FunctionArn") ;;
      ret (inr arn)
  end.

Definition create_function_kwargs
    (function_name role_arn zip_contents runtime : string)
    (environment_variables tags : option (gmap string string))
    (timeout memory_size : option Z) : list (string * pyval) :=
  let kwargs := [("FunctionName", PStr function_name);
                 ("Runtime", PStr runtime);
                 ("Code", PDict [("ZipFile", PStr zip_contents)]);
                 ("Handler", PStr "app.app");
                 ("Role", PStr role_arn)] in
  let kwargs := set_opt "Environment"
                  (fun ev => PDict [("Variables", py_of_strmap ev)])
                  environment_variables kwargs in
  let kwargs := set_opt "Tags" py_of_strmap tags kwargs in
  let kwargs := set_opt "Timeout" PInt timeout kwargs in
  let kwargs := set_opt "MemorySize" PInt memory_size kwargs in
  kwargs.

(** [create_function], its loop unrolled at most [fuel] times *)
Definition create_function_fuel (fuel : nat)
    (function_name role_arn zip_contents runtime : string)
    (environment_variables tags : option (gmap string string))
    (timeout memory_size : option Z) : M pyval :=
  let kwargs := create_function_kwargs function_name role_arn zip_contents
                  runtime environment_variables tags timeout memory_size in
  client <- _client "lambda" ;;
  let attempts := 0 in
  while_true fuel (create_function_attempt client kwargs) attempts.

(** [create_function]; the counter leaves the loop after at most
    [LAMBDA_CREATE_ATTEMPTS] rounds, so this budget is never used up. *)
Definition create_function := create_function_fuel (S LAMBDA_CREATE_ATTEMPTS).

Definition delete_function (function_name : string) : M unit :=
  lambda_client <- _client "lambda" ;;
  r <- try_except
         (call lambda_client "delete_function"
            [("FunctionName", PStr function_name)])
         (exceptions lambda_client "ResourceNotFoundException") ;;
  match r with
  | inl _ => ret tt
  | inr _ => raise (ResourceDoesNotExistError function_name)
  end.

Definition _remove_unrequested_remote_tags (function_arn : pyval)
    (requested_tags remote_tags : gmap string string) : M unit :=
  let tag_keys_to_remove := tag_keys_to_remove requested_tags remote_tags in
  if nonempty tag_keys_to_remove then
    client <- _client "lambda" ;;
    call client "untag_resource"
      [("Resource", function_arn);
       ("TagKeys", PList (map PStr tag_keys_to_remove))] ;;
    ret tt
  else ret tt.

Definition _add_missing_or_differing_value_requested_tags (function_arn : pyval)
    (requested_tags remote_tags : gmap string string) : M unit :=
  let tags_to_add := tags_to_add requested_tags remote_tags in
  if bool_decide (tags_to_add ≠ ∅) then
    client <- _client "lambda" ;;
    call client "tag_resource"
      [("Resource", function_arn); ("Tags", py_of_strmap tags_to_add)] ;;
    ret tt
  else ret tt.

Definition _update_function_tags (function_arn : pyval)
    (requested_tags : gmap string string) : M unit :=
  client <- _client "lambda" ;;
  response <- call client "list_tags" [("Resource", function_arn)] ;;
  tags <- lift (py_getitem response "Tags") ;;
  remote_tags <- lift (strmap_of_py tags) ;;
  _remove_unrequested_remote_tags function_arn requested_tags remote_tags ;;
  _add_missing_or_differing_value_requested_tags
    function_arn requested_tags remote_tags.

Definition update_function_kwargs
    (environment_variables : option (gmap string string))
    (runtime : option string) (timeout memory_size : option Z)
  : list (string * pyval) :=
  let kwargs := [] in
  let kwargs := set_opt "Environment"
                  (fun ev => PDict [("Variables", py_of_strmap ev)])
                  environment_variables kwargs in
  let kwargs := set_opt "Runtime" PStr runtime kwargs in
  let kwargs := set_opt "Timeout" PInt timeout kwargs in
  let kwargs := set_opt "MemorySize" PInt memory_size kwargs in
  kwargs.

Definition update_function (function_name zip_contents : string)
    (environment_variables : option (gmap string string))
    (runtime : option string)
    (tags : option (gmap string string))
    (timeout memory_size : option Z) : M pyval :=
  lambda_client <- _client "lambda" ;;
  return_value <- call lambda_client "update_function_code"
                    [("FunctionName", PStr function_name);
                     ("ZipFile", PStr zip_contents)] ;;
  let kwargs := update_function_kwargs environment_variables runtime
                  timeout memory_size in
  (if nonempty kwargs then
     let kwargs := dict_set "FunctionName" (PStr function_name) kwargs in
     call lambda_client "update_function_configuration" kwargs ;;
     ret tt
   else ret tt) ;;
  match tags with
  | Some tags =>
      function_arn <- lift (py_getitem return_value "FunctionArn") ;;
      _update_function_tags function_arn tags
  | None => ret tt
  end ;;
  ret return_value.

Definition get_role_arn_for_name (name : string) : M pyval :=
  client <- _client "iam" ;;
  r <- try_except (call client "get_role" [("RoleName", PStr name)])
         (exceptions client "NoSuchEntityException") ;;
  match r with
  | inr _ => raise (ValueError ("No role ARN found for: " +:+ name))
  | inl role =>
      role' <- lift (py_getitem role "Role") ;;
      lift (py_getitem role' "Arn")
  end.

Definition delete_role_policy (role_name : string) (policy_name : pyval)
  : M unit :=
  client <- _client "iam" ;;
  call client "delete_role_policy"
    [("RoleName", PStr role_name); ("PolicyName", policy_name)] ;;
  ret tt.

Definition put_role_policy (role_name policy_name : string)
    (policy_document : pyval) : M unit :=
  client <- _client "iam" ;;
  document <- (fun E => lift (json_dumps E policy_document (Some 2%Z)) E) ;;
  call client "put_role_policy"
    [("RoleName", PStr role_name);
     ("PolicyName", PStr policy_name);
     ("PolicyDocument", PStr document)] ;;
  ret tt.

Definition create_role (name : string) (trust_policy policy : pyval)
  : M pyval :=
  client <- _client "iam" ;;
  document <- (fun E => lift (json_dumps E trust_policy None) E) ;;
  response <- call client "create_role"
                [("RoleName", PStr name);
                 ("AssumeRolePolicyDocument", PStr document)] ;;
  role <- lift (py_getitem response "Role") ;;
  role_arn <- lift (py_getitem role "Arn") ;;
  put_role_policy name name policy ;;
  ret role_arn.

(** Delete a role by first deleting all inline policies. *)
Definition delete_role (name : string) : M unit :=
  client <- _client "iam" ;;
  response <- call client "list_role_policies" [("RoleName", PStr name)] ;;
  names <- lift (py_getitem response "PolicyNames") ;;
  inline_policies <- lift (py_iter names) ;;
  for_each inline_policies
    (fun policy_name => delete_role_policy name policy_name) ;;
  call client "delete_role" [("RoleName", PStr name)] ;;
  ret tt.

(** The [for api in rest_apis] loop of [get_rest_api_id] *)
Fixpoint find_rest_api (rest_apis : list pyval) (name : string)
  : Result pyval :=
  match rest_apis with
  | [] => Ok PNone
  | api :: rest =>
      (api_name <~ py_getitem api "name" ;;
       if py_eq_str api_name name then py_getitem api "id"
       else find_rest_api rest name)%res
  end.

Definition get_rest_api_id (name : string) : M pyval :=
  client <- _client "apigateway" ;;
  response <- call client "get_rest_apis" [] ;;
  items <- lift (py_getitem response "items") ;;
  rest_apis <- lift (py_iter items) ;;
  lift (find_rest_api rest_apis name).

Definition rest_api_exists (rest_api_id : string) : M bool :=
  client <- _client "apigateway" ;;
  r <- try_except
         (call client "get_rest_api" [("restApiId", PStr rest_api_id)] ;;
          ret true)
         (exceptions client "NotFoundException") ;;
  match r with
  | inl b => ret b
  | inr _ => ret false
  end.

Definition import_rest_api (swagger_document : pyval) : M pyval :=
  client <- _client "apigateway" ;;
  body <- (fun E => lift (json_dumps E swagger_document (Some 2%Z)) E) ;;
  response <- call client "import_rest_api" [("body", PStr body)] ;;
  rest_api_id <- lift (py_getitem response "id") ;;
  ret rest_api_id.

Definition update_api_from_swagger (rest_api_id : string)
    (swagger_document : pyval) : M unit :=
  client <- _client "apigateway" ;;
  body <- (fun E => lift (json_dumps E swagger_document (Some 2%Z)) E) ;;
  call client "put_rest_api"
    [("restApiId", PStr rest_api_id);
     ("mode", PStr "overwrite");
     ("body", PStr body)] ;;
  ret tt.

Definition delete_rest_api (rest_api_id : string) : M unit :=
  client <- _client "apigateway" ;;
  r <- try_except
         (call client "delete_rest_api" [("restApiId", PStr rest_api_id)])
         (exceptions client "NotFoundException") ;;
  match r with
  | inl _ => ret tt
  | inr _ => raise (ResourceDoesNotExistError rest_api_id)
  end.

Definition deploy_rest_api (rest_api_id api_gateway_stage : string) : M unit :=
  client <- _client "apigateway" ;;
  call client "create_deployment"
    [("restApiId", PStr rest_api_id); ("stageName", PStr api_gateway_stage)] ;;
  ret tt.

(** Return the function policy for a lambda function, decoded. *)
Definition get_function_policy (function_name : string) : M pyval :=
  client <- _client "lambda" ;;
  policy <- call client "get_policy" [("FunctionName", PStr function_name)] ;;
  text <- lift (py_getitem policy "Policy") ;;
  match text with
  | PStr s => fun E => lift (json_loads E s) E
  | _ => raise TypeError
  end.

(** Authorize API gateway to invoke a lambda function. *)
Definition add_permission_for_apigateway
    (function_name region_name account_id rest_api_id random_id : string)
  : M unit :=
  client <- _client "lambda" ;;
  let source_arn := _build_source_arn_str region_name account_id rest_api_id in
  call client "add_permission"
    [("Action", PStr "lambda:InvokeFunction");
     ("FunctionName", PStr function_name);
     ("StatementId", PStr random_id);
     ("Principal", PStr "apigateway.amazonaws.com");
     ("SourceArn", PStr source_arn)] ;;
  ret tt.

(** Authorize API gateway to invoke a lambda function if needed. *)
Definition add_permission_for_apigateway_if_needed
    (function_name region_name account_id rest_api_id random_id : string)
  : M unit :=
  let has_necessary_permissions := false in
  client <- _client "lambda" ;;
  r <- try_except (get_function_policy function_name)
         (exceptions client "ResourceNotFoundException") ;;
  has_necessary_permissions <-
    match r with
    | inr _ => ret has_necessary_permissions
    | inl policy =>
        let source_arn :=
          _build_source_arn_str region_name account_id rest_api_id in
        statements <- lift (py_get policy "Statement" (PList [])) ;;
        statements <- lift (py_iter statements) ;;
        lift (scan_statements statements function_name source_arn)
    end ;;
  if negb has_necessary_permissions then
    add_permission_for_apigateway
      function_name region_name account_id rest_api_id random_id
  else ret tt.

(** Generate an SDK: a file-like object that streams the zip contents. *)
Definition get_sdk_download_stream
    (rest_api_id api_gateway_stage sdk_type : string) : M pyval :=
  client <- _client "apigateway" ;;
  response <- call client "get_sdk"
                [("restApiId", PStr rest_api_id);
                 ("stageName", PStr api_gateway_stage);
                 ("sdkType", PStr sdk_type)] ;;
  lift (py_getitem response "body").

(** The [region_name] property *)
Definition region_name : M string :=
  client <- _client "apigateway" ;;
  ret (meta_region_name client).

Definition _convert_to_datetime (integer_timestamp : pyval) : Result pyval :=
  match integer_timestamp with
  | PInt ms => Ok (PDatetime ms)
  | _ => Raise TypeError
  end.

(** [event[k] = v] on a response item *)
Definition py_setitem (obj : pyval) (k : string) (v : pyval) : Result pyval :=
  match obj with
  | PDict d => Ok (PDict (dict_set k v d))
  | _ => Raise TypeError
  end.

(** The body of [for event in events] in [iter_log_events]: the event as
    it is yielded. *)
Definition normalize_event (event : pyval) : Result pyval :=
  (t <~ py_getitem event "ingestionTime" ;;
   d <~ _convert_to_datetime t ;;
   event <~ py_setitem event "ingestionTime" d ;;
   t <~ py_getitem event "timestamp" ;;
   d <~ _convert_to_datetime t ;;
   event <~ py_setitem event "timestamp" d ;;
   Ok event)%res.

Fixpoint normalize_events (events : list pyval) (yielded : list pyval)
  : Result (list pyval) :=
  match events with
  | [] => Ok yielded
  | event :: rest =>
      (event' <~ normalize_event event ;;
       normalize_events rest (yielded ++ [event']))%res
  end.

(** The [for page in paginator.paginate(...)] loop, the generator run to
    its end: every page costs one request. *)
Fixpoint iter_pages (client : Client) (kwargs : list (string * pyval))
    (pages : list (Result pyval)) (yielded : list pyval) : M (list pyval) :=
  match pages with
  | [] => ret yielded
  | out :: rest =>
      emit (Call client "filter_log_events" kwargs out) ;;
      page <- lift out ;;
      events <- lift (py_getitem page "events") ;;
      events <- lift (py_iter events) ;;
      yielded <- lift (normalize_events events yielded) ;;
      iter_pages client kwargs rest yielded
  end.

(** [list(iter_log_events(log_group_name, interleaved))]; the source passes
    [interleaved=True] whatever its argument is. *)
Definition iter_log_events (log_group_name : string) (interleaved : bool)
  : M (list pyval) :=
  logs <- _client "logs" ;;
  let kwargs := [("logGroupName", PStr log_group_name);
                 ("interleaved", PBool true)] in
  pages <- (fun E w =>
              (Ok (remote_pages E (trace w) logs "filter_log_events" kwargs), w)) ;;
  iter_pages logs kwargs pages [].

(** ** The file system, as [os], [shutil], [tempfile] and [zipfile] see it

    No symbolic links, one device; the semantics is that of the POSIX calls
    behind the Python functions. *)

Fixpoint entry_get (name : string) (es : list (string * node)) : option node :=
  match es with
  | [] => None
  | (name', n) :: es' =>
      if String.eqb name name' then Some n else entry_get name es'
  end.

Fixpoint entry_set (name : string) (n : node) (es : list (string * node))
  : list (string * node) :=
  match es with
  | [] => [(name, n)]
  | (name', n') :: es' =>
      if String.eqb name name' then (name, n) :: es'
      else (name', n') :: entry_set name n es'
  end.

Fixpoint entry_del (name : string) (es : list (string * node))
  : list (string * node) :=
  match es with
  | [] => []
  | (name', n') :: es' =>
      if String.eqb name name' then es' else (name', n') :: entry_del name es'
  end.

Fixpoint fs_lookup (p : path) (n : node) : option node :=
  match p with
  | [] => Some n
  | name :: p' =>
      match n with
      | File _ => None
      | Dir es =>
          match entry_get name es with
          | Some child => fs_lookup p' child
          | None => None
          end
      end
  end.

(** Put [new] at [p]; the parent of [p] has to be a directory. *)
Fixpoint fs_put (p : path) (new : node) (n : node) : option node :=
  match p with
  | [] => Some new
  | name :: p' =>
      match n with
      | File _ => None
      | Dir es =>
          match p' with
          | [] => Some (Dir (entry_set name new es))
          | _ :: _ =>
              match entry_get name es with
              | Some child =>
                  match fs_put p' new child with
                  | Some child' => Some (Dir (entry_set name child' es))
                  | None => None
                  end
              | None => None
              end
          end
      end
  end.

(** Put [new] at [p], creating the missing directories on the way
    ([os.makedirs]). *)
Fixpoint fs_put_p (p : path) (new : node) (n : node) : option node :=
  match p with
  | [] => Some new
  | name :: p' =>
      match n with
      | File _ => None
      | Dir es =>
          let child := match entry_get name es with
                       | Some child => child
                       | None => Dir []
                       end in
          match fs_put_p p' new child with
          | Some child' => Some (Dir (entry_set name child' es))
          | None => None
          end
      end
  end.

(** Remove what is at [p]. *)
Fixpoint fs_remove (p : path) (n : node) : option node :=
  match p with
  | [] => None
  | name :: p' =>
      match n with
      | File _ => None
      | Dir es =>
          match entry_get name es with
          | Some child =>
              match p' with
              | [] => Some (Dir (entry_del name es))
              | _ :: _ =>
                  match fs_remove p' child with
                  | Some child' => Some (Dir (entry_set name child' es))
                  | None => None
                  end
              end
          | None => None
          end
      end
  end.

Definition os_path_exists (p : path) (root : node) : bool :=
  match fs_lookup p root with
  | Some _ => true
  | None => false
  end.

Definition os_path_isdir (p : path) (root : node) : bool :=
  match fs_lookup p root with
  | Some (Dir _) => true
  | _ => false
  end.

Definition os_listdir (p : path) (root : node) : Result (list string) :=
  match fs_lookup p root with
  | Some (Dir es) => Ok (map fst es)
  | Some (File _) => Raise (OSError "NotADirectoryError")
  | None => Raise (OSError "FileNotFoundError")
  end.

Definition os_mkdir (p : path) (root : node) : Result node :=
  match fs_lookup p root with
  | Some _ => Raise (OSError "FileExistsError")
  | None =>
      match fs_put p (Dir []) root with
      | Some root' => Ok root'
      | None => Raise (OSError "FileNotFoundError")
      end
  end.

(** [open(p, 'wb')] followed by [write(data)] *)
Definition write_file (p : path) (data : string) (root : node) : Result node :=
  match fs_lookup p root with
  | Some (Dir _) => Raise (OSError "IsADirectoryError")
  | _ =>
      match fs_put p (File data) root with
      | Some root' => Ok root'
      | None => Raise (OSError "FileNotFoundError")
      end
  end.

Definition read_file (p : path) (root : node) : Result string :=
  match fs_lookup p root with
  | Some (File data) => Ok data
  | Some (Dir _) => Raise (OSError "IsADirectoryError")
  | None => Raise (OSError "FileNotFoundError")
  end.

(** [os.rename(src, dst)]: a directory replaces an empty directory, a file
    replaces a file, nothing moves into itself. *)
Definition os_rename (src dst : path) (root : node) : Result node :=
  match fs_lookup src root with
  | None => Raise (OSError "FileNotFoundError")
  | Some n =>
      if bool_decide (src = dst) then Ok root
      else if bool_decide (src `prefix_of` dst) then Raise (OSError "EINVAL")
      else
        let replaceable :=
          match fs_lookup dst root, n with
          | None, _ => true
          | Some (Dir []), Dir _ => true
          | Some (File _), File _ => true
          | _, _ => false
          end in
        if negb replaceable then Raise (OSError "EEXIST")
        else
          match fs_remove src root with
          | None => Raise (OSError "FileNotFoundError")
          | Some root1 =>
              match fs_put dst n root1 with
              | Some root2 => Ok root2
              | None => Raise (OSError "FileNotFoundError")
              end
          end
  end.

(** [shutil.move(src, dst)]: into [dst] when [dst] is a directory, else
    onto [dst]; when [os.rename] fails a directory is copied with
    [copytree], which makes the missing parents, and then removed. *)
Definition shutil_move (src dst : path) (root : node) : Result node :=
  let into := os_path_isdir dst root in
  if into && bool_decide (src = dst) then Ok root
  else
    let real_dst := if into then (dst ++ [List.last src ""])%list else dst in
    if into && os_path_exists real_dst root
    then Raise (OtherError "shutil.Error" "Destination path already exists")
    else
      match os_rename src real_dst root with
      | Raise (OSError msg) =>
          match fs_lookup src root with
          | Some (Dir es) =>
              if bool_decide (src `prefix_of` real_dst)
              then Raise (OtherError "shutil.Error"
                            "Cannot move a directory into itself")
              else if os_path_exists real_dst root
              then Raise (OSError "FileExistsError")
              else
                match fs_put_p real_dst (Dir es) root with
                | Some root1 =>
                    match fs_remove src root1 with
                    | Some root2 => Ok root2
                    | None => Raise (OSError msg)
                    end
                | None => Raise (OSError "NotADirectoryError")
                end
          | _ => Raise (OSError msg)
          end
      | out => out
      end.

(** Running a file-system call on [fs] *)
Definition set_fs (root : node) (w : World) : World :=
  {| _client_cache := _client_cache w; trace := trace w; fs := root |}.

Definition with_fs (f : node -> Result node) : M unit :=
  fun _ w =>
    match f (fs w) with
    | Ok root => (Ok tt, set_fs root w)
    | Raise e => (Raise e, w)
    | Diverge => (Diverge, w)
    end.

Definition read_fs {A} (f : node -> Result A) : M A :=
  fun _ w => (f (fs w), w).

(** [tempfile.mkdtemp()] *)
Definition tempfile_mkdtemp : M path :=
  tmpdir <- (fun E w => (mkdtemp_path E (fs w), w)) ;;
  with_fs (os_mkdir tmpdir) ;;
  ret tmpdir.

(** [zip_stream.read()] *)
Definition stream_read (stream : pyval) : Result string :=
  match stream with
  | PStream data => Ok data
  | _ => Raise AttributeError
  end.

(** [ZipFile(archive).extractall(target)], for a [target] that does not
    exist yet *)
Definition zipfile_extractall (archive target : path) : M unit :=
  data <- read_fs (read_file archive) ;;
  members <- (fun E => lift (zip_members E data) E) ;;
  match members with
  | None => ret tt
  | Some es =>
      with_fs (fun root =>
                 match fs_put target (Dir es) root with
                 | Some root' => Ok root'
                 | None => Raise (OSError "FileNotFoundError")
                 end)
  end.

Definition sdk_error_message (dirnames : list string) : string :=
  "The downloaded SDK had an unexpected directory structure: "
    +:+ String.concat ", " dirnames.

(** [download_sdk], first part: the archive is fetched, written to
    [tmpdir/sdk.zip] and extracted to [tmpdir/extracted]. *)
Definition download_sdk_extract (rest_api_id api_gateway_stage sdk_type : string)
  : M path :=
  zip_stream <- get_sdk_download_stream rest_api_id api_gateway_stage sdk_type ;;
  tmpdir <- tempfile_mkdtemp ;;
  with_fs (write_file (tmpdir ++ ["sdk.zip"])%list "") ;;
  data <- lift (stream_read zip_stream) ;;
  with_fs (write_file (tmpdir ++ ["sdk.zip"])%list data) ;;
  let tmp_extract := (tmpdir ++ ["extracted"])%list in
  zipfile_extractall (tmpdir ++ ["sdk.zip"])%list tmp_extract ;;
  ret tmp_extract.

(** [download_sdk], second part: the extract directory is to hold a single
    directory, which is renamed and moved; anything else is an error. *)
Definition download_sdk_install (tmp_extract output_dir : path)
    (sdk_type : string) : M unit :=
  dirnames <- read_fs (os_listdir tmp_extract) ;;
  returned <-
    match dirnames with
    | [dirname] =>
        let full_dirname := (tmp_extract ++ [dirname])%list in
        isdir <- read_fs (fun root => Ok (os_path_isdir full_dirname root)) ;;
        if isdir then
          let final_dirname := "chalice-" +:+ sdk_type +:+ "-sdk" in
          let full_renamed_name := (tmp_extract ++ [final_dirname])%list in
          with_fs (os_rename full_dirname full_renamed_name) ;;
          with_fs (shutil_move full_renamed_name output_dir) ;;
          ret true
        else ret false
    | _ => ret false
    end ;;
  if returned then ret tt
  else raise (RuntimeError (sdk_error_message dirnames)).

(** Download an SDK to a directory. *)
Definition download_sdk (rest_api_id : string) (output_dir : path)
    (api_gateway_stage sdk_type : string) : M unit :=
  tmp_extract <- download_sdk_extract rest_api_id api_gateway_stage sdk_type ;;
  download_sdk_install tmp_extract output_dir sdk_type.

(** ** The public surface as data

    One constructor per method a caller can invoke, so that statements
    about every operation can quantify over [Op]. *)

Inductive Op : Type :=
  | LambdaFunctionExists (name : string)
  | GetFunctionConfiguration (name : string)
  | CreateFunction (function_name role_arn zip_contents runtime : string)
      (environment_variables tags : option (gmap string string))
      (timeout memory_size : option Z)
  | DeleteFunction (function_name : string)
  | UpdateFunction (function_name zip_contents : string)
      (environment_variables : option (gmap string string))
      (runtime : option string) (tags : option (gmap string string))
      (timeout memory_size : option Z)
  | GetRoleArnForName (name : string)
  | DeleteRolePolicy (role_name policy_name : string)
  | PutRolePolicy (role_name policy_name : string) (policy_document : pyval)
  | CreateRole (name : string) (trust_policy policy : pyval)
  | DeleteRole (name : string)
  | GetRestApiId (name : string)
  | RestApiExists (rest_api_id : string)
  | ImportRestApi (swagger_document : pyval)
  | UpdateApiFromSwagger (rest_api_id : string) (swagger_document : pyval)
  | DeleteRestApi (rest_api_id : string)
  | DeployRestApi (rest_api_id api_gateway_stage : string)
  | AddPermissionForApigatewayIfNeeded
      (function_name region_name account_id rest_api_id random_id : string)
  | GetFunctionPolicy (function_name : string)
  | DownloadSdk (rest_api_id : string) (output_dir : path)
      (api_gateway_stage sdk_type : string)
  | GetSdkDownloadStream (rest_api_id api_gateway_stage sdk_type : string)
  | AddPermissionForApigateway
      (function_name region_name account_id rest_api_id random_id : string)
  | RegionName
  | IterLogEvents (log_group_name : string) (interleaved : bool).

Definition returning {A} (f : A -> pyval) (m : M A) : M pyval :=
  a <- m ;; ret (f a).

Definition run_op (op : Op) : M pyval :=
  match op with
  | LambdaFunctionExists name => returning PBool (lambda_function_exists name)
  | GetFunctionConfiguration name => get_function_configuration name
  | CreateFunction fn role zip rt ev tags t m =>
      create_function fn role zip rt ev tags t m
  | DeleteFunction fn => returning (fun _ => PNone) (delete_function fn)
  | UpdateFunction fn zip ev rt tags t m => update_function fn zip ev rt tags t m
  | GetRoleArnForName name => get_role_arn_for_name name
  | DeleteRolePolicy role policy =>
      returning (fun _ => PNone) (delete_role_policy role (PStr policy))
  | PutRolePolicy role policy doc =>
      returning (fun _ => PNone) (put_role_policy role policy doc)
  | CreateRole name trust policy => create_role name trust policy
  | DeleteRole name => returning (fun _ => PNone) (delete_role name)
  | GetRestApiId name => get_rest_api_id name
  | RestApiExists id => returning PBool (rest_api_exists id)
  | ImportRestApi doc => import_rest_api doc
  | UpdateApiFromSwagger id doc =>
      returning (fun _ => PNone) (update_api_from_swagger id doc)
  | DeleteRestApi id => returning (fun _ => PNone) (delete_rest_api id)
  | DeployRestApi id stage =>
      returning (fun _ => PNone) (deploy_rest_api id stage)
  | AddPermissionForApigatewayIfNeeded fn region account api rid =>
      returning (fun _ => PNone)
        (add_permission_for_apigateway_if_needed fn region account api rid)
  | GetFunctionPolicy fn => get_function_policy fn
  | DownloadSdk id out stage kind =>
      returning (fun _ => PNone) (download_sdk id out stage kind)
  | GetSdkDownloadStream id stage kind => get_sdk_download_stream id stage kind
  | AddPermissionForApigateway fn region account api rid =>
      returning (fun _ => PNone)
        (add_permission_for_apigateway fn region account api rid)
  | RegionName => returning PStr region_name
  | IterLogEvents group interleaved =>
      returning PList (iter_log_events group interleaved)
  end.

(** A caller's session with the client: operations one after the other,
    each started whatever the previous one returned or raised. *)
Fixpoint run_ops (ops : list Op) (E : Env) (w : World) : World :=
  match ops with
  | [] => w
  | op :: ops' => run_ops ops' E (snd (run_op op E w))
  end.

(** ** Vocabulary of the statements *)

(** The events a computation adds to the trace. *)
Definition new_events {A} (m : M A) (E : Env) (w : World) : list Event :=
  drop (length (trace w)) (trace (snd (m E w))).

(** The keyword arguments of the calls of one method, in order. *)
Fixpoint calls_of (method : string) (evs : list Event)
  : list (list (string * pyval)) :=
  match evs with
  | [] => []
  | Call _ m kwargs _ :: evs' =>
      if String.eqb m method then kwargs :: calls_of method evs'
      else calls_of method evs'
  | _ :: evs' => calls_of method evs'
  end.

(** The requests of a trace: method and keyword arguments, in order. *)
Fixpoint requests (evs : list Event) : list (string * list (string * pyval)) :=
  match evs with
  | [] => []
  | Call _ m kwargs _ :: evs' => (m, kwargs) :: requests evs'
  | _ :: evs' => requests evs'
  end.

(** The seconds slept, in order. *)
Fixpoint sleeps (evs : list Event) : list Z :=
  match evs with
  | [] => []
  | Sleep s :: evs' => s :: sleeps evs'
  | _ :: evs' => sleeps evs'
  end.

Definition total_sleep (evs : list Event) : Z := foldr Z.add 0%Z (sleeps evs).

(** The exceptions the collaborators raised. *)
Fixpoint failures (evs : list Event) : list exn :=
  match evs with
  | [] => []
  | Call _ _ _ (Raise e) :: evs' => e :: failures evs'
  | CreateClient _ (Raise e) :: evs' => e :: failures evs'
  | _ :: evs' => failures evs'
  end.

(** The clients the session built for a service. *)
Fixpoint constructed (service_name : string) (evs : list Event) : list Client :=
  match evs with
  | [] => []
  | CreateClient s (Ok c) :: evs' =>
      if String.eqb s service_name then c :: constructed service_name evs'
      else constructed service_name evs'
  | _ :: evs' => constructed service_name evs'
  end.

(** The value of a document under a path of keys, when every key is there. *)
Fixpoint py_field (keys : list string) (obj : pyval) : option pyval :=
  match keys with
  | [] => Some obj
  | k :: keys' =>
      match obj with
      | PDict d =>
          match dict_get k d with
          | Some v => py_field keys' v
          | None => None
          end
      | _ => None
      end
  end.

Definition str_field (keys : list string) (obj : pyval) : option string :=
  match py_field keys obj with
  | Some (PStr s) => Some s
  | _ => None
  end.

(** The specification's notion of an existing grant: the action is the
    invoke action, the source-ARN condition is the expected ARN and the
    principal service is the gateway. *)
Definition is_existing_grant (statement : pyval) (expected_source_arn : string)
  : bool :=
  bool_decide (str_field ["Action"] statement = Some "lambda:InvokeFunction")
  && bool_decide (str_field ["Condition"; "ArnLike"; "AWS:SourceArn"] statement
                  = Some expected_source_arn)
  && bool_decide (str_field ["Principal"; "Service"] statement
                  = Some "apigateway.amazonaws.com").

(** What the remote tag set becomes when the keys [remove] are removed and
    the entries [upsert] are then written. *)
Definition apply_tag_diff (remote : gmap string string) (remove : list string)
    (upsert : gmap string string) : gmap string string :=
  upsert ∪ foldr delete remote remove.

(** [obj.get(k1, {}).get(k2, {})....get(kn, final)] *)
Fixpoint get_chain (keys : list string) (final : pyval) (obj : pyval)
  : Result pyval :=
  match keys with
  | [] => Ok obj
  | [k] => py_get obj k final
  | k :: keys' =>
      (v <~ py_get obj k (PDict []) ;; get_chain keys' final v)%res
  end.

(** What [create_function] leaves in the trace when its request raised the
    exceptions [es] one after the other and each was retried. *)
Definition retry_events (client : Client) (kwargs : list (string * pyval))
    (es : list exn) : list Event :=
  flat_map (fun e => [Call client "create_function" kwargs (Raise e);
                      Sleep DELAY_TIME]) es.

(** The class of the failure that [create_function] retries. *)
Definition transient (client : Client) (e : exn) : Prop :=
  isinstance e (exceptions client "InvalidParameterValueException") = true.

(** Events that are [untag_resource] and [tag_resource] requests only. *)
Definition tag_requests_only (client : Client) (evs : list Event) : Prop :=
  Forall (fun ev => exists method kwargs out,
            ev = Call client method kwargs out
            /\ (method = "untag_resource" \/ method = "tag_resource")) evs.

(** The request by which the client grants API Gateway the right to invoke
    a function. *)
Definition grant_kwargs
    (function_name region_name account_id rest_api_id random_id : string)
  : list (string * pyval) :=
  [("Action", PStr "lambda:InvokeFunction");
   ("FunctionName", PStr function_name);
   ("StatementId", PStr random_id);
   ("Principal", PStr "apigateway.amazonaws.com");
   ("SourceArn", PStr ("arn:aws:execute-api:" +:+ region_name +:+ ":"
                         +:+ account_id +:+ ":" +:+ rest_api_id +:+ "/*"))].

(** A computation keeps to the relation [P] between the world it starts in
    and the world it ends in. *)
Definition steps {A} (P : World -> World -> Prop) (m : M A) : Prop :=
  forall E w, P w (snd (m E w)).

(** No entry of the client cache is dropped or replaced. *)
Definition cache_le (w w' : World) : Prop :=
  forall service_name client,
    _client_cache w !! service_name = Some client ->
    _client_cache w' !! service_name = Some client.

(** The clients the session has built are the entries of the cache. *)
Definition built_once (w : World) : Prop :=
  forall service_name,
    constructed service_name (trace w)
    = option_list (_client_cache w !! service_name).


(** Every failure of a collaborator during [m] is the exception [m] raises,
    but for the failures that [H] relates to the outcome of [m]. *)
Definition faithful_but {A} (H : exn -> Result A -> Prop) (m : M A) : Prop :=
  forall E w,
    exists evs,
      trace (snd (m E w)) = (trace w ++ evs)%list
      /\ forall e, e ∈ failures evs ->
           fst (m E w) = Raise e \/ H e (fst (m E w)).

Definition faithful {A} (m : M A) : Prop := faithful_but (fun _ _ => False) m.





(** Neither path lies under the other. *)
Definition disjoint_paths (p q : path) : Prop :=
  ~ p `prefix_of` q /\ ~ q `prefix_of` p.

(** ** Sample environments and worlds *)

(** Every request succeeds with an empty response. *)
Definition quiet_env : Env :=
  {| session_create_client := fun _ _ => Ok "us-west-2";
     remote := fun _ _ _ _ => Ok (PDict []);
     remote_pages := fun _ _ _ _ => [];
     json_loads := fun _ => Ok (PDict []);
     json_dumps := fun _ _ => Ok "{}";
     mkdtemp_path := fun _ => Ok ["tmp"; "tmpdir"];
     zip_members := fun _ => Ok None |}.

(** A machine with [/tmp] and [/out]. *)
Definition sample_root : node :=
  Dir [("tmp", Dir []); ("out", Dir [("README", File "hello")])].

(** A client object that has already talked to Lambda. *)
Definition lambda_world : World :=
  snd (_client "lambda" quiet_env (init sample_root)).

Definition lambda_client : Client := mkClient "lambda" 0 "us-west-2".

(** The tags of the end-to-end scenario. *)
Definition scenario_tags : gmap string string := {["a" := "1"]}.
Definition scenario_remote_tags : gmap string string :=
  <["b" := "2"]> {["a" := "0"]}.

(** A fault injector: the first [k] [create_function] requests raise the
    transient class, the next one succeeds. *)
Definition role_not_ready : exn :=
  ClientError "lambda" "InvalidParameterValueException"
    "The role defined for the function cannot be assumed by Lambda.".

Definition sample_arn : pyval :=
  PStr "arn:aws:lambda:us-west-2:123:function:app".

Definition flaky_env (k : nat) : Env :=
  {| session_create_client := fun _ _ => Ok "us-west-2";
     remote := fun h _ _ _ =>
       if (length (calls_of "create_function" h) <? k)%nat
       then Raise role_not_ready
       else Ok (PDict [("FunctionArn", sample_arn)]);
     remote_pages := fun _ _ _ _ => [];
     json_loads := fun _ => Ok (PDict []);
     json_dumps := fun _ _ => Ok "{}";
     mkdtemp_path := fun _ => Ok ["tmp"; "tmpdir"];
     zip_members := fun _ => Ok None |}.

(** Every request raises [e]. *)
Definition failing_env (e : exn) : Env :=
  {| session_create_client := fun _ _ => Ok "us-west-2";
     remote := fun _ _ _ _ => Raise e;
     remote_pages := fun _ _ _ _ => [];
     json_loads := fun _ => Ok (PDict []);
     json_dumps := fun _ _ => Ok "{}";
     mkdtemp_path := fun _ => Ok ["tmp"; "tmpdir"];
     zip_members := fun _ => Ok None |}.

Definition access_denied : exn :=
  ClientError "lambda" "AccessDeniedException" "not authorized".

(** A role with the inline policies [P1] and [P2]; every request succeeds. *)
Definition role_env : Env :=
  {| session_create_client := fun _ _ => Ok "us-west-2";
     remote := fun _ _ method _ =>
       if String.eqb method "list_role_policies"
       then Ok (PDict [("PolicyNames", PList [PStr "P1"; PStr "P2"])])
       else Ok (PDict []);
     remote_pages := fun _ _ _ _ => [];
     json_loads := fun _ => Ok (PDict []);
     json_dumps := fun _ _ => Ok "{}";
     mkdtemp_path := fun _ => Ok ["tmp"; "tmpdir"];
     zip_members := fun _ => Ok None |}.

(** The requests [delete_role] is to make for a role with the inline
    policies [policies]. *)
Definition delete_role_requests (name : string) (policies : list pyval)
  : list (string * list (string * pyval)) :=
  ("list_role_policies", [("RoleName", PStr name)])
  :: map (fun policy_name =>
            ("delete_role_policy",
             [("RoleName", PStr name); ("PolicyName", policy_name)]))
         policies
  ++ [("delete_role", [("RoleName", PStr name)])].

(** The end-to-end scenario: the function has the remote tags
    [{"a": "0", "b": "2"}]; every request succeeds. *)
Definition scenario_env : Env :=
  {| session_create_client := fun _ _ => Ok "us-west-2";
     remote := fun _ _ method _ =>
       if String.eqb method "update_function_code"
       then Ok (PDict [("FunctionArn", sample_arn)])
       else if String.eqb method "list_tags"
       then Ok (PDict [("Tags", PDict [("a", PStr "0"); ("b", PStr "2")])])
       else Ok (PDict []);
     remote_pages := fun _ _ _ _ => [];
     json_loads := fun _ => Ok (PDict []);
     json_dumps := fun _ _ => Ok "{}";
     mkdtemp_path := fun _ => Ok ["tmp"; "tmpdir"];
     zip_members := fun _ => Ok None |}.

(** A function whose policy is the document [policy], or that has none
    when [policy] is [None]; [json.loads] hands the document over. *)
Definition policy_env (policy : option pyval) : Env :=
  {| session_create_client := fun _ _ => Ok "us-west-2";
     remote := fun _ _ method _ =>
       if String.eqb method "get_policy"
       then match policy with
            | Some _ => Ok (PDict [("Policy", PStr "<policy>")])
            | None => Raise (ClientError "lambda" "ResourceNotFoundException"
                               "The resource you requested does not exist.")
            end
       else Ok (PDict []);
     remote_pages := fun _ _ _ _ => [];
     json_loads := fun _ => match policy with
                            | Some doc => Ok doc
                            | None => Raise (ValueError "no JSON")
                            end;
     json_dumps := fun _ _ => Ok "{}";
     mkdtemp_path := fun _ => Ok ["tmp"; "tmpdir"];
     zip_members := fun _ => Ok None |}.

(** The statement of the policy that [add_permission] leaves behind, as the
    source shows it. *)
Definition sample_statement (source_arn : string) : pyval :=
  PDict [("Action", PStr "lambda:InvokeFunction");
         ("Condition", PDict [("ArnLike", PDict [("AWS:SourceArn", PStr source_arn)])]);
         ("Effect", PStr "Allow");
         ("Principal", PDict [("Service", PStr "apigateway.amazonaws.com")]);
         ("Resource", PStr "arn:aws:lambda:us-west-2:aid:function:name");
         ("Sid", PStr "e4755709-067e-4254-b6ec-e7f9639e6f7b")].

Definition sample_policy (source_arn : string) : pyval :=
  PDict [("Id", PStr "default");
         ("Statement", PList [sample_statement source_arn]);
         ("Version", PStr "2012-10-17")].

Definition not_found : exn :=
  ClientError "lambda" "ResourceNotFoundException"
    "The resource you requested does not exist.".



(** An API whose SDK archive extracts to the entries [members]. *)
Definition sdk_env (members : list (string * node)) : Env :=
  {| session_create_client := fun _ _ => Ok "us-west-2";
     remote := fun _ _ _ _ => Ok (PDict [("body", PStream "PK-zip-bytes")]);
     remote_pages := fun _ _ _ _ => [];
     json_loads := fun _ => Ok (PDict []);
     json_dumps := fun _ _ => Ok "{}";
     mkdtemp_path := fun _ => Ok ["tmp"; "tmpdir"];
     zip_members := fun _ => Ok (Some members) |}.

Definition js_sdk : list (string * node) :=
  [("apiGateway-js-sdk", Dir [("apigClient.js", File "code")])].

(** ** Further vocabulary and sample environments *)

(** An item of a listing that has a name, and not the name looked for. *)
Definition other_name (name : string) (api : pyval) : Prop :=
  exists n, py_getitem api "name" = Ok n /\ py_eq_str n name = false.

(** Two APIs of the same name, and one of another. *)
Definition apis_env : Env :=
  {| session_create_client := fun _ _ => Ok "us-west-2";
     remote := fun _ _ _ _ =>
       Ok (PDict [("items",
                   PList [PDict [("id", PStr "one"); ("name", PStr "other")];
                          PDict [("id", PStr "two"); ("name", PStr "app")];
                          PDict [("id", PStr "three"); ("name", PStr "app")]])]);
     remote_pages := fun _ _ _ _ => [];
     json_loads := fun _ => Ok (PDict []);
     json_dumps := fun _ _ => Ok "{}";
     mkdtemp_path := fun _ => Ok ["tmp"; "tmpdir"];
     zip_members := fun _ => Ok None |}.

Definition gateway_client : Client := mkClient "apigateway" 0 "us-west-2".
Definition gateway_world : World :=
  snd (_client "apigateway" quiet_env (init sample_root)).

Definition iam_client : Client := mkClient "iam" 0 "us-west-2".
Definition iam_world : World := snd (_client "iam" quiet_env (init sample_root)).

(** The outcome of a request guarded by [except cls]: [on_success] when it
    returns, [on_caught] when it raises the class, the exception itself
    otherwise. *)
Definition guarded {A} (out : Result pyval) (cls : string * string)
    (on_success on_caught : Result A) : Result A :=
  match out with
  | Ok _ => on_success
  | Raise e => if isinstance e cls then on_caught else Raise e
  | Diverge => Diverge
  end.

(** IAM answers [create_role] with the ARN of the role; [json.dumps] is
    the identity on the sample documents. *)
Definition iam_env : Env :=
  {| session_create_client := fun _ _ => Ok "us-west-2";
     remote := fun _ _ method _ =>
       if String.eqb method "create_role"
       then Ok (PDict [("Role", PDict [("Arn", PStr "arn:aws:iam::123:role/app")])])
       else if String.eqb method "get_role"
       then Ok (PDict [("Role", PDict [("Arn", PStr "arn:aws:iam::123:role/app")])])
       else Ok (PDict []);
     remote_pages := fun _ _ _ _ => [];
     json_loads := fun _ => Ok (PDict []);
     json_dumps := fun _ indent => match indent with
                                   | Some _ => Ok "{ }"
                                   | None => Ok "{}"
                                   end;
     mkdtemp_path := fun _ => Ok ["tmp"; "tmpdir"];
     zip_members := fun _ => Ok None |}.

(** The operation that works on the file system, the operation that waits,
    and the service an operation asks for first. *)
Definition uses_file_system (op : Op) : bool :=
  match op with
  | DownloadSdk _ _ _ _ => true
  | _ => false
  end.

Definition may_sleep (op : Op) : bool :=
  match op with
  | CreateFunction _ _ _ _ _ _ _ _ => true
  | _ => false
  end.

Definition service_of (op : Op) : string :=
  match op with
  | LambdaFunctionExists _ | GetFunctionConfiguration _
  | CreateFunction _ _ _ _ _ _ _ _ | DeleteFunction _
  | UpdateFunction _ _ _ _ _ _ _
  | AddPermissionForApigatewayIfNeeded _ _ _ _ _ | GetFunctionPolicy _
  | AddPermissionForApigateway _ _ _ _ _ => "lambda"
  | GetRoleArnForName _ | DeleteRolePolicy _ _ | PutRolePolicy _ _ _
  | CreateRole _ _ _ | DeleteRole _ => "iam"
  | GetRestApiId _ | RestApiExists _ | ImportRestApi _
  | UpdateApiFromSwagger _ _ | DeleteRestApi _ | DeployRestApi _ _
  | DownloadSdk _ _ _ _ | GetSdkDownloadStream _ _ _ | RegionName => "apigateway"
  | IterLogEvents _ _ => "logs"
  end.

(** A session that cannot build any client. *)
Definition no_session_env (e : exn) : Env :=
  {| session_create_client := fun _ _ => Raise e;
     remote := fun _ _ _ _ => Ok (PDict []);
     remote_pages := fun _ _ _ _ => [];
     json_loads := fun _ => Ok (PDict []);
     json_dumps := fun _ _ => Ok "{}";
     mkdtemp_path := fun _ => Ok ["tmp"; "tmpdir"];
     zip_members := fun _ => Ok None |}.

(** The requests [_update_function_tags] is to make for a function whose
    tags are [remote_tags]. *)
Definition update_function_tags_requests (function_arn : pyval)
    (requested_tags remote_tags : gmap string string)
  : list (string * list (string * pyval)) :=
  let remove := tag_keys_to_remove requested_tags remote_tags in
  let upsert := tags_to_add requested_tags remote_tags in
  [("list_tags", [("Resource", function_arn)])]
  ++ (if nonempty remove
      then [("untag_resource",
             [("Resource", function_arn); ("TagKeys", PList (map PStr remove))])]
      else [])
  ++ (if bool_decide (upsert ≠ ∅)
      then [("tag_resource",
             [("Resource", function_arn); ("Tags", py_of_strmap upsert)])]
      else []).

(** The function of the end-to-end scenario, with a caller that may not
    remove tags. *)
Definition untag_denied_env : Env :=
  {| session_create_client := fun _ _ => Ok "us-west-2";
     remote := fun _ _ method _ =>
       if String.eqb method "list_tags"
       then Ok (PDict [("Tags", PDict [("a", PStr "0"); ("b", PStr "2")])])
       else if String.eqb method "untag_resource"
       then Raise access_denied
       else Ok (PDict [("FunctionArn", sample_arn)]);
     remote_pages := fun _ _ _ _ => [];
     json_loads := fun _ => Ok (PDict []);
     json_dumps := fun _ _ => Ok "{}";
     mkdtemp_path := fun _ => Ok ["tmp"; "tmpdir"];
     zip_members := fun _ => Ok None |}.

(** A role with the inline policies [P1], [P2] and [P3], of which [P2]
    cannot be deleted. *)
Definition policy_locked_env : Env :=
  {| session_create_client := fun _ _ => Ok "us-west-2";
     remote := fun _ _ method kwargs =>
       if String.eqb method "list_role_policies"
       then Ok (PDict [("PolicyNames", PList [PStr "P1"; PStr "P2"; PStr "P3"])])
       else if String.eqb method "delete_role_policy"
       then match dict_get "PolicyName" kwargs with
            | Some (PStr "P2") => Raise access_denied
            | _ => Ok (PDict [])
            end
       else Ok (PDict []);
     remote_pages := fun _ _ _ _ => [];
     json_loads := fun _ => Ok (PDict []);
     json_dumps := fun _ _ => Ok "{}";
     mkdtemp_path := fun _ => Ok ["tmp"; "tmpdir"];
     zip_members := fun _ => Ok None |}.

(** A policy whose first statement is the grant for [source_arn] and
    whose second statement is not even a dict. *)
Definition grant_then_junk_policy (source_arn : string) : pyval :=
  PDict [("Statement", PList [sample_statement source_arn; PInt 0])].






(** What is at [q] is the same in [w'] as in [w]. *)
Definition same_at (q : path) (w w' : World) : Prop :=
  fs_lookup q (fs w') = fs_lookup q (fs w).

(** The operations that make one request whatever happens, with the
    service, the method and the keyword arguments of that request. *)
Definition single_request (op : Op)
  : option (string * string * list (string * pyval)) :=
  match op with
  | LambdaFunctionExists name =>
      Some ("lambda", "get_function", [("FunctionName", PStr name)])
  | GetFunctionConfiguration name =>
      Some ("lambda", "get_function_configuration", [("FunctionName", PStr name)])
  | DeleteFunction function_name =>
      Some ("lambda", "delete_function", [("FunctionName", PStr function_name)])
  | GetRoleArnForName name =>
      Some ("iam", "get_role", [("RoleName", PStr name)])
  | DeleteRolePolicy role_name policy_name =>
      Some ("iam", "delete_role_policy",
            [("RoleName", PStr role_name); ("PolicyName", PStr policy_name)])
  | RestApiExists rest_api_id =>
      Some ("apigateway", "get_rest_api", [("restApiId", PStr rest_api_id)])
  | DeleteRestApi rest_api_id =>
      Some ("apigateway", "delete_rest_api", [("restApiId", PStr rest_api_id)])
  | DeployRestApi rest_api_id api_gateway_stage =>
      Some ("apigateway", "create_deployment",
            [("restApiId", PStr rest_api_id);
             ("stageName", PStr api_gateway_stage)])
  | GetFunctionPolicy function_name =>
      Some ("lambda", "get_policy", [("FunctionName", PStr function_name)])
  | GetSdkDownloadStream rest_api_id api_gateway_stage sdk_type =>
      Some ("apigateway", "get_sdk",
            [("restApiId", PStr rest_api_id);
             ("stageName", PStr api_gateway_stage);
             ("sdkType", PStr sdk_type)])
  | AddPermissionForApigateway function_name region account api random_id =>
      Some ("lambda", "add_permission",
            grant_kwargs function_name region account api random_id)
  | GetRestApiId _ => Some ("apigateway", "get_rest_apis", [])
  | _ => None
  end.

(** No document can be serialised. *)
Definition unserialisable_env : Env :=
  {| session_create_client := fun _ _ => Ok "us-west-2";
     remote := fun _ _ _ _ => Ok (PDict []);
     remote_pages := fun _ _ _ _ => [];
     json_loads := fun _ => Ok (PDict []);
     json_dumps := fun _ _ => Raise TypeError;
     mkdtemp_path := fun _ => Ok ["tmp"; "tmpdir"];
     zip_members := fun _ => Ok None |}.

(** * Properties *)

(** ** Dictionaries *)

Lemma py_eq_str_true v s : py_eq_str v s = true <-> v = PStr s.
Proof.
  destruct v; cbn [py_eq_str]; try (split; discriminate).
  destruct (String.eqb_spec s0 s); split; congruence.
Qed.

Lemma dict_get_set_ne k k' v d :
  k <> k' -> dict_get k (dict_set k' v d) = dict_get k d.
Proof.
  intros Hne. induction d as [|[k0 v0] d IH]; simpl.
  - destruct (String.eqb_spec k k'); congruence.
  - destruct (String.eqb_spec k' k0) as [->|]; simpl.
    + destruct (String.eqb_spec k k0); congruence.
    + destruct (String.eqb_spec k k0); congruence.
Qed.


(** A chain of [get]s that ends on the default [''] compares equal to a
    non-empty string exactly when the path is there and holds it. *)
Lemma get_chain_field keys obj v s :
  keys <> [] -> s <> "" ->
  get_chain keys (PStr "") obj = Ok v ->
  (py_eq_str v s = true <-> str_field keys obj = Some s).
Proof.
  intros Hkeys Hs. revert obj.
  induction keys as [|k keys IH]; [done|]. intros obj Hrun.
  destruct keys as [|k' keys].
  - simpl in Hrun. unfold str_field. simpl.
    destruct obj; simpl in Hrun; try discriminate.
    destruct (dict_get k items) as [x|]; inversion Hrun; subst.
    + rewrite py_eq_str_true. destruct v; split; congruence.
    + rewrite py_eq_str_true. split; [congruence|discriminate].
  - change (get_chain (k :: k' :: keys) (PStr "") obj)
      with (rbind (py_get obj k (PDict []))
                  (get_chain (k' :: keys) (PStr ""))) in Hrun.
    destruct obj; simpl in Hrun; try discriminate.
    unfold str_field in *. cbn [py_field].
    destruct (dict_get k items) as [x|]; simpl in Hrun.
    + by apply IH.
    + specialize (IH ltac:(done) (PDict []) Hrun).
      rewrite IH. simpl. split; discriminate.
Qed.

Lemma get_chain_raise keys final obj e :
  get_chain keys final obj = Raise e -> py_field keys obj = None.
Proof.
  revert obj. induction keys as [|k keys IH]; [discriminate|]. intros obj Hrun.
  destruct keys as [|k' keys].
  - destruct obj; simpl in *; try done.
    destruct (dict_get k items); discriminate Hrun.
  - change (get_chain (k :: k' :: keys) final obj)
      with (rbind (py_get obj k (PDict [])) (get_chain (k' :: keys) final))
      in Hrun.
    destruct obj; try done. cbn [py_field]. simpl in Hrun.
    destruct (dict_get k items) as [x|]; [by apply IH | done].
Qed.

Lemma get_chain_total keys final obj :
  (exists v, get_chain keys final obj = Ok v)
  \/ get_chain keys final obj = Raise AttributeError.
Proof.
  revert obj. induction keys as [|k keys IH]; intros obj; [by left; eexists|].
  destruct keys as [|k' keys].
  - simpl. destruct obj; simpl; try (by right).
    destruct (dict_get k items); left; by eexists.
  - change (get_chain (k :: k' :: keys) final obj)
      with (rbind (py_get obj k (PDict [])) (get_chain (k' :: keys) final)).
    destruct obj; simpl; try (by right).
    destruct (dict_get k items); apply IH.
Qed.

(** ** The permission check *)

(** The source, read as three lookups. *)
Lemma _gives_apigateway_access_unfold statement function_name source_arn :
  _gives_apigateway_access statement function_name source_arn =
  (action <~ py_getitem statement "Action" ;;
   if negb (py_eq_str action "lambda:InvokeFunction") then Ok false else
   arn <~ get_chain ["Condition"; "ArnLike"; "AWS:SourceArn"] (PStr "") statement ;;
   if negb (py_eq_str arn source_arn) then Ok false else
   service <~ get_chain ["Principal"; "Service"] (PStr "") statement ;;
   if negb (py_eq_str service "apigateway.amazonaws.com") then Ok false else
   Ok true)%res.
Proof.
  unfold _gives_apigateway_access.
  destruct (py_getitem statement "Action") as [a| |]; simpl; try done.
  destruct (negb (py_eq_str a "lambda:InvokeFunction")); try done.
  destruct (py_get statement "Condition" (PDict [])) as [c| |]; simpl; try done.
  destruct (py_get c "ArnLike" (PDict [])) as [al| |]; simpl; try done.
  destruct (py_get al "AWS:SourceArn" (PStr "")) as [x| |]; simpl; try done.
  destruct (negb (py_eq_str x source_arn)); try done.
  destruct (py_get statement "Principal" (PDict [])) as [p| |]; simpl; done.
Qed.

Lemma action_field statement a :
  py_getitem statement "Action" = Ok a ->
  (py_eq_str a "lambda:InvokeFunction" = true
   <-> str_field ["Action"] statement = Some "lambda:InvokeFunction").
Proof.
  unfold str_field. destruct statement; simpl; try discriminate.
  destruct (dict_get "Action" items) as [x|]; [|discriminate].
  intros [= ->]. rewrite py_eq_str_true. destruct a; split; congruence.
Qed.

Lemma _gives_apigateway_access_grant statement function_name source_arn :
  source_arn <> "" ->
  (_gives_apigateway_access statement function_name source_arn = Ok true
   <-> is_existing_grant statement source_arn = true).
Proof.
  intros Harn. rewrite _gives_apigateway_access_unfold.
  unfold is_existing_grant.
  rewrite !andb_true_iff, !bool_decide_eq_true.
  destruct (py_getitem statement "Action") as [a|e|] eqn:Ha; cbn [rbind negb].
  - pose proof (action_field _ _ Ha) as Hact.
    destruct (py_eq_str a "lambda:InvokeFunction") eqn:Hinv; cbn [rbind negb].
    2:{ split; [discriminate|]. intros [[H _] _]. apply Hact in H. discriminate. }
    destruct (get_chain ["Condition"; "ArnLike"; "AWS:SourceArn"] (PStr "") statement)
      as [x|e|] eqn:Hc; cbn [rbind negb].
    + pose proof (get_chain_field ["Condition"; "ArnLike"; "AWS:SourceArn"]
                    statement x source_arn ltac:(done) Harn Hc) as Hsrc.
      destruct (py_eq_str x source_arn) eqn:Hx; cbn [rbind negb].
      2:{ split; [discriminate|]. intros [[_ H] _]. apply Hsrc in H. discriminate. }
      destruct (get_chain ["Principal"; "Service"] (PStr "") statement)
        as [y|e|] eqn:Hp; cbn [rbind negb].
      * pose proof (get_chain_field ["Principal"; "Service"] statement y
                      "apigateway.amazonaws.com" ltac:(done) ltac:(done) Hp)
          as Hsvc.
        destruct (py_eq_str y "apigateway.amazonaws.com") eqn:Hy; cbn [rbind negb].
        -- split; [|done]. intros _. repeat split; tauto.
        -- split; [discriminate|]. intros [_ H]. apply Hsvc in H. discriminate.
      * split; [discriminate|]. intros [_ H].
        apply get_chain_raise in Hp. unfold str_field in H. by rewrite Hp in H.
      * split; [discriminate|]. intros [_ H].
        destruct (get_chain_total ["Principal"; "Service"] (PStr "") statement)
          as [[? ?]|?]; congruence.
    + split; [discriminate|]. intros [[_ H] _].
      apply get_chain_raise in Hc. unfold str_field in H. by rewrite Hc in H.
    + destruct (get_chain_total ["Condition"; "ArnLike"; "AWS:SourceArn"]
                  (PStr "") statement) as [[? ?]|?]; congruence.
  - split; [discriminate|]. intros [[H _] _].
    unfold str_field in H. destruct statement; simpl in *; try done.
    destruct (dict_get "Action" items); done.
  - destruct statement; simpl in Ha; try done.
    destruct (dict_get "Action" items); done.
Qed.

Lemma str_field_get_chain keys final obj s :
  keys <> [] -> str_field keys obj = Some s ->
  get_chain keys final obj = Ok (PStr s).
Proof.
  intros Hkeys. revert obj. induction keys as [|k keys IH]; [done|].
  intros obj. unfold str_field in *. destruct keys as [|k' keys].
  - destruct obj; simpl; try done.
    destruct (dict_get k items) as [[]|]; simpl; congruence.
  - change (get_chain (k :: k' :: keys) final obj)
      with (rbind (py_get obj k (PDict [])) (get_chain (k' :: keys) final)).
    destruct obj; cbn [py_field]; try done. simpl.
    destruct (dict_get k items) as [x|]; [|done]. by apply IH.
Qed.

Lemma _gives_apigateway_access_shaped statement function_name source_arn a s p :
  str_field ["Action"] statement = Some a ->
  str_field ["Condition"; "ArnLike"; "AWS:SourceArn"] statement = Some s ->
  str_field ["Principal"; "Service"] statement = Some p ->
  _gives_apigateway_access statement function_name source_arn
  = Ok (is_existing_grant statement source_arn).
Proof.
  intros Ha Hs Hp. rewrite _gives_apigateway_access_unfold.
  unfold is_existing_grant. rewrite Ha, Hs, Hp.
  rewrite (str_field_get_chain ["Condition"; "ArnLike"; "AWS:SourceArn"]
             (PStr "") _ _ ltac:(done) Hs).
  rewrite (str_field_get_chain ["Principal"; "Service"]
             (PStr "") _ _ ltac:(done) Hp).
  assert (py_getitem statement "Action" = Ok (PStr a)) as ->.
  { unfold str_field in Ha. destruct statement; simpl in *; try done.
    destruct (dict_get "Action" items) as [[]|]; congruence. }
  cbn [rbind py_eq_str].
  destruct (String.eqb_spec a "lambda:InvokeFunction") as [->|Hna]; cbn [negb].
  2:{ rewrite (bool_decide_eq_false_2 (Some a = _)); [done | congruence]. }
  rewrite (bool_decide_eq_true_2 (Some "lambda:InvokeFunction" = _)); [|done].
  destruct (String.eqb_spec s source_arn) as [->|Hns]; cbn [negb andb].
  2:{ rewrite (bool_decide_eq_false_2 (Some s = _)); [done | congruence]. }
  rewrite (bool_decide_eq_true_2 (Some source_arn = _)); [|done].
  destruct (String.eqb_spec p "apigateway.amazonaws.com") as [->|Hnp]; cbn [negb andb].
  - by rewrite bool_decide_eq_true_2.
  - rewrite bool_decide_eq_false_2; [done | congruence].
Qed.

Lemma _gives_apigateway_access_ignores_key k v d function_name source_arn :
  k <> "Action" -> k <> "Condition" -> k <> "Principal" ->
  _gives_apigateway_access (PDict (dict_set k v d)) function_name source_arn
  = _gives_apigateway_access (PDict d) function_name source_arn.
Proof.
  intros H1 H2 H3. unfold _gives_apigateway_access, py_getitem.
  cbn [py_get]. by rewrite !dict_get_set_ne by congruence.
Qed.


(** C4. A statement counts as an existing grant exactly when its action is
    ['lambda:InvokeFunction'], its source-ARN condition is the expected
    (non-empty) source ARN, string for string, and its principal service is
    ['apigateway.amazonaws.com']; on a statement that has the three fields
    the check returns that boolean; the statement id, the resource and the
    function name play no part; an empty statement list has no match. *)
Theorem gives_apigateway_access_iff_grant
    (statement : pyval) (function_name source_arn : string)
    (Harn : source_arn <> "") :
  (_gives_apigateway_access statement function_name source_arn = Ok true
   <-> is_existing_grant statement source_arn = true)
  /\ (forall a s p,
        str_field ["Action"] statement = Some a ->
        str_field ["Condition"; "ArnLike"; "AWS:SourceArn"] statement = Some s ->
        str_field ["Principal"; "Service"] statement = Some p ->
        _gives_apigateway_access statement function_name source_arn
        = Ok (is_existing_grant statement source_arn))
  /\ (forall d v, statement = PDict d ->
        _gives_apigateway_access (PDict (dict_set "Sid" v d))
          function_name source_arn
        = _gives_apigateway_access statement function_name source_arn
        /\ _gives_apigateway_access (PDict (dict_set "Resource" v d))
             function_name source_arn
           = _gives_apigateway_access statement function_name source_arn)
  /\ (forall other_name,
        _gives_apigateway_access statement other_name source_arn
        = _gives_apigateway_access statement function_name source_arn)
  /\ scan_statements [] function_name source_arn = Ok false.
Proof.
  split; [by apply _gives_apigateway_access_grant|].
  split; [intros a s p; apply _gives_apigateway_access_shaped|].
  split; [|done].
  intros d v ->.
  split; by apply _gives_apigateway_access_ignores_key.
Qed.

Lemma gives_apigateway_access_iff_grant_witness :
  _gives_apigateway_access
    (sample_statement (_build_source_arn_str "us-west-2" "123" "abc")) "name"
    (_build_source_arn_str "us-west-2" "123" "abc") = Ok true
  /\ _gives_apigateway_access
       (sample_statement (_build_source_arn_str "us-west-2" "123" "xyz")) "name"
       (_build_source_arn_str "us-west-2" "123" "abc") = Ok false.
Proof.
  split.
  - apply (proj1 (gives_apigateway_access_iff_grant
             (sample_statement (_build_source_arn_str "us-west-2" "123" "abc"))
             "name" (_build_source_arn_str "us-west-2" "123" "abc")
             ltac:(discriminate))).
    vm_compute. reflexivity.
  - pose proof (gives_apigateway_access_iff_grant
             (sample_statement (_build_source_arn_str "us-west-2" "123" "xyz"))
             "name" (_build_source_arn_str "us-west-2" "123" "abc")
             ltac:(discriminate)) as (_ & H & _).
    rewrite (H "lambda:InvokeFunction"
               (_build_source_arn_str "us-west-2" "123" "xyz")
               "apigateway.amazonaws.com"); reflexivity.
Defined.

(** C10. The check is partial on the ['Action'] key and total on the two
    others: a statement without ['Action'] raises [KeyError]; a statement
    with an action and without ['Condition'] is a non-match for every source
    ARN the client builds; a statement with an action and without
    ['Principal'] is a non-match, unless its condition is not made of dicts,
    which raises [AttributeError] before the principal is looked at. *)
Theorem gives_apigateway_access_partial
    (d : list (string * pyval)) (function_name : string) :
  (dict_get "Action" d = None ->
   forall source_arn,
     _gives_apigateway_access (PDict d) function_name source_arn
     = Raise (KeyError "Action"))
  /\ (forall a region account api,
        dict_get "Action" d = Some a ->
        dict_get "Condition" d = None ->
        _gives_apigateway_access (PDict d) function_name
          (_build_source_arn_str region account api) = Ok false)
  /\ (forall a source_arn,
        dict_get "Action" d = Some a ->
        dict_get "Principal" d = None ->
        _gives_apigateway_access (PDict d) function_name source_arn = Ok false
        \/ (get_chain ["Condition"; "ArnLike"; "AWS:SourceArn"] (PStr "") (PDict d)
            = Raise AttributeError
            /\ _gives_apigateway_access (PDict d) function_name source_arn
               = Raise AttributeError)).
Proof.
  split; [|split].
  - intros Ha source_arn. unfold _gives_apigateway_access. simpl. by rewrite Ha.
  - intros a region account api Ha Hc.
    unfold _gives_apigateway_access, py_getitem. cbn [py_get]. rewrite Ha, Hc.
    cbn [rbind]. destruct (negb (py_eq_str a "lambda:InvokeFunction")); [done|].
    reflexivity.
  - intros a source_arn Ha Hp. rewrite _gives_apigateway_access_unfold.
    cbn [py_getitem]. rewrite Ha. cbn [rbind].
    destruct (negb (py_eq_str a "lambda:InvokeFunction")); [by left|].
    destruct (get_chain_total ["Condition"; "ArnLike"; "AWS:SourceArn"]
                (PStr "") (PDict d)) as [[x Hx]|Hx]; rewrite Hx; cbn [rbind].
    + left. destruct (negb (py_eq_str x source_arn)); [done|].
      unfold get_chain. cbn [py_get]. rewrite Hp. reflexivity.
    + by right.
Qed.

Lemma gives_apigateway_access_partial_witness :
  _gives_apigateway_access (PDict [("Sid", PStr "s")]) "name" "arn" 
  = Raise (KeyError "Action")
  /\ _gives_apigateway_access
       (PDict [("Action", PStr "lambda:InvokeFunction");
               ("Principal", PDict [("Service", PStr "apigateway.amazonaws.com")])])
       "name" (_build_source_arn_str "us-west-2" "123" "abc") = Ok false.
Proof.
  split.
  - apply (gives_apigateway_access_partial [("Sid", PStr "s")] "name").
    reflexivity.
  - apply (proj1 (proj2 (gives_apigateway_access_partial
             [("Action", PStr "lambda:InvokeFunction");
              ("Principal", PDict [("Service", PStr "apigateway.amazonaws.com")])]
             "name")) (PStr "lambda:InvokeFunction")); reflexivity.
Defined.

(** ** Tag reconciliation *)

Section tags.
Implicit Types desired remote : gmap string string.

Lemma elem_of_tag_keys_to_remove k desired remote :
  k ∈ tag_keys_to_remove desired remote <-> k ∈ dom remote /\ k ∉ dom desired.
Proof. unfold tag_keys_to_remove. rewrite elem_of_elements. set_solver. Qed.

Lemma tags_to_add_lookup_Some desired remote k v :
  tags_to_add desired remote !! k = Some v
  <-> desired !! k = Some v /\ remote !! k <> Some v.
Proof.
  unfold tags_to_add. rewrite map_lookup_filter_Some. simpl.
  rewrite not_elem_of_dom. split.
  - intros [Hd [Hn|Hn]]; split; congruence.
  - intros [Hd Hn]. split; [done|]. right. congruence.
Qed.

Lemma foldr_delete_lookup remote (l : list string) k :
  foldr delete remote l !! k = if decide (k ∈ l) then None else remote !! k.
Proof.
  induction l as [|x l IH]; simpl.
  - done.
  - destruct (decide (x = k)) as [->|Hne].
    + rewrite lookup_delete_eq. rewrite decide_True; [done | left].
    + rewrite lookup_delete_ne by done. rewrite IH.
      destruct (decide (k ∈ l)).
      * rewrite decide_True; [done | by right].
      * rewrite decide_False; [done|]. rewrite elem_of_cons. naive_solver.
Qed.

Lemma apply_tag_diff_desired desired remote :
  apply_tag_diff remote (tag_keys_to_remove desired remote)
    (tags_to_add desired remote) = desired.
Proof.
  apply map_eq. intros k. unfold apply_tag_diff.
  rewrite lookup_union, foldr_delete_lookup.
  destruct (tags_to_add desired remote !! k) as [v|] eqn:Hadd.
  - apply tags_to_add_lookup_Some in Hadd as [-> _].
    by destruct (decide _); [|destruct (remote !! k)].
  - destruct (decide (k ∈ tag_keys_to_remove desired remote)) as [Hin|Hout].
    + apply elem_of_tag_keys_to_remove in Hin as [_ Hin].
      apply not_elem_of_dom in Hin. by rewrite Hin.
    + rewrite elem_of_tag_keys_to_remove in Hout.
      destruct (desired !! k) as [v|] eqn:Hd.
      * destruct (decide (remote !! k = Some v)) as [->|Hne]; [done|].
        assert (tags_to_add desired remote !! k = Some v)
          by by apply tags_to_add_lookup_Some.
        congruence.
      * destruct (remote !! k) as [v|] eqn:Hr; [|done].
        exfalso. apply Hout. split.
        -- apply elem_of_dom. by eexists.
        -- by apply not_elem_of_dom.
Qed.

Lemma tag_keys_to_remove_same desired : tag_keys_to_remove desired desired = [].
Proof.
  unfold tag_keys_to_remove.
  replace (dom desired ∖ dom desired) with (∅ : gset string) by set_solver.
  apply elements_empty.
Qed.

Lemma tags_to_add_same desired : tags_to_add desired desired = ∅.
Proof.
  apply map_eq. intros k. rewrite lookup_empty.
  destruct (tags_to_add desired desired !! k) as [v|] eqn:H; [|done].
  apply tags_to_add_lookup_Some in H as [? ?]. congruence.
Qed.
End tags.

(** ** Running computations *)

Lemma log_log evs evs' w : log evs' (log evs w) = log (evs ++ evs') w.
Proof. unfold log. simpl. by rewrite app_assoc. Qed.

Lemma log_nil w : log [] w = w.
Proof. destruct w. unfold log. simpl. by rewrite app_nil_r. Qed.

Lemma trace_log evs w : trace (log evs w) = (trace w ++ evs)%list.
Proof. done. Qed.

Lemma _client_cached E w service_name client :
  _client_cache w !! service_name = Some client ->
  _client service_name E w = (Ok client, w).
Proof.
  intros Hc. unfold _client, bind, get_cache, ret.
  rewrite bool_decide_eq_false_2.
  - by rewrite Hc.
  - intros Hn. apply Hn. apply elem_of_dom. by eexists.
Qed.

(** What [_client] does when the cache has no entry for the service. *)
Lemma _client_fresh E w service_name :
  _client_cache w !! service_name = None ->
  _client service_name E w =
  match session_create_client E (trace w) service_name with
  | Ok region =>
      let client := mkClient service_name (length (trace w)) region in
      (Ok client,
       {| _client_cache := <[service_name := client]> (_client_cache w);
          trace := trace w ++ [CreateClient service_name (Ok client)];
          fs := fs w |})
  | Raise e => (Raise e, log [CreateClient service_name (Raise e)] w)
  | Diverge => (Diverge, log [CreateClient service_name Diverge] w)
  end.
Proof.
  intros Hc. unfold _client, bind, get_cache, ret, create_client, cache_store.
  rewrite bool_decide_eq_true_2 by by apply not_elem_of_dom.
  destruct (session_create_client E (trace w) service_name); simpl; try done.
  by rewrite lookup_insert_eq.
Qed.

(** A client that [_client] returned is in the cache from then on. *)
Lemma _client_Ok E w service_name client w0 :
  _client service_name E w = (Ok client, w0) ->
  _client_cache w0 !! service_name = Some client.
Proof.
  destruct (_client_cache w !! service_name) as [c|] eqn:Hc.
  - rewrite (_client_cached _ _ _ _ Hc). by intros [= <- <-].
  - rewrite (_client_fresh _ _ _ Hc).
    destruct (session_create_client E (trace w) service_name);
      intros [= <- <-]. simpl. by rewrite lookup_insert_eq.
Qed.

Lemma _remove_unrequested_remote_tags_cached
    E w function_arn (desired remote_tags : gmap string string) client :
  _client_cache w !! "lambda" = Some client ->
  tag_keys_to_remove desired remote_tags <> [] ->
  let kwargs := [("Resource", function_arn);
                 ("TagKeys", PList (map PStr (tag_keys_to_remove desired remote_tags)))] in
  let out := remote E (trace w) client "untag_resource" kwargs in
  _remove_unrequested_remote_tags function_arn desired remote_tags E w
  = (rbind out (fun _ => Ok tt), log [Call client "untag_resource" kwargs out] w).
Proof.
  intros Hc Hne. unfold _remove_unrequested_remote_tags.
  destruct (tag_keys_to_remove desired remote_tags) as [|k ks] eqn:Hk; [done|].
  cbn [nonempty]. unfold bind at 1. rewrite (_client_cached _ _ _ _ Hc).
  unfold bind, call, ret.
  by destruct (remote E (trace w) client "untag_resource" _).
Qed.

Lemma _add_missing_or_differing_value_requested_tags_cached
    E w function_arn (desired remote_tags : gmap string string) client :
  _client_cache w !! "lambda" = Some client ->
  tags_to_add desired remote_tags <> ∅ ->
  let kwargs := [("Resource", function_arn);
                 ("Tags", py_of_strmap (tags_to_add desired remote_tags))] in
  let out := remote E (trace w) client "tag_resource" kwargs in
  _add_missing_or_differing_value_requested_tags function_arn desired remote_tags E w
  = (rbind out (fun _ => Ok tt), log [Call client "tag_resource" kwargs out] w).
Proof.
  intros Hc Hne. unfold _add_missing_or_differing_value_requested_tags.
  rewrite bool_decide_eq_true_2 by done.
  unfold bind at 1. rewrite (_client_cached _ _ _ _ Hc).
  unfold bind, call, ret.
  by destruct (remote E (trace w) client "tag_resource" _).
Qed.

(** C2. For every desired and every remote tag set: no key that is removed
    is a key of [desired]; the upsert map is a sub-map of [desired], made of
    the entries whose key is absent remotely or has another value there;
    removing then upserting turns the remote set into [desired];
    reconciling [desired] against that result removes and upserts nothing;
    and each of the two requests goes out only for a non-empty argument:
    with nothing to remove (to upsert) the method leaves the world as it
    is, otherwise it issues the one call. *)
Theorem tag_reconciliation (desired remote_tags : gmap string string) :
  let remove := tag_keys_to_remove desired remote_tags in
  let upsert := tags_to_add desired remote_tags in
  let result := apply_tag_diff remote_tags remove upsert in
  (forall k, k ∈ remove <-> k ∈ dom remote_tags /\ k ∉ dom desired)
  /\ upsert ⊆ desired
  /\ (forall k v, upsert !! k = Some v
                  <-> desired !! k = Some v /\ remote_tags !! k <> Some v)
  /\ result = desired
  /\ tag_keys_to_remove desired result = []
  /\ tags_to_add desired result = ∅
  /\ (forall E w function_arn,
        remove = [] ->
        _remove_unrequested_remote_tags function_arn desired remote_tags E w
        = (Ok tt, w))
  /\ (forall E w function_arn,
        upsert = ∅ ->
        _add_missing_or_differing_value_requested_tags
          function_arn desired remote_tags E w = (Ok tt, w))
  /\ (forall E w function_arn client,
        _client_cache w !! "lambda" = Some client ->
        remove <> [] ->
        trace (snd (_remove_unrequested_remote_tags
                      function_arn desired remote_tags E w))
        = (trace w ++
           [Call client "untag_resource"
              [("Resource", function_arn); ("TagKeys", PList (map PStr remove))]
              (remote E (trace w) client "untag_resource"
                 [("Resource", function_arn);
                  ("TagKeys", PList (map PStr remove))])])%list)
  /\ (forall E w function_arn client,
        _client_cache w !! "lambda" = Some client ->
        upsert <> ∅ ->
        trace (snd (_add_missing_or_differing_value_requested_tags
                      function_arn desired remote_tags E w))
        = (trace w ++
           [Call client "tag_resource"
              [("Resource", function_arn); ("Tags", py_of_strmap upsert)]
              (remote E (trace w) client "tag_resource"
                 [("Resource", function_arn);
                  ("Tags", py_of_strmap upsert)])])%list).
Proof.
  intros remove upsert result.
  assert (result = desired) as Hres by apply apply_tag_diff_desired.
  split; [intros k; apply elem_of_tag_keys_to_remove|].
  split; [apply map_filter_subseteq|].
  split; [intros k v; apply tags_to_add_lookup_Some|].
  split; [done|]. rewrite Hres.
  split; [apply tag_keys_to_remove_same|].
  split; [apply tags_to_add_same|].
  split; [|split; [|split]].
  - intros E w arn Hnil. unfold _remove_unrequested_remote_tags.
    fold remove. by rewrite Hnil.
  - intros E w arn Hnil. unfold _add_missing_or_differing_value_requested_tags.
    fold upsert. rewrite Hnil. by rewrite bool_decide_eq_false_2 by auto.
  - intros E w arn client Hc Hne.
    by rewrite (_remove_unrequested_remote_tags_cached _ _ _ _ _ _ Hc Hne).
  - intros E w arn client Hc Hne.
    by rewrite (_add_missing_or_differing_value_requested_tags_cached
                  _ _ _ _ _ _ Hc Hne).
Qed.

Lemma tag_reconciliation_witness :
  tag_keys_to_remove scenario_tags scenario_remote_tags = ["b"]
  /\ tags_to_add scenario_tags scenario_remote_tags = {["a" := "1"]}
  /\ trace (snd (_remove_unrequested_remote_tags (PStr "arn")
                   scenario_tags scenario_remote_tags quiet_env lambda_world))
     = (trace lambda_world ++
        [Call lambda_client "untag_resource"
           [("Resource", PStr "arn"); ("TagKeys", PList [PStr "b"])]
           (Ok (PDict []))])%list
  /\ _remove_unrequested_remote_tags (PStr "arn")
       scenario_tags scenario_tags quiet_env lambda_world = (Ok tt, lambda_world).
Proof.
  split; [vm_compute; reflexivity|]. split; [vm_compute; reflexivity|]. split.
  - pose proof (tag_reconciliation scenario_tags scenario_remote_tags)
      as (_ & _ & _ & _ & _ & _ & _ & _ & H & _).
    apply (H quiet_env lambda_world (PStr "arn") lambda_client).
    + vm_compute. reflexivity.
    + vm_compute. discriminate.
  - pose proof (tag_reconciliation scenario_tags scenario_tags)
      as (_ & _ & _ & _ & _ & _ & H & _).
    apply (H quiet_env lambda_world (PStr "arn")).
    vm_compute. reflexivity.
Defined.

(** ** The retry loop of [create_function] *)

Lemma py_getitem_converges obj k : py_getitem obj k <> Diverge.
Proof. destruct obj; simpl; try done. by destruct (dict_get k items). Qed.

Section create_function_loop.
Variables (E : Env) (client : Client) (kwargs : list (string * pyval)).

Let body := create_function_attempt client kwargs.
Let request h := remote E h client "create_function" kwargs.

Lemma attempt_Ok w attempts response :
  request (trace w) = Ok response ->
  body attempts E w =
  (rbind (py_getitem response "FunctionArn") (fun arn => Ok (inr arn)),
   log [Call client "create_function" kwargs (Ok response)] w).
Proof.
  unfold request, body, create_function_attempt. intros H.
  unfold bind, try_except, call, lift, ret. rewrite H.
  by destruct (py_getitem response "FunctionArn").
Qed.

Lemma attempt_other w attempts e :
  request (trace w) = Raise e -> ~ transient client e ->
  body attempts E w =
  (Raise e, log [Call client "create_function" kwargs (Raise e)] w).
Proof.
  unfold request, body, create_function_attempt, transient. intros H Hn.
  unfold bind, try_except, call. rewrite H.
  by destruct (isinstance e _).
Qed.

Lemma attempt_transient w attempts e :
  request (trace w) = Raise e -> transient client e ->
  body attempts E w =
  (if (LAMBDA_CREATE_ATTEMPTS <=? attempts + 1)%nat
   then Raise e else Ok (inl (attempts + 1)),
   log (retry_events client kwargs [e]) w).
Proof.
  unfold request, body, create_function_attempt, transient. intros H Ht.
  unfold bind, try_except, call. rewrite H, Ht.
  unfold _sleep, emit, raise, lift, ret. rewrite log_log.
  cbn [retry_events flat_map app].
  by destruct (LAMBDA_CREATE_ATTEMPTS <=? attempts + 1)%nat.
Qed.

Lemma attempt_Diverge w attempts :
  request (trace w) = Diverge ->
  body attempts E w =
  (Diverge, log [Call client "create_function" kwargs Diverge] w).
Proof.
  unfold request, body, create_function_attempt. intros H.
  unfold bind, try_except, call. by rewrite H.
Qed.

(** The loop eats the transient failures one by one. *)
Lemma loop_transient es : forall w attempts fuel,
  Forall (transient client) es ->
  (forall i e, es !! i = Some e ->
     request (trace w ++ retry_events client kwargs (take i es)) = Raise e) ->
  attempts + length es < LAMBDA_CREATE_ATTEMPTS ->
  while_true (length es + fuel) body attempts E w
  = while_true fuel body (attempts + length es) E
      (log (retry_events client kwargs es) w).
Proof.
  induction es as [|e es IH]; intros w attempts fuel Ht Hreq Hlt.
  - simpl. rewrite log_nil. by rewrite Nat.add_0_r.
  - apply Forall_cons in Ht as [Hte Ht]. cbn [length] in *.
    cbn [Nat.add while_true]. unfold bind at 1.
    rewrite (attempt_transient w attempts e).
    + destruct (Nat.leb_spec LAMBDA_CREATE_ATTEMPTS (attempts + 1)); [lia|].
      rewrite IH; [| done | | lia].
      * rewrite log_log. f_equal. lia.
      * intros i e' He'. specialize (Hreq (S i) e' He').
        rewrite trace_log. rewrite <- app_assoc. exact Hreq.
    + specialize (Hreq 0 e eq_refl). simpl in Hreq.
      by rewrite app_nil_r in Hreq.
    + done.
Qed.

(** With budget left for one more round than the counter allows, the loop
    diverges only if a request never returns. *)
Lemma loop_terminates n : forall attempts fuel w w',
  LAMBDA_CREATE_ATTEMPTS - attempts <= n -> n < fuel ->
  while_true fuel body attempts E w = (Diverge, w') ->
  exists evs,
    w' = log (evs ++ [Call client "create_function" kwargs Diverge]) w.
Proof.
  induction n as [|n IH]; intros attempts fuel w w' Hn Hfuel;
    (destruct fuel as [|fuel]; [lia|]); cbn [while_true]; unfold bind at 1;
    destruct (request (trace w)) as [response|e|] eqn:Hreq.
  1, 4: rewrite (attempt_Ok _ _ _ Hreq);
        pose proof (py_getitem_converges response "FunctionArn");
        destruct (py_getitem response "FunctionArn"); simpl; [| |done];
        intros [=].
  2, 4: rewrite (attempt_Diverge _ _ Hreq); intros [= <-]; by exists [].
  - destruct (isinstance e (exceptions client "InvalidParameterValueException"))
      eqn:Ht.
    + rewrite (attempt_transient _ _ _ Hreq Ht).
      destruct (Nat.leb_spec LAMBDA_CREATE_ATTEMPTS (attempts + 1)); [|lia].
      intros [=].
    + rewrite (attempt_other _ _ _ Hreq); [intros [=]|].
      unfold transient. by rewrite Ht.
  - destruct (isinstance e (exceptions client "InvalidParameterValueException"))
      eqn:Ht.
    + rewrite (attempt_transient _ _ _ Hreq Ht).
      destruct (Nat.leb_spec LAMBDA_CREATE_ATTEMPTS (attempts + 1));
        [intros [=]|].
      intros Hloop. apply IH in Hloop as [evs ->]; [|lia|lia].
      exists (retry_events client kwargs [e] ++ evs)%list.
      rewrite log_log. by rewrite app_assoc.
    + rewrite (attempt_other _ _ _ Hreq); [intros [=]|].
      unfold transient. by rewrite Ht.
Qed.
End create_function_loop.

Lemma calls_of_app method evs evs' :
  calls_of method (evs ++ evs') = (calls_of method evs ++ calls_of method evs')%list.
Proof.
  induction evs as [|[| c m kw out |] evs IH]; simpl; try done.
  destruct (String.eqb m method); simpl; by rewrite IH.
Qed.

Lemma sleeps_app evs evs' : sleeps (evs ++ evs') = (sleeps evs ++ sleeps evs')%list.
Proof. induction evs as [|[] evs IH]; simpl; by rewrite ?IH. Qed.

Lemma retry_events_app client kwargs es es' :
  retry_events client kwargs (es ++ es')
  = (retry_events client kwargs es ++ retry_events client kwargs es')%list.
Proof. unfold retry_events. apply flat_map_app. Qed.

Lemma calls_of_retry_events client kwargs es :
  length (calls_of "create_function" (retry_events client kwargs es)) = length es.
Proof. induction es as [|e es IH]; simpl; by rewrite ?IH. Qed.

Lemma sleeps_retry_events client kwargs es :
  sleeps (retry_events client kwargs es) = repeat DELAY_TIME (length es).
Proof. induction es as [|e es IH]; simpl; by rewrite ?IH. Qed.

Lemma total_sleep_repeat d n :
  foldr Z.add 0%Z (repeat d n) = (Z.of_nat n * d)%Z.
Proof. induction n as [|n IH]; [done|]. cbn [repeat foldr]. rewrite IH. lia. Qed.

Lemma LAMBDA_CREATE_ATTEMPTS_pos : 0 < LAMBDA_CREATE_ATTEMPTS.
Proof. unfold LAMBDA_CREATE_ATTEMPTS. lia. Qed.

(** C1. Let the lambda client be at hand and let the first requests raise
    the exceptions [es], all of the transient class.
    - If they are fewer than [LAMBDA_CREATE_ATTEMPTS] and the next request
      succeeds, [create_function] returns the function ARN after
      [length es + 1] requests and [length es] sleeps of [DELAY_TIME] each.
    - If they are [LAMBDA_CREATE_ATTEMPTS] or more, [create_function]
      re-raises the failure of its [LAMBDA_CREATE_ATTEMPTS]-th request,
      after exactly [LAMBDA_CREATE_ATTEMPTS] requests and sleeps.
    - If they are fewer and the next request raises an exception of another
      class, that exception propagates at once: the failed request is the
      last event, no sleep follows it. *)
Theorem create_function_retry
    (E : Env) (w w0 : World) (client : Client)
    (function_name role_arn zip_contents runtime : string)
    (environment_variables tags : option (gmap string string))
    (timeout memory_size : option Z) (es : list exn) :
  let kwargs := create_function_kwargs function_name role_arn zip_contents
                  runtime environment_variables tags timeout memory_size in
  let run := create_function function_name role_arn zip_contents runtime
               environment_variables tags timeout memory_size E w in
  let request h := remote E h client "create_function" kwargs in
  let retried := retry_events client kwargs in
  _client "lambda" E w = (Ok client, w0) ->
  Forall (transient client) es ->
  (forall i e, es !! i = Some e ->
     request (trace w0 ++ retried (take i es))%list = Raise e) ->
  (length es < LAMBDA_CREATE_ATTEMPTS ->
   forall response arn,
     request (trace w0 ++ retried es)%list = Ok response ->
     py_getitem response "FunctionArn" = Ok arn ->
     let evs := (retried es
                 ++ [Call client "create_function" kwargs (Ok response)])%list in
     run = (Ok arn, log evs w0)
     /\ length (calls_of "create_function" evs) = length es + 1
     /\ sleeps evs = repeat DELAY_TIME (length es)
     /\ total_sleep evs = (Z.of_nat (length es) * DELAY_TIME)%Z)
  /\ (LAMBDA_CREATE_ATTEMPTS <= length es ->
      exists e, es !! (LAMBDA_CREATE_ATTEMPTS - 1) = Some e /\
        let evs := retried (take LAMBDA_CREATE_ATTEMPTS es) in
        run = (Raise e, log evs w0)
        /\ length (calls_of "create_function" evs) = LAMBDA_CREATE_ATTEMPTS
        /\ sleeps evs = repeat DELAY_TIME LAMBDA_CREATE_ATTEMPTS)
  /\ (length es < LAMBDA_CREATE_ATTEMPTS ->
      forall e,
        request (trace w0 ++ retried es)%list = Raise e ->
        ~ transient client e ->
        let evs := (retried es
                    ++ [Call client "create_function" kwargs (Raise e)])%list in
        run = (Raise e, log evs w0)
        /\ length (calls_of "create_function" evs) = length es + 1
        /\ sleeps evs = repeat DELAY_TIME (length es)).
Proof.
  intros kwargs run request retried Hclient Ht Hreq.
  pose proof LAMBDA_CREATE_ATTEMPTS_pos as Hpos.
  assert (run = while_true (S LAMBDA_CREATE_ATTEMPTS)
                  (create_function_attempt client kwargs) 0 E w0) as Hrun.
  { unfold run, create_function, create_function_fuel. unfold bind at 1.
    fold kwargs. by rewrite Hclient. }
  split; [|split].
  - intros Hlt response arn Hok Harn evs.
    split; [|split; [|split]].
    + rewrite Hrun.
      replace (S LAMBDA_CREATE_ATTEMPTS)
        with (length es + S (LAMBDA_CREATE_ATTEMPTS - length es)) by lia.
      rewrite loop_transient; [|done|done|lia].
      cbn [while_true]. unfold bind at 1.
      rewrite (attempt_Ok E client kwargs _ _ response) by done.
      rewrite Harn. cbn [rbind]. unfold ret. by rewrite log_log.
    + unfold evs, retried. rewrite calls_of_app, length_app, calls_of_retry_events.
      done.
    + unfold evs, retried. rewrite sleeps_app, sleeps_retry_events.
      simpl. by rewrite app_nil_r.
    + unfold total_sleep, evs, retried.
      rewrite sleeps_app, sleeps_retry_events. simpl. rewrite app_nil_r.
      apply total_sleep_repeat.
  - intros Hge.
    destruct (lookup_lt_is_Some_2 es (LAMBDA_CREATE_ATTEMPTS - 1)) as [e He];
      [lia|].
    exists e. split; [done|]. intros evs.
    assert (take LAMBDA_CREATE_ATTEMPTS es
            = take (LAMBDA_CREATE_ATTEMPTS - 1) es ++ [e])%list as Htake.
    { replace LAMBDA_CREATE_ATTEMPTS with (S (LAMBDA_CREATE_ATTEMPTS - 1)) at 1
        by lia. by apply take_S_r. }
    split; [|split].
    + rewrite Hrun. set (first := take (LAMBDA_CREATE_ATTEMPTS - 1) es).
      assert (length first = LAMBDA_CREATE_ATTEMPTS - 1) as Hlen
        by (unfold first; rewrite length_take; lia).
      replace (S LAMBDA_CREATE_ATTEMPTS) with (length first + 2) by lia.
      rewrite loop_transient; [| by apply Forall_take | | lia].
      * cbn [while_true]. unfold bind at 1.
        rewrite (attempt_transient E client kwargs _ _ e).
        -- destruct (Nat.leb_spec LAMBDA_CREATE_ATTEMPTS (0 + length first + 1));
             [|lia].
           rewrite log_log. unfold evs, retried. rewrite Htake.
           by rewrite retry_events_app.
        -- rewrite trace_log. specialize (Hreq _ _ He). exact Hreq.
        -- eapply Forall_lookup_1; eauto.
      * intros i e' Hi. unfold first in *.
        apply lookup_take_Some in Hi as [Hi Hlt].
        rewrite take_take. replace (i `min` _) with i by lia.
        by apply Hreq.
    + unfold evs, retried. rewrite calls_of_retry_events, length_take. lia.
    + unfold evs, retried. rewrite sleeps_retry_events, length_take.
      f_equal. lia.
  - intros Hlt e Hfail Hother evs. split; [|split].
    + rewrite Hrun.
      replace (S LAMBDA_CREATE_ATTEMPTS)
        with (length es + S (LAMBDA_CREATE_ATTEMPTS - length es)) by lia.
      rewrite loop_transient; [|done|done|lia].
      cbn [while_true]. unfold bind at 1.
      rewrite (attempt_other E client kwargs _ _ e) by done.
      by rewrite log_log.
    + unfold evs, retried. rewrite calls_of_app, length_app, calls_of_retry_events.
      done.
    + unfold evs, retried. rewrite sleeps_app, sleeps_retry_events.
      simpl. by rewrite app_nil_r.
Qed.

Lemma create_function_retry_witness :
  fst (create_function "app" "role" "zip" "python3.6" None None None None
         (flaky_env 2) lambda_world) = Ok sample_arn
  /\ fst (create_function "app" "role" "zip" "python3.6" None None None None
            (failing_env role_not_ready) lambda_world) = Raise role_not_ready
  /\ create_function "app" "role" "zip" "python3.6" None None None None
       (failing_env access_denied) lambda_world
     = (Raise access_denied,
        log [Call lambda_client "create_function"
               (create_function_kwargs "app" "role" "zip" "python3.6"
                  None None None None)
               (Raise access_denied)] lambda_world).
Proof.
  split; [|split].
  - pose proof (create_function_retry (flaky_env 2) lambda_world lambda_world
                  lambda_client "app" "role" "zip" "python3.6"
                  None None None None [role_not_ready; role_not_ready]) as H.
    destruct H as (H & _ & _).
    + vm_compute. reflexivity.
    + repeat constructor.
    + intros [|[|i]] e; simpl; intros [= <-]; vm_compute; reflexivity.
    + destruct (H ltac:(unfold LAMBDA_CREATE_ATTEMPTS; simpl; lia)
                  (PDict [("FunctionArn", sample_arn)]) sample_arn
                  ltac:(vm_compute; reflexivity) ltac:(reflexivity)) as [-> _].
      reflexivity.
  - pose proof (create_function_retry (failing_env role_not_ready)
                  lambda_world lambda_world
                  lambda_client "app" "role" "zip" "python3.6"
                  None None None None
                  (replicate LAMBDA_CREATE_ATTEMPTS role_not_ready)) as H.
    destruct H as (_ & H & _).
    + vm_compute. reflexivity.
    + apply Forall_replicate. reflexivity.
    + intros i e Hi. apply lookup_replicate in Hi as [-> _]. reflexivity.
    + destruct H as (e & He & -> & _).
      * by rewrite length_replicate.
      * apply lookup_replicate in He as [-> _]. reflexivity.
  - pose proof (create_function_retry (failing_env access_denied)
                  lambda_world lambda_world
                  lambda_client "app" "role" "zip" "python3.6"
                  None None None None []) as H.
    destruct H as (_ & _ & H).
    + vm_compute. reflexivity.
    + constructor.
    + intros i e Hi. discriminate Hi.
    + destruct (H ltac:(unfold LAMBDA_CREATE_ATTEMPTS; simpl; lia)
                  access_denied ltac:(reflexivity) ltac:(discriminate))
        as [-> _].
      reflexivity.
Defined.

(** ** Role deletion *)

Lemma requests_app evs evs' :
  requests (evs ++ evs') = (requests evs ++ requests evs')%list.
Proof. induction evs as [|[] evs IH]; simpl; by rewrite ?IH. Qed.

Lemma delete_role_policy_cached E w role_name policy_name client :
  _client_cache w !! "iam" = Some client ->
  let kwargs := [("RoleName", PStr role_name); ("PolicyName", policy_name)] in
  let out := remote E (trace w) client "delete_role_policy" kwargs in
  delete_role_policy role_name policy_name E w
  = (rbind out (fun _ => Ok tt),
     log [Call client "delete_role_policy" kwargs out] w).
Proof.
  intros Hc. unfold delete_role_policy. unfold bind at 1.
  rewrite (_client_cached _ _ _ _ Hc). unfold bind, call, ret.
  by destruct (remote E (trace w) client "delete_role_policy" _).
Qed.

(** The loop over the inline policies: one request per policy, in order,
    up to the first that fails. *)
Lemma for_each_delete_role_policy E client name policies : forall w,
  _client_cache w !! "iam" = Some client ->
  let deletions :=
    map (fun policy_name =>
           ("delete_role_policy",
            [("RoleName", PStr name); ("PolicyName", policy_name)])) policies in
  exists r evs,
    for_each policies (fun policy_name => delete_role_policy name policy_name) E w
    = (r, log evs w)
    /\ requests evs `prefix_of` deletions
    /\ (r = Ok tt -> requests evs = deletions)
    /\ ((forall h policy_name, policy_name ∈ policies ->
           exists v, remote E h client "delete_role_policy"
                       [("RoleName", PStr name); ("PolicyName", policy_name)]
                     = Ok v) -> r = Ok tt).
Proof.
  induction policies as [|p policies IH]; intros w Hc deletions.
  - exists (Ok tt), []. rewrite log_nil. by repeat split.
  - cbn [for_each]. unfold bind at 1.
    rewrite (delete_role_policy_cached _ _ _ _ _ Hc).
    set (kwargs := [("RoleName", PStr name); ("PolicyName", p)]).
    destruct (remote E (trace w) client "delete_role_policy" kwargs)
      as [v|e|] eqn:Hout; cbn [rbind].
    + destruct (IH (log [Call client "delete_role_policy" kwargs (Ok v)] w) Hc)
        as (r & evs & Hrun & Hpre & Hok & Hall).
      exists r, (Call client "delete_role_policy" kwargs (Ok v) :: evs).
      rewrite Hrun, log_log. split; [done|]. split; [|split].
      * subst deletions. cbn [requests map]. by apply prefix_cons.
      * intros Hr. subst deletions. cbn [requests map]. by rewrite Hok.
      * intros Hs. apply Hall. intros h q Hq. apply Hs. by right.
    + exists (Raise e), [Call client "delete_role_policy" kwargs (Raise e)].
      split; [done|]. split; [|split].
      * subst deletions. cbn [requests map]. apply prefix_cons, prefix_nil.
      * discriminate.
      * intros Hs. destruct (Hs (trace w) p ltac:(left)) as [v Hv].
        fold kwargs in Hv. congruence.
    + exists Diverge, [Call client "delete_role_policy" kwargs Diverge].
      split; [done|]. split; [|split].
      * subst deletions. cbn [requests map]. apply prefix_cons, prefix_nil.
      * discriminate.
      * intros Hs. destruct (Hs (trace w) p ltac:(left)) as [v Hv].
        fold kwargs in Hv. congruence.
Qed.

(** C5. For a role whose listing answers the inline policies [policies]:
    whatever the services answer, the requests [delete_role] makes are an
    initial part of: the listing, one [delete_role_policy] per inline
    policy, then [delete_role]; so every policy deletion that is made comes
    before the role deletion, and the role is not deleted before each
    policy has been.  They are exactly those whenever [delete_role] returns,
    and it returns when every deletion succeeds. *)
Theorem delete_role_deletes_policies_first
    (E : Env) (w w0 : World) (client : Client) (name : string)
    (response names : pyval) (policies : list pyval) :
  _client "iam" E w = (Ok client, w0) ->
  remote E (trace w0) client "list_role_policies" [("RoleName", PStr name)]
  = Ok response ->
  py_getitem response "PolicyNames" = Ok names ->
  py_iter names = Ok policies ->
  exists r evs,
    delete_role name E w = (r, log evs w0)
    /\ requests evs `prefix_of` delete_role_requests name policies
    /\ (r = Ok tt -> requests evs = delete_role_requests name policies)
    /\ ((forall h policy_name, policy_name ∈ policies ->
           exists v, remote E h client "delete_role_policy"
                       [("RoleName", PStr name); ("PolicyName", policy_name)]
                     = Ok v) ->
        (forall h, exists v,
            remote E h client "delete_role" [("RoleName", PStr name)] = Ok v) ->
        r = Ok tt).
Proof.
  intros Hclient Hlist Hnames Hiter.
  pose proof (_client_Ok _ _ _ _ _ Hclient) as Hc.
  unfold delete_role, delete_role_requests. unfold bind at 1. rewrite Hclient.
  unfold bind at 1. unfold call at 1. rewrite Hlist.
  unfold bind at 1. unfold lift at 1. rewrite Hnames.
  unfold bind at 1. unfold lift at 1. rewrite Hiter.
  set (listing := Call client "list_role_policies" [("RoleName", PStr name)]
                    (Ok response)).
  destruct (for_each_delete_role_policy E client name policies
              (log [listing] w0) Hc) as (r & evs & Hrun & Hpre & Hok & Hall).
  unfold bind at 1. rewrite Hrun, log_log.
  destruct r as [[]|e|].
  - unfold bind, call, ret. rewrite log_log.
    set (out := remote E _ client "delete_role" _).
    exists (rbind out (fun _ => Ok tt)),
      ((listing :: evs) ++ [Call client "delete_role" [("RoleName", PStr name)] out])%list.
    split; [by destruct out|].
    rewrite requests_app. cbn [requests]. rewrite (Hok eq_refl).
    split; [done|]. split; [done|].
    intros _ Hdel. subst out. destruct (Hdel (trace (log ([listing] ++ evs) w0)))
      as [v ->]. done.
  - exists (Raise e), (listing :: evs). split; [done|]. cbn [requests].
    split; [|split].
    + apply prefix_cons. etrans; [exact Hpre|]. by apply prefix_app_r.
    + discriminate.
    + intros Hs _. by apply Hall.
  - exists Diverge, (listing :: evs). split; [done|]. cbn [requests].
    split; [|split].
    + apply prefix_cons. etrans; [exact Hpre|]. by apply prefix_app_r.
    + discriminate.
    + intros Hs _. by apply Hall.
Qed.

Lemma delete_role_deletes_policies_first_witness :
  exists w',
    delete_role "deployer" role_env (init sample_root) = (Ok tt, w')
    /\ requests (trace w')
       = [("list_role_policies", [("RoleName", PStr "deployer")]);
          ("delete_role_policy",
           [("RoleName", PStr "deployer"); ("PolicyName", PStr "P1")]);
          ("delete_role_policy",
           [("RoleName", PStr "deployer"); ("PolicyName", PStr "P2")]);
          ("delete_role", [("RoleName", PStr "deployer")])].
Proof.
  destruct (delete_role_deletes_policies_first role_env (init sample_root)
              (snd (_client "iam" role_env (init sample_root)))
              (mkClient "iam" 0 "us-west-2") "deployer"
              (PDict [("PolicyNames", PList [PStr "P1"; PStr "P2"])])
              (PList [PStr "P1"; PStr "P2"]) [PStr "P1"; PStr "P2"])
    as (r & evs & Hrun & _ & Hok & Hret).
  - vm_compute. reflexivity.
  - reflexivity.
  - reflexivity.
  - reflexivity.
  - assert (r = Ok tt) as ->.
    { apply Hret; intros; eexists; reflexivity. }
    eexists. split; [exact Hrun|].
    rewrite trace_log, requests_app, (Hok eq_refl). reflexivity.
Defined.

(** ** Function update *)

Lemma _remove_unrequested_remote_tags_run
    E w function_arn (desired remote_tags : gmap string string) client :
  _client_cache w !! "lambda" = Some client ->
  exists r evs,
    _remove_unrequested_remote_tags function_arn desired remote_tags E w
    = (r, log evs w)
    /\ (evs = [] \/ exists kwargs out,
                      evs = [Call client "untag_resource" kwargs out]).
Proof.
  intros Hc.
  destruct (tag_keys_to_remove desired remote_tags) as [|k ks] eqn:Hk.
  - exists (Ok tt), []. rewrite log_nil. split; [|by left].
    unfold _remove_unrequested_remote_tags. by rewrite Hk.
  - eexists _, _. split.
    + apply _remove_unrequested_remote_tags_cached; [done | by rewrite Hk].
    + right. by eexists _, _.
Qed.

Lemma _add_missing_or_differing_value_requested_tags_run
    E w function_arn (desired remote_tags : gmap string string) client :
  _client_cache w !! "lambda" = Some client ->
  exists r evs,
    _add_missing_or_differing_value_requested_tags
      function_arn desired remote_tags E w = (r, log evs w)
    /\ (evs = [] \/ exists kwargs out,
                      evs = [Call client "tag_resource" kwargs out]).
Proof.
  intros Hc.
  destruct (decide (tags_to_add desired remote_tags = ∅)) as [Hk|Hk].
  - exists (Ok tt), []. rewrite log_nil. split; [|by left].
    unfold _add_missing_or_differing_value_requested_tags.
    rewrite Hk. by rewrite bool_decide_eq_false_2 by auto.
  - eexists _, _. split.
    + by apply _add_missing_or_differing_value_requested_tags_cached.
    + right. by eexists _, _.
Qed.

Lemma _update_function_tags_run E w function_arn requested_tags client :
  _client_cache w !! "lambda" = Some client ->
  let kwargs := [("Resource", function_arn)] in
  exists r rest,
    _update_function_tags function_arn requested_tags E w
    = (r, log (Call client "list_tags" kwargs
                 (remote E (trace w) client "list_tags" kwargs) :: rest) w)
    /\ tag_requests_only client rest.
Proof.
  intros Hc kwargs. unfold _update_function_tags. unfold bind at 1.
  rewrite (_client_cached _ _ _ _ Hc). unfold bind at 1. unfold call at 1.
  fold kwargs. set (out := remote E (trace w) client "list_tags" kwargs).
  destruct out as [response|e|]; try (by eexists _, []; split; [|constructor]).
  unfold bind at 1, lift at 1.
  destruct (py_getitem response "Tags") as [tags|e|];
    try (by eexists _, []; split; [|constructor]).
  unfold bind at 1, lift at 1.
  destruct (strmap_of_py tags) as [remote_tags|e|];
    try (by eexists _, []; split; [|constructor]).
  set (w1 := log _ w).
  destruct (_remove_unrequested_remote_tags_run E w1 function_arn
              requested_tags remote_tags client Hc) as (r1 & evs1 & Hrun1 & Hevs1).
  unfold bind at 1. rewrite Hrun1.
  assert (tag_requests_only client evs1) as Hreq1.
  { destruct Hevs1 as [->|(kw & o & ->)]; [constructor|].
    constructor; [|constructor]. eexists _, _, _. split; [done|by left]. }
  destruct r1 as [[]|e|];
    try (by eexists _, evs1; unfold w1; rewrite log_log).
  destruct (_add_missing_or_differing_value_requested_tags_run E (log evs1 w1)
              function_arn requested_tags remote_tags client Hc)
    as (r2 & evs2 & Hrun2 & Hevs2).
  rewrite Hrun2. exists r2, (evs1 ++ evs2)%list.
  unfold w1. rewrite !log_log. split; [done|].
  apply Forall_app. split; [done|].
  destruct Hevs2 as [->|(kw & o & ->)]; [constructor|].
  constructor; [|constructor]. eexists _, _, _. split; [done|by right].
Qed.

Lemma calls_of_tag_requests_only client method evs :
  tag_requests_only client evs ->
  method <> "untag_resource" -> method <> "tag_resource" ->
  calls_of method evs = [].
Proof.
  intros Hevs H1 H2. induction Hevs as [|ev evs (m & kw & o & -> & Hm) _ IH];
    [done|].
  cbn [calls_of]. destruct (String.eqb_spec m method) as [<-|]; [|done].
  by destruct Hm.
Qed.

Lemma update_function_kwargs_fields
    (environment_variables : option (gmap string string))
    (runtime : option string) (timeout memory_size : option Z) :
  let kwargs := update_function_kwargs environment_variables runtime
                  timeout memory_size in
  dict_get "Environment" kwargs
  = (fun ev => PDict [("Variables", py_of_strmap ev)]) <$> environment_variables
  /\ dict_get "Runtime" kwargs = PStr <$> runtime
  /\ dict_get "Timeout" kwargs = PInt <$> timeout
  /\ dict_get "MemorySize" kwargs = PInt <$> memory_size
  /\ (forall k, k <> "Environment" -> k <> "Runtime" -> k <> "Timeout" ->
                k <> "MemorySize" -> dict_get k kwargs = None)
  /\ (kwargs = [] <-> environment_variables = None /\ runtime = None
                      /\ timeout = None /\ memory_size = None).
Proof.
  destruct environment_variables, runtime, timeout, memory_size;
    unfold update_function_kwargs, set_opt; simpl;
    (repeat split; try done);
    try (intros k H1 H2 H3 H4;
         repeat match goal with
                | |- context [String.eqb k ?x] =>
                    destruct (String.eqb_spec k x); [congruence|]
                end; done);
    try (intros (? & ? & ? & ?); done).
Qed.

(** C7. With the lambda client at hand, [update_function] first issues the
    code update, and issues no other; it issues no configuration update
    when none of [environment_variables], [runtime], [timeout] and
    [memory_size] is given, and, once the code update has succeeded, exactly
    one when some is given, whose keyword arguments are the function name
    and the given fields and nothing else; without [tags] no tag request is
    made, and with [tags], once the requests before have succeeded, the
    tags of the function are listed to be reconciled.  In the end-to-end
    scenario the requests are: the code update, the configuration update
    with the environment, the listing, the removal of [b], the upsert of
    [{"a": "1"}]. *)
Theorem update_function_calls
    (E : Env) (w w0 : World) (client : Client)
    (function_name zip_contents : string)
    (environment_variables : option (gmap string string))
    (runtime : option string) (tags : option (gmap string string))
    (timeout memory_size : option Z) :
  let code_kwargs := [("FunctionName", PStr function_name);
                      ("ZipFile", PStr zip_contents)] in
  let config := update_function_kwargs environment_variables runtime
                  timeout memory_size in
  let code_out := remote E (trace w0) client "update_function_code" code_kwargs in
  _client "lambda" E w = (Ok client, w0) ->
  (exists r rest,
     update_function function_name zip_contents environment_variables runtime
       tags timeout memory_size E w
     = (r, log (Call client "update_function_code" code_kwargs code_out :: rest) w0)
     /\ calls_of "update_function_code" rest = []
     /\ (environment_variables = None /\ runtime = None
         /\ timeout = None /\ memory_size = None ->
         calls_of "update_function_configuration" rest = [])
     /\ (is_Some environment_variables \/ is_Some runtime
         \/ is_Some timeout \/ is_Some memory_size ->
         forall return_value, code_out = Ok return_value ->
           calls_of "update_function_configuration" rest
           = [dict_set "FunctionName" (PStr function_name) config])
     /\ (tags = None ->
         calls_of "list_tags" rest = [] /\ calls_of "untag_resource" rest = []
         /\ calls_of "tag_resource" rest = [])
     /\ (forall requested return_value arn,
           tags = Some requested ->
           code_out = Ok return_value ->
           py_getitem return_value "FunctionArn" = Ok arn ->
           (forall h kwargs, exists v,
               remote E h client "update_function_configuration" kwargs = Ok v) ->
           calls_of "list_tags" rest = [[("Resource", arn)]]))
  /\ (dict_get "Environment" config
      = (fun ev => PDict [("Variables", py_of_strmap ev)]) <$> environment_variables
      /\ dict_get "Runtime" config = PStr <$> runtime
      /\ dict_get "Timeout" config = PInt <$> timeout
      /\ dict_get "MemorySize" config = PInt <$> memory_size
      /\ (forall k, k <> "Environment" -> k <> "Runtime" -> k <> "Timeout" ->
                    k <> "MemorySize" -> dict_get k config = None))
  /\ requests (trace (snd (update_function "app" "b" (Some {["X" := "1"]}) None
                            (Some scenario_tags) None None
                            scenario_env lambda_world)))
     = [("update_function_code",
         [("FunctionName", PStr "app"); ("ZipFile", PStr "b")]);
        ("update_function_configuration",
         [("Environment", PDict [("Variables", PDict [("X", PStr "1")])]);
          ("FunctionName", PStr "app")]);
        ("list_tags", [("Resource", sample_arn)]);
        ("untag_resource",
         [("Resource", sample_arn); ("TagKeys", PList [PStr "b"])]);
        ("tag_resource",
         [("Resource", sample_arn); ("Tags", PDict [("a", PStr "1")])])].
Proof.
  intros code_kwargs config code_out Hclient.
  pose proof (_client_Ok _ _ _ _ _ Hclient) as Hc.
  pose proof (update_function_kwargs_fields environment_variables runtime
                timeout memory_size) as (F1 & F2 & F3 & F4 & F5 & Fnil).
  fold config in F1, F2, F3, F4, F5, Fnil.
  split; [|split; [by repeat split|vm_compute; reflexivity]].
  unfold update_function. unfold bind at 1. rewrite Hclient.
  unfold bind at 1. unfold call at 1. fold code_kwargs code_out config.
  destruct code_out as [return_value|e|] eqn:Hcode.
  2, 3: eexists _, []; split; [done|]; repeat split; try done;
        intros; discriminate.
  set (code := Call client "update_function_code" code_kwargs (Ok return_value)).
  (* the configuration update *)
  assert (exists r1 evs1,
             (if nonempty config
              then call client "update_function_configuration"
                     (dict_set "FunctionName" (PStr function_name) config) ;;
                   ret tt
              else ret tt) E (log [code] w0) = (r1, log (code :: evs1) w0)
             /\ calls_of "update_function_code" evs1 = []
             /\ calls_of "list_tags" evs1 = []
             /\ calls_of "untag_resource" evs1 = []
             /\ calls_of "tag_resource" evs1 = []
             /\ (config = [] -> evs1 = [])
             /\ (config <> [] ->
                 calls_of "update_function_configuration" evs1
                 = [dict_set "FunctionName" (PStr function_name) config])
             /\ ((forall h kwargs, exists v,
                     remote E h client "update_function_configuration" kwargs
                     = Ok v) -> r1 = Ok tt))
    as (r1 & evs1 & Hrun1 & Hcode1 & Hlist1 & Huntag1 & Htag1 & Hnil1 & Hcfg1 & Hok1).
  { destruct config as [|c cs] eqn:Hconfig; cbn [nonempty].
    - exists (Ok tt), []. by repeat split.
    - unfold bind, call, ret. rewrite log_log.
      set (kw := dict_set "FunctionName" (PStr function_name) (c :: cs)).
      set (out := remote E _ client "update_function_configuration" kw).
      exists (rbind out (fun _ => Ok tt)),
        [Call client "update_function_configuration" kw out].
      split; [by destruct out|]. repeat split; try done.
      intros Hs. subst out. by destruct (Hs (trace (log [code] w0)) kw) as [v ->]. }
  unfold bind at 1. rewrite Hrun1.
  assert (config = [] <-> ~ (is_Some environment_variables \/ is_Some runtime
                             \/ is_Some timeout \/ is_Some memory_size))
    as Hnone.
  { rewrite Fnil. rewrite <- !not_eq_None_Some. split.
    - intros (-> & -> & -> & ->). tauto.
    - intros Hn. destruct environment_variables, runtime, timeout, memory_size;
        try done; exfalso; apply Hn; auto. }
  destruct r1 as [[]|e|].
  2, 3: eexists _, evs1; split; [done|]; repeat split; try done;
        [ by intros H; rewrite Hnil1 by by apply Fnil
        | intros Hsome rv _; apply Hcfg1; intros Hn; apply Hnone in Hn; tauto
        | intros t rv arn _ _ _ Hs; by specialize (Hok1 Hs) ].
  (* the tags *)
  destruct tags as [requested|].
  - unfold bind at 1. unfold bind at 1. unfold lift at 1.
    destruct (py_getitem return_value "FunctionArn") as [arn|e|] eqn:Harn.
    2, 3: eexists _, evs1; split; [done|]; repeat split; try done;
          [ by intros H; rewrite Hnil1 by by apply Fnil
          | intros Hsome rv _; apply Hcfg1; intros Hn; apply Hnone in Hn; tauto
          | intros t rv arn' _ [= <-]; congruence ].
    destruct (_update_function_tags_run E (log (code :: evs1) w0) arn requested
                client Hc) as (r2 & rest & Hrun2 & Hrest).
    rewrite Hrun2. rewrite log_log.
    set (listing := Call client "list_tags" [("Resource", arn)] _).
    exists (rbind r2 (fun _ => Ok return_value)), (evs1 ++ listing :: rest)%list.
    split; [by destruct r2 as [[]| |]|].
    rewrite !calls_of_app. subst listing.
    cbn [calls_of String.eqb Ascii.eqb Bool.eqb].
    rewrite Hcode1, Hlist1.
    rewrite !(calls_of_tag_requests_only client _ rest) by done.
    rewrite !app_nil_r. repeat split; try done.
    + intros H. by rewrite Hnil1 by by apply Fnil.
    + intros Hsome rv _. apply Hcfg1. intros Hn. apply Hnone in Hn. tauto.
    + intros t rv arn' _ [= <-] Harn' _. simpl. congruence.
  - unfold bind, ret. exists (Ok return_value), evs1.
    split; [done|]. repeat split; try done.
    + intros H. by rewrite Hnil1 by by apply Fnil.
    + intros Hsome rv _. apply Hcfg1. intros Hn. apply Hnone in Hn. tauto.
Qed.

Lemma update_function_calls_witness :
  exists r rest,
    update_function "app" "b" (Some {["X" := "1"]}) None (Some scenario_tags)
      None None scenario_env lambda_world
    = (r, log (Call lambda_client "update_function_code"
                 [("FunctionName", PStr "app"); ("ZipFile", PStr "b")]
                 (Ok (PDict [("FunctionArn", sample_arn)])) :: rest)
            lambda_world)
    /\ calls_of "update_function_code" rest = []
    /\ calls_of "update_function_configuration" rest
       = [[("Environment", PDict [("Variables", PDict [("X", PStr "1")])]);
           ("FunctionName", PStr "app")]]
    /\ calls_of "list_tags" rest = [[("Resource", sample_arn)]].
Proof.
  destruct (update_function_calls scenario_env lambda_world lambda_world
              lambda_client "app" "b" (Some {["X" := "1"]}) None
              (Some scenario_tags) None None)
    as [(r & rest & Hrun & Hcode & _ & Hcfg & _ & Htags) _].
  - vm_compute. reflexivity.
  - exists r, rest. split; [exact Hrun|]. split; [exact Hcode|]. split.
    + rewrite (Hcfg ltac:(left; by eexists)
                 (PDict [("FunctionArn", sample_arn)]) eq_refl).
      vm_compute. reflexivity.
    + apply (Htags scenario_tags (PDict [("FunctionArn", sample_arn)]) sample_arn);
        try reflexivity.
      intros h kwargs. eexists. reflexivity.
Defined.

(** ** The conditional grant *)







(** ** What every operation preserves *)

Section steps.
Variable P : World -> World -> Prop.
Hypothesis P_refl : forall w, P w w.
Hypothesis P_trans : forall w1 w2 w3, P w1 w2 -> P w2 w3 -> P w1 w3.
Hypothesis P_call : forall w client method kwargs out,
  P w (log [Call client method kwargs out] w).
Hypothesis P_sleep : forall w seconds, P w (log [Sleep seconds] w).
Hypothesis P_client : forall E w service_name,
  P w (snd (_client service_name E w)).
Hypothesis P_fs : forall w root, P w (set_fs root w).

Lemma steps_pure {A} (m : M A) : (forall E w, snd (m E w) = w) -> steps P m.
Proof. intros H E w. rewrite H. apply P_refl. Qed.

Lemma steps_ret {A} (a : A) : steps P (ret a).
Proof. by apply steps_pure. Qed.

Lemma steps_lift {A} (r : Result A) : steps P (lift r).
Proof. by apply steps_pure. Qed.

Lemma steps_raise {A} e : steps P (@raise A e).
Proof. by apply steps_pure. Qed.

Lemma steps_bind {A B} (m : M A) (k : A -> M B) :
  steps P m -> (forall a, steps P (k a)) -> steps P (bind m k).
Proof.
  intros Hm Hk E w. unfold bind. specialize (Hm E w).
  destruct (m E w) as [[a|e|] w1]; simpl in *; try done.
  eapply P_trans; [exact Hm | apply Hk].
Qed.

Lemma steps_try_except {A} (m : M A) cls : steps P m -> steps P (try_except m cls).
Proof.
  intros Hm E w. unfold try_except. specialize (Hm E w).
  destruct (m E w) as [[a|e|] w1]; simpl in *; try done.
  by destruct (isinstance e cls).
Qed.

Lemma steps_call client method kwargs : steps P (call client method kwargs).
Proof. intros E w. apply P_call. Qed.

Lemma steps__sleep seconds : steps P (_sleep seconds).
Proof. intros E w. apply P_sleep. Qed.

Lemma steps__client service_name : steps P (_client service_name).
Proof. intros E w. apply P_client. Qed.

Lemma steps_with_fs f : steps P (with_fs f).
Proof.
  intros E w. unfold with_fs. destruct (f (fs w)); simpl; try apply P_refl.
  apply P_fs.
Qed.

Lemma steps_read_fs {A} (f : node -> Result A) : steps P (read_fs f).
Proof. by apply steps_pure. Qed.

Lemma steps_for_each {A} (l : list A) body :
  (forall x, steps P (body x)) -> steps P (for_each l body).
Proof.
  intros Hb. induction l as [|x l IH]; cbn [for_each].
  - apply steps_ret.
  - apply steps_bind; [apply Hb | by intros _].
Qed.

Lemma steps_while_true {S A} fuel (body : S -> M (S + A)) s :
  (forall s, steps P (body s)) -> steps P (while_true fuel body s).
Proof.
  intros Hb. revert s. induction fuel as [|fuel IH]; intros s; cbn [while_true].
  - apply steps_lift.
  - apply steps_bind; [apply Hb|]. intros [s'|a]; [apply IH | apply steps_ret].
Qed.

Lemma steps_iter_pages client kwargs pages : forall yielded,
  steps P (iter_pages client kwargs pages yielded).
Proof.
  induction pages as [|out pages IH]; intros yielded; cbn [iter_pages].
  - apply steps_ret.
  - apply steps_bind; [intros E w; apply P_call|]. intros _.
    repeat (apply steps_bind; [apply steps_lift|]; intros ?). apply IH.
Qed.

Ltac steps :=
  repeat first
    [ apply steps_ret | apply steps_lift | apply steps_raise
    | apply steps__client | apply steps_call | apply steps__sleep
    | apply steps_with_fs | apply steps_read_fs | apply steps_iter_pages
    | apply steps_try_except
    | apply steps_bind; [|intros ?]
    | apply steps_for_each; intros ?
    | apply steps_while_true; intros ?
    | by apply steps_pure
    | match goal with
      | |- steps P (match ?x with _ => _ end) => destruct x
      end ].

Lemma steps__update_function_tags function_arn requested_tags :
  steps P (_update_function_tags function_arn requested_tags).
Proof.
  unfold _update_function_tags, _remove_unrequested_remote_tags,
    _add_missing_or_differing_value_requested_tags. steps.
Qed.

Lemma steps_put_role_policy role_name policy_name policy_document :
  steps P (put_role_policy role_name policy_name policy_document).
Proof. unfold put_role_policy. steps. Qed.

Lemma steps_get_function_policy function_name :
  steps P (get_function_policy function_name).
Proof. unfold get_function_policy. steps. Qed.

Lemma steps_add_permission_for_apigateway fn region account api rid :
  steps P (add_permission_for_apigateway fn region account api rid).
Proof. unfold add_permission_for_apigateway. steps. Qed.

Lemma steps_get_sdk_download_stream rest_api_id stage sdk_type :
  steps P (get_sdk_download_stream rest_api_id stage sdk_type).
Proof. unfold get_sdk_download_stream. steps. Qed.

Lemma steps_download_sdk rest_api_id output_dir stage sdk_type :
  steps P (download_sdk rest_api_id output_dir stage sdk_type).
Proof.
  unfold download_sdk, download_sdk_extract, download_sdk_install,
    tempfile_mkdtemp, zipfile_extractall.
  apply steps_bind; [|intros ?; steps].
  apply steps_bind; [apply steps_get_sdk_download_stream|]. intros ?. steps.
Qed.

(** Every operation of the public surface keeps to [P]. *)
Ltac steps_ops :=
  repeat first
    [ apply steps__update_function_tags | apply steps_put_role_policy
    | apply steps_get_function_policy
    | apply steps_add_permission_for_apigateway
    | apply steps_get_sdk_download_stream | apply steps_download_sdk
    | apply steps_ret | apply steps_lift | apply steps_raise
    | apply steps__client | apply steps_call | apply steps__sleep
    | apply steps_iter_pages
    | apply steps_try_except
    | apply steps_bind; [|intros ?]
    | apply steps_for_each; intros ?
    | apply steps_while_true; intros ?
    | by apply steps_pure
    | match goal with
      | |- steps P (match ?x with _ => _ end) => destruct x
      end ].

Lemma steps_run_op op : steps P (run_op op).
Proof.
  destruct op; cbn [run_op]; unfold returning;
    unfold lambda_function_exists, get_function_configuration,
      create_function, create_function_fuel, create_function_attempt,
      delete_function, update_function, get_role_arn_for_name,
      delete_role_policy, create_role, delete_role, get_rest_api_id,
      rest_api_exists, import_rest_api, update_api_from_swagger,
      delete_rest_api, deploy_rest_api,
      add_permission_for_apigateway_if_needed, region_name, iter_log_events;
    steps_ops.
Qed.

Lemma steps_run_ops ops E w : P w (run_ops ops E w).
Proof.
  revert w. induction ops as [|op ops IH]; intros w; cbn [run_ops].
  - apply P_refl.
  - eapply P_trans; [apply steps_run_op | apply IH].
Qed.
End steps.

(** ** The client cache *)

Lemma constructed_app service_name evs evs' :
  constructed service_name (evs ++ evs')
  = (constructed service_name evs ++ constructed service_name evs')%list.
Proof.
  induction evs as [|[s [c|e|]| |] evs IH]; simpl; try done.
  destruct (String.eqb s service_name); simpl; by rewrite IH.
Qed.

Lemma cache_le__client E w service_name :
  cache_le w (snd (_client service_name E w)).
Proof.
  intros name c Hc.
  destruct (_client_cache w !! service_name) as [c'|] eqn:Hs.
  - by rewrite (_client_cached _ _ _ _ Hs).
  - rewrite (_client_fresh _ _ _ Hs).
    destruct (session_create_client E (trace w) service_name); simpl; try done.
    rewrite lookup_insert_ne; [done|]. intros <-. congruence.
Qed.

Lemma built_once__client E w service_name :
  built_once w -> built_once (snd (_client service_name E w)).
Proof.
  intros Hw name.
  destruct (_client_cache w !! service_name) as [c'|] eqn:Hs.
  - rewrite (_client_cached _ _ _ _ Hs). apply Hw.
  - rewrite (_client_fresh _ _ _ Hs). specialize (Hw name).
    destruct (session_create_client E (trace w) service_name); simpl;
      rewrite constructed_app, Hw; simpl; try by rewrite app_nil_r.
    destruct (String.eqb_spec service_name name) as [<-|Hne].
    + by rewrite lookup_insert_eq, Hs.
    + rewrite lookup_insert_ne by done. by rewrite app_nil_r.
Qed.

Lemma cache_le_run_ops ops E w : cache_le w (run_ops ops E w).
Proof.
  apply (steps_run_ops cache_le).
  - by intros w1 name c.
  - intros w1 w2 w3 H12 H23 name c Hc. by apply H23, H12.
  - by intros w1 c m kw out name c'.
  - by intros w1 z name c'.
  - intros E' w' name. apply cache_le__client.
  - by intros w1 root name c'.
Qed.

Lemma built_once_run_ops ops E w : built_once w -> built_once (run_ops ops E w).
Proof.
  apply (steps_run_ops (fun w w' => built_once w -> built_once w')).
  - done.
  - intros w1 w2 w3 H12 H23 H1. by apply H23, H12.
  - intros w' c m kw out Hw name. cbn [log trace _client_cache].
    rewrite constructed_app, Hw. simpl. by rewrite app_nil_r.
  - intros w' z Hw name. cbn [log trace _client_cache].
    rewrite constructed_app, Hw. simpl. by rewrite app_nil_r.
  - intros E' w' name. apply built_once__client.
  - done.
Qed.

(** C9. The first call of [_client] for a service builds the client, stores
    it and leaves that one construction in the trace; every later call for
    the service, whatever operations ran in between, returns the stored
    client and changes nothing, so it builds nothing; no operation drops or
    replaces an entry of the cache; and in a process that starts from
    [__init__], the session builds at most one client per service. *)
Theorem client_cache_constructs_once :
  (forall E w service_name region,
     _client_cache w !! service_name = None ->
     session_create_client E (trace w) service_name = Ok region ->
     exists client w',
       _client service_name E w = (Ok client, w')
       /\ _client_cache w' = <[service_name := client]> (_client_cache w)
       /\ trace w' = (trace w ++ [CreateClient service_name (Ok client)])%list)
  /\ (forall E w service_name client w0 ops,
        _client service_name E w = (Ok client, w0) ->
        _client service_name E (run_ops ops E w0)
        = (Ok client, run_ops ops E w0))
  /\ (forall op E w service_name client,
        _client_cache w !! service_name = Some client ->
        _client_cache (snd (run_op op E w)) !! service_name = Some client)
  /\ (forall ops E root service_name,
        length (constructed service_name (trace (run_ops ops E (init root)))) <= 1).
Proof.
  split; [|split; [|split]].
  - intros E w name region Hnone Hcreate.
    rewrite (_client_fresh _ _ _ Hnone), Hcreate. by eexists _, _.
  - intros E w name client w0 ops Hfirst.
    apply _client_cached. apply cache_le_run_ops. by eapply _client_Ok.
  - intros op E w name client Hc.
    pose proof (cache_le_run_ops [op] E w) as H. by apply H.
  - intros ops E root name.
    rewrite (built_once_run_ops ops E (init root)); [|done].
    destruct (_client_cache _ !! name); simpl; lia.
Qed.

Lemma client_cache_constructs_once_witness :
  _client "lambda" quiet_env
    (run_ops [DeleteFunction "app"; GetRoleArnForName "deployer"]
       quiet_env lambda_world)
  = (Ok lambda_client,
     run_ops [DeleteFunction "app"; GetRoleArnForName "deployer"]
       quiet_env lambda_world)
  /\ _client_cache (snd (run_op (RestApiExists "abc") quiet_env lambda_world))
       !! "lambda" = Some lambda_client.
Proof.
  destruct client_cache_constructs_once as (_ & Hagain & Hkeep & _).
  split.
  - apply (Hagain quiet_env (init sample_root)). vm_compute. reflexivity.
  - apply Hkeep. vm_compute. reflexivity.
Defined.

(** ** Failures and what becomes of them *)



Section faithful.
Context {A : Type}.







End faithful.




Lemma faithful__client service_name : faithful (_client service_name).
Proof.
  intros E w. destruct (_client_cache w !! service_name) as [c|] eqn:Hc.
  - rewrite (_client_cached _ _ _ _ Hc). exists []. rewrite app_nil_r.
    split; [done|]. intros e He. by apply not_elem_of_nil in He.
  - rewrite (_client_fresh _ _ _ Hc).
    destruct (session_create_client E (trace w) service_name);
      (eexists; split; [done|]); simpl; intros e' He;
      try by apply not_elem_of_nil in He.
    apply list_elem_of_singleton in He as ->. by left.
Qed.


















(** The operations that handle a failure themselves. *)












(** ** The file system *)

Lemma entry_get_set_eq name n es : entry_get name (entry_set name n es) = Some n.
Proof.
  induction es as [|[k v] es IH]; simpl.
  - by rewrite String.eqb_refl.
  - destruct (String.eqb_spec name k) as [->|Hne]; simpl.
    + by rewrite String.eqb_refl.
    + destruct (String.eqb_spec name k); congruence.
Qed.

Lemma entry_get_set_ne k name n es :
  k <> name -> entry_get k (entry_set name n es) = entry_get k es.
Proof.
  intros Hne. induction es as [|[k0 v0] es IH]; simpl.
  - destruct (String.eqb_spec k name); congruence.
  - destruct (String.eqb_spec name k0) as [->|]; simpl.
    + destruct (String.eqb_spec k k0); congruence.
    + destruct (String.eqb_spec k k0); congruence.
Qed.

Lemma entry_get_del_ne k name es :
  k <> name -> entry_get k (entry_del name es) = entry_get k es.
Proof.
  intros Hne. induction es as [|[k0 v0] es IH]; simpl; [done|].
  destruct (String.eqb_spec name k0) as [->|]; simpl.
  - destruct (String.eqb_spec k k0); congruence.
  - destruct (String.eqb_spec k k0); congruence.
Qed.

Lemma fs_lookup_app p q root :
  fs_lookup (p ++ q) root
  = match fs_lookup p root with
    | Some n => fs_lookup q n
    | None => None
    end.
Proof.
  revert root. induction p as [|name p IH]; intros root; [done|].
  simpl. destruct root as [|es]; [done|]. destruct (entry_get name es); auto.
Qed.

Lemma disjoint_paths_cons name p q :
  disjoint_paths (name :: p) (name :: q) -> disjoint_paths p q.
Proof. intros [H1 H2]. split; intros H; [apply H1|apply H2]; by apply prefix_cons. Qed.

Lemma disjoint_paths_sym p q : disjoint_paths p q -> disjoint_paths q p.
Proof. intros [? ?]. by split. Qed.

(** Paths under two unrelated directories are unrelated. *)
Lemma disjoint_paths_app p q s t :
  disjoint_paths p q -> disjoint_paths (p ++ s) (q ++ t).
Proof.
  intros [H1 H2]. split; intros H.
  - destruct (prefix_weak_total p q (q ++ t)) as [?|?]; try done.
    + etrans; [|exact H]. by apply prefix_app_r.
    + by apply prefix_app_r.
  - destruct (prefix_weak_total p q (p ++ s)) as [?|?]; try done.
    + by apply prefix_app_r.
    + etrans; [|exact H]. by apply prefix_app_r.
Qed.

Lemma fs_put_frame p : forall new root root' q,
  fs_put p new root = Some root' -> disjoint_paths p q ->
  fs_lookup q root' = fs_lookup q root.
Proof.
  induction p as [|name p IH]; intros new root root' q Hput Hdis.
  - destruct Hdis as [H _]. exfalso. apply H, prefix_nil.
  - destruct root as [|es]; [done|]. cbn [fs_put] in Hput.
    destruct q as [|qn q].
    { destruct Hdis as [_ H]. exfalso. apply H, prefix_nil. }
    destruct p as [|n2 p2].
    + injection Hput as <-. cbn [fs_lookup].
      destruct (String.eqb_spec qn name) as [->|Hne].
      * destruct Hdis as [H _]. exfalso. apply H. apply prefix_cons, prefix_nil.
      * by rewrite entry_get_set_ne.
    + destruct (entry_get name es) as [child|] eqn:Hchild; [|done].
      destruct (fs_put (n2 :: p2) new child) as [child'|] eqn:Hrec; [|done].
      injection Hput as <-. cbn [fs_lookup].
      destruct (String.eqb_spec qn name) as [->|Hne].
      * rewrite entry_get_set_eq, Hchild. eapply IH; [exact Hrec|].
        by eapply disjoint_paths_cons.
      * by rewrite entry_get_set_ne.
Qed.

Lemma fs_put_lookup p : forall new root root',
  fs_put p new root = Some root' -> fs_lookup p root' = Some new.
Proof.
  induction p as [|name p IH]; intros new root root' Hput.
  - by injection Hput as <-.
  - destruct root as [|es]; [done|]. cbn [fs_put] in Hput.
    destruct p as [|n2 p2].
    + injection Hput as <-. cbn [fs_lookup]. by rewrite entry_get_set_eq.
    + destruct (entry_get name es) as [child|] eqn:Hchild; [|done].
      destruct (fs_put (n2 :: p2) new child) as [child'|] eqn:Hrec; [|done].
      injection Hput as <-. cbn [fs_lookup]. rewrite entry_get_set_eq.
      by eapply IH.
Qed.

(** A node can be put under every directory. *)
Lemma fs_put_child parent : forall name new root es,
  fs_lookup parent root = Some (Dir es) ->
  exists root',
    fs_put (parent ++ [name]) new root = Some root'
    /\ fs_lookup parent root' = Some (Dir (entry_set name new es)).
Proof.
  induction parent as [|d parent IH]; intros name new root es Hdir.
  - injection Hdir as ->. eexists. split; [done|]. done.
  - destruct root as [|res]; [done|]. cbn [fs_lookup] in Hdir.
    destruct (entry_get d res) as [child|] eqn:Hchild; [|done].
    destruct (IH name new child es Hdir) as (child' & Hput & Hlook).
    exists (Dir (entry_set d child' res)). split.
    + change ((d :: parent) ++ [name])%list with (d :: (parent ++ [name]))%list.
      cbn [fs_put]. rewrite Hchild, Hput.
      by destruct (parent ++ [name])%list eqn:Happ;
        [destruct parent; discriminate Happ|].
    + cbn [fs_lookup]. by rewrite entry_get_set_eq.
Qed.

Lemma fs_remove_frame p : forall root root' q,
  fs_remove p root = Some root' -> disjoint_paths p q ->
  fs_lookup q root' = fs_lookup q root.
Proof.
  induction p as [|name p IH]; intros root root' q Hrm Hdis; [done|].
  destruct root as [|es]; [done|]. cbn [fs_remove] in Hrm.
  destruct (entry_get name es) as [child|] eqn:Hchild; [|done].
  destruct q as [|qn q].
  { destruct Hdis as [_ H]. exfalso. apply H, prefix_nil. }
  destruct p as [|n2 p2].
  - injection Hrm as <-. cbn [fs_lookup].
    destruct (String.eqb_spec qn name) as [->|Hne].
    + destruct Hdis as [H _]. exfalso. apply H. apply prefix_cons, prefix_nil.
    + by rewrite entry_get_del_ne.
  - destruct (fs_remove (n2 :: p2) child) as [child'|] eqn:Hrec; [|done].
    injection Hrm as <-. cbn [fs_lookup].
    destruct (String.eqb_spec qn name) as [->|Hne].
    + rewrite entry_get_set_eq, Hchild. eapply IH; [exact Hrec|].
      by eapply disjoint_paths_cons.
    + by rewrite entry_get_set_ne.
Qed.

(** An entry of a directory can be removed; the directory stays. *)
Lemma fs_remove_child parent : forall name root es n,
  fs_lookup parent root = Some (Dir es) ->
  entry_get name es = Some n ->
  exists root',
    fs_remove (parent ++ [name]) root = Some root'
    /\ fs_lookup parent root' = Some (Dir (entry_del name es)).
Proof.
  induction parent as [|d parent IH]; intros name root es n Hdir Hn.
  - injection Hdir as ->. eexists. split; [|done]. simpl. by rewrite Hn.
  - destruct root as [|res]; [done|]. cbn [fs_lookup] in Hdir.
    destruct (entry_get d res) as [child|] eqn:Hchild; [|done].
    destruct (IH name child es n Hdir Hn) as (child' & Hrm & Hlook).
    exists (Dir (entry_set d child' res)). split.
    + change ((d :: parent) ++ [name])%list with (d :: (parent ++ [name]))%list.
      cbn [fs_remove]. rewrite Hchild, Hrm.
      by destruct (parent ++ [name])%list eqn:Happ;
        [destruct parent; discriminate Happ|].
    + cbn [fs_lookup]. by rewrite entry_get_set_eq.
Qed.

Lemma fs_lookup_child parent name root es :
  fs_lookup parent root = Some (Dir es) ->
  fs_lookup (parent ++ [name]) root = entry_get name es.
Proof.
  intros H. rewrite fs_lookup_app, H. simpl. by destruct (entry_get name es).
Qed.

Lemma disjoint_paths_child_l p q name :
  disjoint_paths p q -> disjoint_paths (p ++ [name]) q.
Proof.
  intros H. rewrite <- (app_nil_r q). by apply disjoint_paths_app.
Qed.

Lemma disjoint_paths_child_r p q name :
  disjoint_paths p q -> disjoint_paths p (q ++ [name]).
Proof.
  intros H. rewrite <- (app_nil_r p). by apply disjoint_paths_app.
Qed.

Lemma disjoint_paths_siblings parent a b :
  a <> b -> disjoint_paths (parent ++ [a]) (parent ++ [b]).
Proof.
  intros Hne. split; intros H; apply prefix_app_inv in H;
    apply prefix_cons_inv_1 in H; congruence.
Qed.

(** Renaming the only entry of a directory in place. *)
Lemma os_rename_only_entry parent a b n root :
  fs_lookup parent root = Some (Dir [(a, n)]) ->
  exists root',
    os_rename (parent ++ [a]) (parent ++ [b]) root = Ok root'
    /\ fs_lookup parent root' = Some (Dir [(b, n)])
    /\ forall q, disjoint_paths parent q -> fs_lookup q root' = fs_lookup q root.
Proof.
  intros Hdir. unfold os_rename.
  rewrite (fs_lookup_child _ a _ _ Hdir). cbn [entry_get].
  rewrite String.eqb_refl.
  destruct (decide (a = b)) as [<-|Hne].
  - rewrite bool_decide_eq_true_2 by done. by exists root.
  - rewrite bool_decide_eq_false_2
      by (intros H; apply app_inv_head in H; congruence).
    rewrite bool_decide_eq_false_2
      by apply (proj1 (disjoint_paths_siblings parent a b Hne)).
    rewrite (fs_lookup_child _ b _ _ Hdir). cbn [entry_get].
    destruct (String.eqb_spec b a) as [->|_]; [done|]. cbn [negb].
    destruct (fs_remove_child parent a root _ n Hdir) as (root1 & Hrm & Hdir1).
    { cbn [entry_get]. by rewrite String.eqb_refl. }
    rewrite Hrm. cbn [entry_del] in Hdir1. rewrite String.eqb_refl in Hdir1.
    destruct (fs_put_child parent b n root1 _ Hdir1) as (root2 & Hput & Hdir2).
    rewrite Hput. exists root2. split; [done|]. split; [done|].
    intros q Hq.
    rewrite (fs_put_frame _ _ _ _ q Hput) by by apply disjoint_paths_child_l.
    by rewrite (fs_remove_frame _ _ _ q Hrm) by by apply disjoint_paths_child_l.
Qed.


Lemma _client_fs E w service_name : fs (snd (_client service_name E w)) = fs w.
Proof.
  destruct (_client_cache w !! service_name) as [c|] eqn:Hc.
  - by rewrite (_client_cached _ _ _ _ Hc).
  - rewrite (_client_fresh _ _ _ Hc).
    by destruct (session_create_client E (trace w) service_name).
Qed.

Lemma get_sdk_download_stream_fs E w rest_api_id stage sdk_type :
  fs (snd (get_sdk_download_stream rest_api_id stage sdk_type E w)) = fs w.
Proof.
  unfold get_sdk_download_stream, bind.
  pose proof (_client_fs E w "apigateway") as Hfs.
  destruct (_client "apigateway" E w) as [[c|e|] w1]; cbn [snd] in *; try done.
  unfold call, lift.
  destruct (remote E (trace w1) c "get_sdk" _); cbn [snd log fs]; done.
Qed.

(** The first part of [download_sdk] leaves the entries of the archive in
    [tmpdir/extracted] and touches nothing outside [tmpdir]. *)
Lemma download_sdk_extract_spec
    E w w0 w1 rest_api_id stage sdk_type data tmpdir entries :
  get_sdk_download_stream rest_api_id stage sdk_type E w
  = (Ok (PStream data), w0) ->
  tempfile_mkdtemp E w0 = (Ok tmpdir, w1) ->
  zip_members E data = Ok (Some entries) ->
  exists w4,
    download_sdk_extract rest_api_id stage sdk_type E w
    = (Ok (tmpdir ++ ["extracted"])%list, w4)
    /\ fs_lookup (tmpdir ++ ["extracted"]) (fs w4) = Some (Dir entries)
    /\ forall q, disjoint_paths tmpdir q -> fs_lookup q (fs w4) = fs_lookup q (fs w).
Proof.
  intros Hstream Hmk Hzip.
  pose proof (get_sdk_download_stream_fs E w rest_api_id stage sdk_type) as Hfs0.
  rewrite Hstream in Hfs0. cbn [snd] in Hfs0.
  (* mkdtemp *)
  unfold tempfile_mkdtemp, bind, with_fs, ret in Hmk.
  destruct (mkdtemp_path E (fs w0)) as [tmp| |] eqn:Hpath; try done.
  destruct (os_mkdir tmp (fs w0)) as [root1| |] eqn:Hmkdir; try done.
  injection Hmk as -> <-. unfold os_mkdir in Hmkdir.
  destruct (fs_lookup tmpdir (fs w0)) eqn:Hfresh; [done|].
  destruct (fs_put tmpdir (Dir []) (fs w0)) as [root1'|] eqn:Hput1; [|done].
  injection Hmkdir as ->.
  pose proof (fs_put_lookup _ _ _ _ Hput1) as Htmp1.
  (* the empty file, then its contents *)
  destruct (fs_put_child tmpdir "sdk.zip" (File "") root1 _ Htmp1)
    as (root2 & Hput2 & Htmp2).
  cbn [entry_set] in Htmp2.
  destruct (fs_put_child tmpdir "sdk.zip" (File data) root2 _ Htmp2)
    as (root3 & Hput3 & Htmp3).
  cbn [entry_set String.eqb Ascii.eqb Bool.eqb] in Htmp3.
  destruct (fs_put_child tmpdir "extracted" (Dir entries) root3 _ Htmp3)
    as (root4 & Hput4 & Htmp4).
  exists (set_fs root4 (set_fs root1 w0)).
  split; [|split].
  - unfold download_sdk_extract. unfold bind at 1. rewrite Hstream.
    unfold bind at 1. unfold tempfile_mkdtemp, bind at 1, bind at 1.
    rewrite Hpath. unfold with_fs at 1, os_mkdir. rewrite Hfresh, Hput1.
    unfold ret at 1.
    unfold bind at 1. unfold with_fs at 1, write_file. cbn [fs set_fs].
    rewrite (fs_lookup_child _ "sdk.zip" _ _ Htmp1). cbn [entry_get].
    rewrite Hput2.
    unfold bind at 1. unfold lift at 1. cbn [stream_read].
    unfold bind at 1. unfold with_fs at 1. cbn [fs set_fs].
    rewrite (fs_lookup_child _ "sdk.zip" _ _ Htmp2).
    cbn [entry_get String.eqb Ascii.eqb Bool.eqb]. rewrite Hput3.
    unfold bind at 1. unfold zipfile_extractall.
    unfold bind at 1. unfold read_fs, read_file. cbn [fs set_fs].
    rewrite (fs_lookup_child _ "sdk.zip" _ _ Htmp3).
    cbn [entry_get String.eqb Ascii.eqb Bool.eqb].
    unfold bind at 1. unfold lift at 1. rewrite Hzip.
    unfold with_fs. cbn [fs set_fs]. rewrite Hput4. done.
  - cbn [fs set_fs]. by apply (fs_put_lookup _ _ _ _ Hput4).
  - intros q Hq. cbn [fs set_fs].
    rewrite (fs_put_frame _ _ _ _ q Hput4) by by apply disjoint_paths_child_l.
    rewrite (fs_put_frame _ _ _ _ q Hput3) by by apply disjoint_paths_child_l.
    rewrite (fs_put_frame _ _ _ _ q Hput2) by by apply disjoint_paths_child_l.
    rewrite (fs_put_frame _ _ _ _ q Hput1) by done.
    by rewrite Hfs0.
Qed.





(** ** Termination of the retry loop *)

(** [create_function] diverges only if the session or a request never
    returns: the budget of its loop is never used up. *)
Lemma create_function_terminates
    E w w' function_name role_arn zip_contents runtime
    environment_variables tags timeout memory_size :
  create_function function_name role_arn zip_contents runtime
    environment_variables tags timeout memory_size E w = (Diverge, w') ->
  exists evs ev,
    trace w' = (trace w ++ evs ++ [ev])%list
    /\ (ev = CreateClient "lambda" Diverge
        \/ exists client kwargs,
             ev = Call client "create_function" kwargs Diverge).
Proof.
  unfold create_function, create_function_fuel. unfold bind at 1.
  destruct (faithful__client "lambda" E w) as (evs0 & Htr0 & _).
  destruct (_client "lambda" E w) as [[client|e|] w0] eqn:Hclient;
    cbn [snd] in Htr0.
  - intros Hloop.
    apply (loop_terminates E client _ LAMBDA_CREATE_ATTEMPTS) in Hloop
      as [evs ->]; [|lia|lia].
    eexists (evs0 ++ evs)%list, _. split; [|right; by eexists _, _].
    rewrite trace_log, Htr0. by rewrite !app_assoc.
  - discriminate.
  - intros [= <-].
    destruct (_client_cache w !! "lambda") as [c|] eqn:Hc.
    + by rewrite (_client_cached _ _ _ _ Hc) in Hclient.
    + rewrite (_client_fresh _ _ _ Hc) in Hclient.
      destruct (session_create_client E (trace w) "lambda"); try done.
      injection Hclient as <-. exists [], (CreateClient "lambda" Diverge).
      split; [done | by left].
Qed.

(** * Further properties *)

(** ** Looking an API up by its name *)

Lemma find_rest_api_first before : forall api after name,
  Forall (other_name name) before ->
  find_rest_api (before ++ api :: after) name
  = (api_name <~ py_getitem api "name" ;;
     if py_eq_str api_name name then py_getitem api "id"
     else find_rest_api after name)%res.
Proof.
  induction before as [|b before IH]; intros api after name Hall; [done|].
  apply Forall_cons in Hall as [(n & Hn & Hne) Hall].
  cbn [app find_rest_api]. rewrite Hn. cbn [rbind]. rewrite Hne. by apply IH.
Qed.

Lemma find_rest_api_none rest_apis name :
  Forall (other_name name) rest_apis -> find_rest_api rest_apis name = Ok PNone.
Proof.
  induction 1 as [|api rest_apis (n & Hn & Hne) _ IH]; [done|].
  cbn [find_rest_api]. rewrite Hn. cbn [rbind]. by rewrite Hne.
Qed.

(** X1. [get_rest_api_id] makes one [get_rest_apis] request and scans the
    items in the order of the response: it returns the id of the first item
    whose name is the name looked for, whatever comes after it; it returns
    [None] when every item has another name; an item without a name, met
    before a match, raises [KeyError]. *)
Theorem get_rest_api_id_first_match
    (E : Env) (w w0 : World) (client : Client) (name : string)
    (response items : pyval) (rest_apis : list pyval) :
  let run := get_rest_api_id name E w in
  _client "apigateway" E w = (Ok client, w0) ->
  remote E (trace w0) client "get_rest_apis" [] = Ok response ->
  py_getitem response "items" = Ok items ->
  py_iter items = Ok rest_apis ->
  snd run = log [Call client "get_rest_apis" [] (Ok response)] w0
  /\ (forall before api after api_id,
        rest_apis = (before ++ api :: after)%list ->
        Forall (other_name name) before ->
        py_getitem api "name" = Ok (PStr name) ->
        py_getitem api "id" = Ok api_id ->
        fst run = Ok api_id)
  /\ (Forall (other_name name) rest_apis -> fst run = Ok PNone)
  /\ (forall before fields after,
        rest_apis = (before ++ PDict fields :: after)%list ->
        Forall (other_name name) before ->
        dict_get "name" fields = None ->
        fst run = Raise (KeyError "name")).
Proof.
  intros run Hclient Hreq Hitems Hiter.
  assert (run = (find_rest_api rest_apis name,
                 log [Call client "get_rest_apis" [] (Ok response)] w0)) as ->.
  { unfold run, get_rest_api_id. unfold bind at 1. rewrite Hclient.
    unfold bind, call, lift. by rewrite Hreq, Hitems, Hiter. }
  cbn [fst snd]. split; [done|]. split; [|split].
  - intros before api after api_id -> Hbefore Hname Hid.
    rewrite find_rest_api_first by done. rewrite Hname. cbn [rbind py_eq_str].
    by rewrite String.eqb_refl.
  - apply find_rest_api_none.
  - intros before fields after -> Hbefore Hname.
    rewrite find_rest_api_first by done. cbn [py_getitem]. by rewrite Hname.
Qed.

Lemma get_rest_api_id_first_match_witness :
  fst (get_rest_api_id "app" apis_env (init sample_root)) = Ok (PStr "two")
  /\ fst (get_rest_api_id "none" apis_env (init sample_root)) = Ok PNone.
Proof.
  split.
  - pose proof (get_rest_api_id_first_match apis_env (init sample_root)
                  gateway_world gateway_client "app"
                  (PDict [("items",
                     PList [PDict [("id", PStr "one"); ("name", PStr "other")];
                            PDict [("id", PStr "two"); ("name", PStr "app")];
                            PDict [("id", PStr "three"); ("name", PStr "app")]])])
                  _ _ ltac:(vm_compute; reflexivity) eq_refl eq_refl eq_refl)
      as (_ & H & _).
    apply (H [PDict [("id", PStr "one"); ("name", PStr "other")]]
             (PDict [("id", PStr "two"); ("name", PStr "app")])
             [PDict [("id", PStr "three"); ("name", PStr "app")]]);
      try reflexivity.
    repeat constructor. by eexists.
  - pose proof (get_rest_api_id_first_match apis_env (init sample_root)
                  gateway_world gateway_client "none"
                  (PDict [("items",
                     PList [PDict [("id", PStr "one"); ("name", PStr "other")];
                            PDict [("id", PStr "two"); ("name", PStr "app")];
                            PDict [("id", PStr "three"); ("name", PStr "app")]])])
                  _ _ ltac:(vm_compute; reflexivity) eq_refl eq_refl eq_refl)
      as (_ & _ & H & _).
    apply H. repeat constructor; by eexists.
Defined.

(** ** Roles *)

(** X2. With the IAM client at hand, [create_role] serializes the trust
    policy first (a failure there ends the operation before any request),
    requests [create_role], and once the response has given the ARN of the
    role, requests [put_role_policy] for a policy that has the name of the
    role, with the policy serialized with [indent=2].  It returns the ARN
    when that request succeeds; when it fails the failure is raised and no
    further request is made: the role stays created. *)
Theorem create_role_then_policy
    (E : Env) (w w0 : World) (client : Client) (name : string)
    (trust_policy policy : pyval) :
  let run := create_role name trust_policy policy E w in
  _client "iam" E w = (Ok client, w0) ->
  (forall e, json_dumps E trust_policy None = Raise e -> run = (Raise e, w0))
  /\ (forall document,
        json_dumps E trust_policy None = Ok document ->
        let create := [("RoleName", PStr name);
                       ("AssumeRolePolicyDocument", PStr document)] in
        let out := remote E (trace w0) client "create_role" create in
        let w1 := log [Call client "create_role" create out] w0 in
        (forall e, out = Raise e -> run = (Raise e, w1))
        /\ (forall response role role_arn policy_document,
              out = Ok response ->
              py_getitem response "Role" = Ok role ->
              py_getitem role "Arn" = Ok role_arn ->
              json_dumps E policy (Some 2%Z) = Ok policy_document ->
              let put := [("RoleName", PStr name);
                          ("PolicyName", PStr name);
                          ("PolicyDocument", PStr policy_document)] in
              let out2 := remote E (trace w1) client "put_role_policy" put in
              run = (rbind out2 (fun _ => Ok role_arn),
                     log [Call client "put_role_policy" put out2] w1))).
Proof.
  intros run Hclient. pose proof (_client_Ok _ _ _ _ _ Hclient) as Hc.
  assert (run = (document <- (fun E => lift (json_dumps E trust_policy None) E) ;;
                 response <- call client "create_role"
                               [("RoleName", PStr name);
                                ("AssumeRolePolicyDocument", PStr document)] ;;
                 role <- lift (py_getitem response "Role") ;;
                 role_arn <- lift (py_getitem role "Arn") ;;
                 put_role_policy name name policy ;;
                 ret role_arn) E w0) as ->.
  { unfold run, create_role. unfold bind at 1. by rewrite Hclient. }
  split.
  - intros e He. unfold bind at 1. unfold lift. by rewrite He.
  - intros document Hdoc create out w1.
    assert (forall k : pyval -> M pyval,
              (document <- (fun E => lift (json_dumps E trust_policy None) E) ;;
               response <- call client "create_role"
                             [("RoleName", PStr name);
                              ("AssumeRolePolicyDocument", PStr document)] ;;
               k response) E w0
              = match out with
                | Ok response => k response E w1
                | Raise e => (Raise e, w1)
                | Diverge => (Diverge, w1)
                end) as Hstep.
    { intros k. unfold bind at 1. unfold lift at 1. rewrite Hdoc.
      unfold bind, call. fold create out w1. by destruct out. }
    rewrite Hstep. split.
    + intros e He. by rewrite He.
    + intros response role role_arn policy_document Hout Hrole Harn Hpdoc.
      rewrite Hout. unfold bind at 1. unfold lift at 1. rewrite Hrole.
      unfold bind at 1. unfold lift at 1. rewrite Harn.
      unfold bind at 1. unfold put_role_policy. unfold bind at 1.
      rewrite (_client_cached E w1 "iam" client) by done.
      unfold bind at 1. unfold lift at 1. rewrite Hpdoc.
      unfold bind, call, ret.
      by destruct (remote E (trace w1) client "put_role_policy" _).
Qed.

Lemma create_role_then_policy_witness :
  create_role "app" (PDict []) (PDict []) iam_env (init sample_root)
  = (Ok (PStr "arn:aws:iam::123:role/app"),
     log [Call iam_client "create_role"
            [("RoleName", PStr "app"); ("AssumeRolePolicyDocument", PStr "{}")]
            (Ok (PDict [("Role", PDict [("Arn", PStr "arn:aws:iam::123:role/app")])]));
          Call iam_client "put_role_policy"
            [("RoleName", PStr "app"); ("PolicyName", PStr "app");
             ("PolicyDocument", PStr "{ }")]
            (Ok (PDict []))] iam_world).
Proof.
  pose proof (create_role_then_policy iam_env (init sample_root) iam_world
                iam_client "app" (PDict []) (PDict [])
                ltac:(vm_compute; reflexivity)) as [_ H].
  destruct (H "{}" eq_refl) as [_ H2]. cbv zeta in H2.
  rewrite (H2 (PDict [("Role", PDict [("Arn", PStr "arn:aws:iam::123:role/app")])])
              (PDict [("Arn", PStr "arn:aws:iam::123:role/app")])
              (PStr "arn:aws:iam::123:role/app") "{ }"
              eq_refl eq_refl eq_refl eq_refl).
  vm_compute. reflexivity.
Defined.

(** X3. With the IAM client at hand, [get_role_arn_for_name] makes one
    [get_role] request and returns [role['Role']['Arn']]; a response
    without ['Role'], or whose role has no ['Arn'], raises [KeyError]; a
    failure that is not of the no-such-entity class is raised as it is. *)
Theorem get_role_arn_for_name_result
    (E : Env) (w w0 : World) (client : Client) (name : string) :
  let kwargs := [("RoleName", PStr name)] in
  let out := remote E (trace w0) client "get_role" kwargs in
  let run := get_role_arn_for_name name E w in
  _client "iam" E w = (Ok client, w0) ->
  snd run = log [Call client "get_role" kwargs out] w0
  /\ (forall fields role role_arn,
        out = Ok (PDict fields) ->
        dict_get "Role" fields = Some (PDict role) ->
        dict_get "Arn" role = Some role_arn ->
        fst run = Ok role_arn)
  /\ (forall fields,
        out = Ok (PDict fields) -> dict_get "Role" fields = None ->
        fst run = Raise (KeyError "Role"))
  /\ (forall fields role,
        out = Ok (PDict fields) ->
        dict_get "Role" fields = Some (PDict role) ->
        dict_get "Arn" role = None ->
        fst run = Raise (KeyError "Arn"))
  /\ (forall e,
        out = Raise e ->
        isinstance e (exceptions client "NoSuchEntityException") = false ->
        fst run = Raise e).
Proof.
  intros kwargs out run Hclient.
  assert (run = (match guarded out (exceptions client "NoSuchEntityException")
                         (role <~ out ;; role' <~ py_getitem role "Role" ;;
                          py_getitem role' "Arn")%res
                         (Raise (ValueError ("No role ARN found for: " +:+ name)))
                 with r => r end,
                 log [Call client "get_role" kwargs out] w0)) as ->.
  { unfold run, get_role_arn_for_name. unfold bind at 1. rewrite Hclient.
    unfold bind, try_except, call, lift, raise, guarded. fold kwargs out.
    destruct out as [role|e|]; cbn [rbind]; try done.
    - destruct (py_getitem role "Role"); cbn [rbind]; done.
    - by destruct (isinstance e _). }
  cbn [fst snd]. split; [done|]. repeat split.
  - intros fields role role_arn -> Hrole Harn. cbn. rewrite Hrole. cbn.
    by rewrite Harn.
  - intros fields -> Hrole. cbn. by rewrite Hrole.
  - intros fields role -> Hrole Harn. cbn. rewrite Hrole. cbn. by rewrite Harn.
  - intros e -> He. cbn. by rewrite He.
Qed.

Lemma get_role_arn_for_name_result_witness :
  fst (get_role_arn_for_name "app" iam_env (init sample_root))
  = Ok (PStr "arn:aws:iam::123:role/app")
  /\ fst (get_role_arn_for_name "app" quiet_env (init sample_root))
     = Raise (KeyError "Role")
  /\ fst (get_role_arn_for_name "app" (failing_env access_denied)
            (init sample_root)) = Raise access_denied.
Proof.
  split; [|split].
  - pose proof (get_role_arn_for_name_result iam_env (init sample_root)
                  iam_world iam_client "app" ltac:(vm_compute; reflexivity))
      as (_ & H & _).
    by apply (H [("Role", PDict [("Arn", PStr "arn:aws:iam::123:role/app")])]
                [("Arn", PStr "arn:aws:iam::123:role/app")]).
  - pose proof (get_role_arn_for_name_result quiet_env (init sample_root)
                  iam_world iam_client "app" ltac:(vm_compute; reflexivity))
      as (_ & _ & H & _).
    by apply (H []).
  - pose proof (get_role_arn_for_name_result (failing_env access_denied)
                  (init sample_root) iam_world iam_client "app"
                  ltac:(vm_compute; reflexivity)) as (_ & _ & _ & _ & H).
    by apply H.
Defined.

(** ** Existence checks and deletions *)

Lemma guarded_request_run {A} E w w0 client service_name method kwargs code
    (on_success on_caught : M A) :
  _client service_name E w = (Ok client, w0) ->
  let out := remote E (trace w0) client method kwargs in
  let w1 := log [Call client method kwargs out] w0 in
  (client <- _client service_name ;;
   r <- try_except (call client method kwargs) (exceptions client code) ;;
   match r with
   | inl _ => on_success
   | inr _ => on_caught
   end) E w
  = match out with
    | Ok _ => on_success E w1
    | Raise e =>
        if isinstance e (exceptions client code) then on_caught E w1
        else (Raise e, w1)
    | Diverge => (Diverge, w1)
    end.
Proof.
  intros Hclient out w1. unfold bind at 1. rewrite Hclient.
  unfold bind, try_except, call. fold out w1.
  destruct out as [v|e|]; try done. by destruct (isinstance e _).
Qed.

(** X4. With the client of the service at hand, each existence check and
    each deletion makes exactly one request and its outcome is a function
    of the outcome of that request: an existence check answers [True] when
    the request returns and [False] when it raises the not-found class; a
    deletion returns [None] when the request returns and raises
    [ResourceDoesNotExistError] with the name or id it was given when the
    request raises the not-found class; an exception of another class is
    raised as it is. *)
Theorem guarded_requests
    (E : Env) (w w0 : World) (client : Client) (name : string) :
  (_client "lambda" E w = (Ok client, w0) ->
   let not_found := exceptions client "ResourceNotFoundException" in
   let kwargs := [("FunctionName", PStr name)] in
   (let out := remote E (trace w0) client "get_function" kwargs in
    lambda_function_exists name E w
    = (guarded out not_found (Ok true) (Ok false),
       log [Call client "get_function" kwargs out] w0))
   /\ (let out := remote E (trace w0) client "delete_function" kwargs in
       delete_function name E w
       = (guarded out not_found (Ok tt) (Raise (ResourceDoesNotExistError name)),
          log [Call client "delete_function" kwargs out] w0)))
  /\ (_client "apigateway" E w = (Ok client, w0) ->
      let not_found := exceptions client "NotFoundException" in
      let kwargs := [("restApiId", PStr name)] in
      (let out := remote E (trace w0) client "get_rest_api" kwargs in
       rest_api_exists name E w
       = (guarded out not_found (Ok true) (Ok false),
          log [Call client "get_rest_api" kwargs out] w0))
      /\ (let out := remote E (trace w0) client "delete_rest_api" kwargs in
          delete_rest_api name E w
          = (guarded out not_found (Ok tt)
               (Raise (ResourceDoesNotExistError name)),
             log [Call client "delete_rest_api" kwargs out] w0))).
Proof.
  split; intros Hclient not_found kwargs; split; intros out.
  - unfold lambda_function_exists. unfold bind at 1. rewrite Hclient.
    unfold bind, try_except, call, ret, guarded. fold kwargs out.
    destruct out as [v|e|]; try done. by destruct (isinstance e _).
  - unfold delete_function.
    rewrite (guarded_request_run E w w0 client "lambda" "delete_function"
               kwargs "ResourceNotFoundException" _ _ Hclient).
    fold out. unfold guarded. destruct out as [v|e|]; try done.
    by destruct (isinstance e _).
  - unfold rest_api_exists. unfold bind at 1. rewrite Hclient.
    unfold bind, try_except, call, ret, guarded. fold kwargs out.
    destruct out as [v|e|]; try done. by destruct (isinstance e _).
  - unfold delete_rest_api.
    rewrite (guarded_request_run E w w0 client "apigateway" "delete_rest_api"
               kwargs "NotFoundException" _ _ Hclient).
    fold out. unfold guarded. destruct out as [v|e|]; try done.
    by destruct (isinstance e _).
Qed.

Lemma guarded_requests_witness :
  fst (lambda_function_exists "app" quiet_env (init sample_root)) = Ok true
  /\ fst (delete_function "app" (failing_env access_denied) (init sample_root))
     = Raise access_denied
  /\ fst (rest_api_exists "abc" (failing_env access_denied) (init sample_root))
     = Raise access_denied
  /\ fst (delete_rest_api "abc" quiet_env (init sample_root)) = Ok tt.
Proof.
  split; [|split; [|split]].
  - destruct (guarded_requests quiet_env (init sample_root) lambda_world
                lambda_client "app") as [H _].
    destruct (H ltac:(vm_compute; reflexivity)) as [-> _]. reflexivity.
  - destruct (guarded_requests (failing_env access_denied) (init sample_root)
                lambda_world lambda_client "app") as [H _].
    destruct (H ltac:(vm_compute; reflexivity)) as [_ ->]. reflexivity.
  - destruct (guarded_requests (failing_env access_denied) (init sample_root)
                gateway_world gateway_client "abc") as [_ H].
    destruct (H ltac:(vm_compute; reflexivity)) as [-> _]. reflexivity.
  - destruct (guarded_requests quiet_env (init sample_root)
                gateway_world gateway_client "abc") as [_ H].
    destruct (H ltac:(vm_compute; reflexivity)) as [_ ->]. reflexivity.
Defined.

(** ** The retry loop for every environment *)

Lemma requests_retry_events client kwargs es :
  requests (retry_events client kwargs es)
  = repeat ("create_function", kwargs) (length es).
Proof. induction es as [|e es IH]; simpl; by rewrite ?IH. Qed.

(** What the loop of [create_function] adds to the trace, whatever the
    service answers: rounds that failed and were slept on, then at most one
    request more. *)
Lemma create_function_loop_events E client kwargs : forall fuel attempts w,
  attempts < LAMBDA_CREATE_ATTEMPTS ->
  exists es last,
    snd (while_true fuel (create_function_attempt client kwargs) attempts E w)
    = log (retry_events client kwargs es ++ last) w
    /\ attempts + length es + length last <= LAMBDA_CREATE_ATTEMPTS
    /\ (last = []
        \/ exists out, last = [Call client "create_function" kwargs out]).
Proof.
  induction fuel as [|fuel IH]; intros attempts w Hlt.
  - exists [], []. cbn [while_true lift snd retry_events flat_map app length].
    rewrite log_nil. split; [done|]. split; [lia | by left].
  - cbn [while_true]. unfold bind at 1.
    destruct (remote E (trace w) client "create_function" kwargs)
      as [response|e|] eqn:Hreq.
    + rewrite (attempt_Ok E client kwargs w attempts response Hreq).
      exists [], [Call client "create_function" kwargs (Ok response)].
      split; [|split; [cbn [length]; lia | right; by eexists]].
      by destruct (py_getitem response "FunctionArn").
    + destruct (isinstance e (exceptions client "InvalidParameterValueException"))
        eqn:Ht.
      * rewrite (attempt_transient E client kwargs w attempts e Hreq Ht).
        destruct (Nat.leb_spec LAMBDA_CREATE_ATTEMPTS (attempts + 1)) as [Hge|Hlt'].
        -- exists [e], []. rewrite app_nil_r.
           split; [done|]. split; [cbn [length]; lia | by left].
        -- destruct (IH (attempts + 1) (log (retry_events client kwargs [e]) w) Hlt')
             as (es & last & Hrun & Hlen & Hlast).
           exists (e :: es), last. rewrite Hrun, log_log.
           split; [reflexivity|]. split; [cbn [length]; lia | done].
      * rewrite (attempt_other E client kwargs w attempts e Hreq);
          [|unfold transient; by rewrite Ht].
        exists [], [Call client "create_function" kwargs (Raise e)].
        split; [done|]. split; [cbn [length]; lia | right; by eexists].
    + rewrite (attempt_Diverge E client kwargs w attempts Hreq).
      exists [], [Call client "create_function" kwargs Diverge].
      split; [done|]. split; [cbn [length]; lia | right; by eexists].
Qed.

(** Fetching a client adds no request and no sleep to the trace. *)
Lemma _client_events E w service_name :
  exists evs,
    trace (snd (_client service_name E w)) = (trace w ++ evs)%list
    /\ requests evs = [] /\ sleeps evs = [].
Proof.
  destruct (_client_cache w !! service_name) as [c|] eqn:Hc.
  - rewrite (_client_cached _ _ _ _ Hc). exists []. by rewrite app_nil_r.
  - rewrite (_client_fresh _ _ _ Hc).
    destruct (session_create_client E (trace w) service_name);
      eexists [_]; done.
Qed.

(** X5. Whatever the session and the service answer, [create_function]
    makes no request but [create_function] with the keyword arguments it
    built, makes at most [LAMBDA_CREATE_ATTEMPTS] of them, sleeps only for
    [DELAY_TIME] seconds at a time and at most once per request, so for no
    more than [LAMBDA_CREATE_ATTEMPTS * DELAY_TIME] = 150 seconds in all. *)
Theorem create_function_bounded
    (E : Env) (w : World)
    (function_name role_arn zip_contents runtime : string)
    (environment_variables tags : option (gmap string string))
    (timeout memory_size : option Z) :
  let kwargs := create_function_kwargs function_name role_arn zip_contents
                  runtime environment_variables tags timeout memory_size in
  let evs := new_events
               (create_function function_name role_arn zip_contents runtime
                  environment_variables tags timeout memory_size) E w in
  Forall (fun request => request = ("create_function", kwargs)) (requests evs)
  /\ length (requests evs) <= LAMBDA_CREATE_ATTEMPTS
  /\ Forall (fun seconds => seconds = DELAY_TIME) (sleeps evs)
  /\ length (sleeps evs) <= length (requests evs)
  /\ (0 <= total_sleep evs <= 150)%Z.
Proof.
  intros kwargs evs.
  assert (exists n last,
             requests evs = (repeat ("create_function", kwargs) n ++ requests last)%list
             /\ sleeps evs = repeat DELAY_TIME n
             /\ n + length last <= LAMBDA_CREATE_ATTEMPTS
             /\ (last = [] \/ exists client out,
                    last = [Call client "create_function" kwargs out]))
    as (n & last & Hreq & Hsl & Hlen & Hlast).
  { unfold evs, new_events, create_function, create_function_fuel.
    fold kwargs. unfold bind.
    destruct (_client_events E w "lambda") as (cevs & Htr & Hcr & Hcs).
    destruct (_client "lambda" E w) as [[client|e|] w0]; cbn [snd] in *.
    - destruct (create_function_loop_events E client kwargs
                  (S LAMBDA_CREATE_ATTEMPTS) 0 w0 LAMBDA_CREATE_ATTEMPTS_pos)
        as (es & last & -> & Hlen & Hlast).
      rewrite trace_log, Htr, <- app_assoc, drop_app_length.
      exists (length es), last.
      rewrite !requests_app, !sleeps_app, Hcr, Hcs, requests_retry_events,
        sleeps_retry_events. cbn [app].
      split; [done|]. split.
      + destruct Hlast as [->|(out & ->)]; cbn [sleeps]; by rewrite app_nil_r.
      + split; [lia|]. destruct Hlast as [->|(out & ->)]; [by left|].
        right. by eexists _, _.
    - exists 0, []. rewrite Htr, drop_app_length, Hcr, Hcs.
      split; [done|]. split; [done|]. split; [cbn [length]; lia | by left].
    - exists 0, []. rewrite Htr, drop_app_length, Hcr, Hcs.
      split; [done|]. split; [done|]. split; [cbn [length]; lia | by left]. }
  assert (length (requests last) = length last) as Hll.
  { by destruct Hlast as [->|(client & out & ->)]. }
  split; [|split; [|split; [|split]]].
  - rewrite Hreq. apply Forall_app. split.
    + apply Forall_forall. intros x Hx. by apply list_elem_of_In, repeat_spec in Hx.
    + destruct Hlast as [->|(client & out & ->)]; cbn [requests];
        [done | by repeat constructor].
  - rewrite Hreq, length_app, repeat_length, Hll. lia.
  - rewrite Hsl. apply Forall_forall. intros x Hx.
    by apply list_elem_of_In, repeat_spec in Hx.
  - rewrite Hreq, Hsl, length_app, !repeat_length. lia.
  - unfold total_sleep. rewrite Hsl, total_sleep_repeat.
    unfold DELAY_TIME, LAMBDA_CREATE_ATTEMPTS in *. lia.
Qed.

(** ** An operation without its client *)

Lemma _client_fails E w service_name e :
  _client_cache w !! service_name = None ->
  session_create_client E (trace w) service_name = Raise e ->
  _client service_name E w
  = (Raise e, log [CreateClient service_name (Raise e)] w).
Proof. intros Hc Hs. by rewrite (_client_fresh _ _ _ Hc), Hs. Qed.

(** X6. When the cache has no client for the service of an operation and
    the session fails to build one, the operation raises the exception of
    the session; the failed construction is the only event, so no request
    is made, the file system is as before and nothing is stored in the
    cache: the next operation asks the session again. *)
Theorem client_failure_stops_operation
    (op : Op) (E : Env) (w : World) (e : exn) :
  _client_cache w !! service_of op = None ->
  session_create_client E (trace w) (service_of op) = Raise e ->
  run_op op E w = (Raise e, log [CreateClient (service_of op) (Raise e)] w).
Proof.
  intros Hc Hs.
  destruct op as [| | | | | | | | | | | | | | | |fn region account api rid
                 | | | |fn region account api rid| |];
    cbn [run_op service_of] in *; unfold returning;
    unfold lambda_function_exists, get_function_configuration,
      create_function, create_function_fuel,
      delete_function, update_function, get_role_arn_for_name,
      delete_role_policy, put_role_policy, create_role, delete_role,
      get_rest_api_id, rest_api_exists, import_rest_api,
      update_api_from_swagger, delete_rest_api, deploy_rest_api,
      add_permission_for_apigateway_if_needed, get_function_policy,
      download_sdk, download_sdk_extract, get_sdk_download_stream,
      add_permission_for_apigateway, region_name, iter_log_events;
    unfold bind; by rewrite (_client_fails _ _ _ e Hc Hs).
Qed.

Lemma client_failure_stops_operation_witness :
  run_op (DeleteRole "deployer") (no_session_env access_denied) (init sample_root)
  = (Raise access_denied,
     log [CreateClient "iam" (Raise access_denied)] (init sample_root)).
Proof.
  apply (client_failure_stops_operation (DeleteRole "deployer")); reflexivity.
Defined.

(** ** What only one operation does *)

Section frame.
Variable P : World -> World -> Prop.
Hypothesis P_refl : forall w, P w w.
Hypothesis P_trans : forall w1 w2 w3, P w1 w2 -> P w2 w3 -> P w1 w3.
Hypothesis P_call : forall w client method kwargs out,
  P w (log [Call client method kwargs out] w).
Hypothesis P_client : forall E w service_name,
  P w (snd (_client service_name E w)).

Ltac frame_ops :=
  repeat first
    [ apply (steps__update_function_tags P P_refl P_trans P_call P_client)
    | apply (steps_put_role_policy P P_refl P_trans P_call P_client)
    | apply (steps_get_function_policy P P_refl P_trans P_call P_client)
    | apply (steps_add_permission_for_apigateway P P_refl P_trans P_call P_client)
    | apply (steps_get_sdk_download_stream P P_refl P_trans P_call P_client)
    | match goal with
      | H : forall w root, P w (set_fs root w) |- _ =>
          apply (steps_download_sdk P P_refl P_trans P_call P_client H)
      end
    | apply (steps_ret P P_refl) | apply (steps_lift P P_refl)
    | apply (steps_raise P P_refl)
    | apply (steps__client P P_client) | apply (steps_call P P_call)
    | match goal with
      | H : forall w seconds, P w (log [Sleep seconds] w) |- _ =>
          apply (steps__sleep P H)
      end
    | apply (steps_iter_pages P P_refl P_trans P_call)
    | apply steps_try_except
    | apply (steps_bind P P_trans); [|intros ?]
    | apply (steps_for_each P P_refl P_trans); intros ?
    | apply (steps_while_true P P_refl P_trans); intros ?
    | by apply (steps_pure P P_refl)
    | match goal with
      | |- steps P (match ?x with _ => _ end) => destruct x
      end ].

(** An operation keeps to [P] when the primitive effects it can reach do:
    sleeping is asked of [create_function] only, writing to the file system
    of [download_sdk] only. *)
Lemma frame_run_op op :
  (may_sleep op = true -> forall w seconds, P w (log [Sleep seconds] w)) ->
  (uses_file_system op = true -> forall w root, P w (set_fs root w)) ->
  steps P (run_op op).
Proof.
  intros Hsleep Hfs.
  destruct op as [| | | | | | | | | | | | | | | |fn region account api rid
                 | | | |fn region account api rid| |];
    cbn [run_op may_sleep uses_file_system] in *;
    try specialize (Hsleep eq_refl); try specialize (Hfs eq_refl);
    unfold returning;
    unfold lambda_function_exists, get_function_configuration,
      create_function, create_function_fuel, create_function_attempt,
      delete_function, update_function, get_role_arn_for_name,
      delete_role_policy, create_role, delete_role, get_rest_api_id,
      rest_api_exists, import_rest_api, update_api_from_swagger,
      delete_rest_api, deploy_rest_api,
      add_permission_for_apigateway_if_needed, region_name, iter_log_events;
    frame_ops.
Qed.
End frame.

(** X7. No operation but [download_sdk] changes the file system, whatever
    the session and the services answer. *)
Theorem only_download_sdk_writes_files (op : Op) (E : Env) (w : World) :
  uses_file_system op = false ->
  fs (snd (run_op op E w)) = fs w.
Proof.
  intros Hop.
  apply (frame_run_op (fun w w' => fs w' = fs w)); try done.
  - intros w1 w2 w3 H12 H23. by rewrite H23.
  - intros E' w' service_name. apply _client_fs.
  - by rewrite Hop.
Qed.

Lemma only_download_sdk_writes_files_witness :
  fs (snd (run_op (DeleteRole "deployer") role_env (init sample_root)))
  = sample_root.
Proof.
  apply (only_download_sdk_writes_files (DeleteRole "deployer")). reflexivity.
Defined.

(** X8. No operation but [create_function] ever sleeps, whatever the
    session and the services answer. *)
Theorem only_create_function_sleeps (op : Op) (E : Env) (w : World) :
  may_sleep op = false ->
  sleeps (new_events (run_op op) E w) = [].
Proof.
  intros Hop.
  assert (exists evs, trace (snd (run_op op E w)) = (trace w ++ evs)%list
                      /\ sleeps evs = []) as (evs & Htr & Hsl).
  { apply (frame_run_op
             (fun w w' => exists evs, trace w' = (trace w ++ evs)%list
                                      /\ sleeps evs = [])).
    - intros w1. exists []. by rewrite app_nil_r.
    - intros w1 w2 w3 (evs1 & -> & H1) (evs2 & -> & H2).
      exists (evs1 ++ evs2)%list. rewrite app_assoc, sleeps_app, H1, H2. done.
    - intros w1 client method kwargs out. by eexists [_].
    - intros E' w' service_name.
      destruct (_client_events E' w' service_name) as (evs & Htr & _ & Hsl).
      by exists evs.
    - by rewrite Hop.
    - intros _ w1 root. exists []. by rewrite app_nil_r. }
  unfold new_events. by rewrite Htr, drop_app_length.
Qed.

Lemma only_create_function_sleeps_witness :
  sleeps (new_events
            (run_op (UpdateFunction "app" "b" None None (Some scenario_tags)
                       None None)) (failing_env role_not_ready) lambda_world)
  = [].
Proof.
  apply (only_create_function_sleeps
           (UpdateFunction "app" "b" None None (Some scenario_tags) None None)).
  reflexivity.
Defined.

(** ** The order of the tag requests *)

(** X9. For a function whose listing answers the tags [remote_tags],
    [_update_function_tags] asks for the listing, then for the removal if
    a key is to be removed, then for the upsert if an entry is to be
    written, in this order and nothing else: what it requests is an
    initial part of that, and all of it when it returns.  When the remote
    tags are the requested ones it returns after the listing alone; when
    the removal fails, its exception is raised and no upsert is
    requested. *)
Theorem update_function_tags_in_order
    (E : Env) (w : World) (client : Client) (function_arn : pyval)
    (requested_tags remote_tags : gmap string string) (response tags : pyval) :
  let listing := Call client "list_tags" [("Resource", function_arn)]
                   (Ok response) in
  let untag :=
    [("Resource", function_arn);
     ("TagKeys", PList (map PStr (tag_keys_to_remove requested_tags remote_tags)))] in
  let expected :=
    update_function_tags_requests function_arn requested_tags remote_tags in
  _client_cache w !! "lambda" = Some client ->
  remote E (trace w) client "list_tags" [("Resource", function_arn)]
  = Ok response ->
  py_getitem response "Tags" = Ok tags ->
  strmap_of_py tags = Ok remote_tags ->
  exists r evs,
    _update_function_tags function_arn requested_tags E w = (r, log evs w)
    /\ requests evs `prefix_of` expected
    /\ (r = Ok tt -> requests evs = expected)
    /\ (requested_tags = remote_tags -> r = Ok tt /\ evs = [listing])
    /\ (forall e,
          tag_keys_to_remove requested_tags remote_tags <> [] ->
          remote E (trace w ++ [listing]) client "untag_resource" untag = Raise e ->
          r = Raise e
          /\ evs = [listing; Call client "untag_resource" untag (Raise e)]).
Proof.
  intros listing untag expected Hc Hlist Htags Hmap.
  set (w1 := log [listing] w).
  assert (_client_cache w1 !! "lambda" = Some client) as Hc1 by done.
  assert (_update_function_tags function_arn requested_tags E w
          = (_remove_unrequested_remote_tags function_arn requested_tags
               remote_tags ;;
             _add_missing_or_differing_value_requested_tags function_arn
               requested_tags remote_tags) E w1) as ->.
  { unfold _update_function_tags. unfold bind at 1.
    rewrite (_client_cached _ _ _ _ Hc).
    unfold bind at 1. unfold call at 1. rewrite Hlist.
    unfold bind at 1. unfold lift at 1. rewrite Htags.
    unfold bind at 1. unfold lift at 1. by rewrite Hmap. }
  unfold expected, update_function_tags_requests. fold untag.
  unfold bind.
  destruct (tag_keys_to_remove requested_tags remote_tags) as [|k ks] eqn:Hrm.
  - (* nothing to remove *)
    assert (_remove_unrequested_remote_tags function_arn requested_tags
              remote_tags E w1 = (Ok tt, w1)) as ->.
    { unfold _remove_unrequested_remote_tags. by rewrite Hrm. }
    cbn [nonempty app].
    destruct (decide (tags_to_add requested_tags remote_tags = ∅)) as [He|Hne].
    + assert (_add_missing_or_differing_value_requested_tags function_arn
                requested_tags remote_tags E w1 = (Ok tt, w1)) as ->.
      { unfold _add_missing_or_differing_value_requested_tags.
        rewrite He. by rewrite bool_decide_eq_false_2 by auto. }
      rewrite He, bool_decide_eq_false_2 by auto.
      exists (Ok tt), [listing]. by repeat split.
    + rewrite (_add_missing_or_differing_value_requested_tags_cached
                 _ _ _ _ _ _ Hc1 Hne).
      rewrite bool_decide_eq_true_2 by done.
      eexists _, [listing; _]. unfold w1. rewrite log_log. split; [done|].
      split; [done|]. split; [done|]. split; [|done].
      intros ->. by rewrite tags_to_add_same in Hne.
  - (* a removal *)
    rewrite (_remove_unrequested_remote_tags_cached E w1 function_arn
               requested_tags remote_tags client Hc1) by by rewrite Hrm.
    rewrite Hrm. fold untag. cbn [nonempty].
    assert (requested_tags <> remote_tags) as Hdiff.
    { intros ->. by rewrite tag_keys_to_remove_same in Hrm. }
    change (trace w1) with (trace w ++ [listing])%list.
    destruct (remote E (trace w ++ [listing]) client "untag_resource" untag)
      as [v|e|] eqn:Huntag; cbn [rbind].
    + set (w2 := log [Call client "untag_resource" untag (Ok v)] w1).
      assert (_client_cache w2 !! "lambda" = Some client) as Hc2 by done.
      destruct (decide (tags_to_add requested_tags remote_tags = ∅)) as [He|Hne].
      * assert (_add_missing_or_differing_value_requested_tags function_arn
                  requested_tags remote_tags E w2 = (Ok tt, w2)) as ->.
        { unfold _add_missing_or_differing_value_requested_tags.
          rewrite He. by rewrite bool_decide_eq_false_2 by auto. }
        rewrite He, bool_decide_eq_false_2 by auto.
        exists (Ok tt), [listing; Call client "untag_resource" untag (Ok v)].
        unfold w2, w1. rewrite log_log. by repeat split.
      * rewrite (_add_missing_or_differing_value_requested_tags_cached
                   _ _ _ _ _ _ Hc2 Hne).
        rewrite bool_decide_eq_true_2 by done.
        eexists _, [listing; Call client "untag_resource" untag (Ok v); _].
        unfold w2, w1. rewrite !log_log. by repeat split.
    + exists (Raise e), [listing; Call client "untag_resource" untag (Raise e)].
      unfold w1. rewrite log_log. split; [done|].
      split; [|split; [done|split; [done|]]].
      * cbn [requests app]. apply prefix_cons, prefix_cons, prefix_nil.
      * intros e' _ [= <-]. done.
    + exists Diverge, [listing; Call client "untag_resource" untag Diverge].
      unfold w1. rewrite log_log. split; [done|].
      split; [|by repeat split].
      cbn [requests app]. apply prefix_cons, prefix_cons, prefix_nil.
Qed.

Lemma update_function_tags_in_order_witness :
  (exists r evs,
     _update_function_tags sample_arn scenario_tags scenario_env lambda_world
     = (r, log evs lambda_world)
     /\ (r = Ok tt ->
         requests evs
         = update_function_tags_requests sample_arn scenario_tags
             scenario_remote_tags))
  /\ fst (_update_function_tags sample_arn scenario_tags untag_denied_env
            lambda_world) = Raise access_denied.
Proof.
  split.
  - destruct (update_function_tags_in_order scenario_env lambda_world
                lambda_client sample_arn scenario_tags scenario_remote_tags
                (PDict [("Tags", PDict [("a", PStr "0"); ("b", PStr "2")])])
                (PDict [("a", PStr "0"); ("b", PStr "2")]))
      as (r & evs & Hrun & _ & Hall & _);
      [vm_compute; reflexivity | reflexivity | reflexivity
      | vm_compute; reflexivity |].
    by exists r, evs.
  - destruct (update_function_tags_in_order untag_denied_env lambda_world
                lambda_client sample_arn scenario_tags scenario_remote_tags
                (PDict [("Tags", PDict [("a", PStr "0"); ("b", PStr "2")])])
                (PDict [("a", PStr "0"); ("b", PStr "2")]))
      as (r & evs & Hrun & _ & _ & _ & Hfail);
      [vm_compute; reflexivity | reflexivity | reflexivity
      | vm_compute; reflexivity |].
    rewrite Hrun. cbn [fst].
    apply (Hfail access_denied); [vm_compute; discriminate | reflexivity].
Defined.

(** ** What [update_function] returns, and where it stops *)

Lemma bind_Ok_inv {A B} (m : M A) (k : A -> M B) E w r :
  fst (bind m k E w) = Ok r ->
  exists a w', m E w = (Ok a, w') /\ fst (k a E w') = Ok r.
Proof.
  unfold bind. destruct (m E w) as [[a|e|] w']; try done.
  intros H. by exists a, w'.
Qed.

(** X10. With the lambda client at hand: what [update_function] returns is
    the response of the code update, whatever the later requests answered;
    when the code update raises, the exception is raised and nothing else
    is requested; when the configuration update raises, the exception is
    raised after these two requests, so the tags are not touched even
    when [tags] is given; and when [tags] is given but the response of the
    code update has no [FunctionArn], a [KeyError] is raised before any tag
    request. *)
Theorem update_function_result
    (E : Env) (w w0 : World) (client : Client)
    (function_name zip_contents : string)
    (environment_variables : option (gmap string string))
    (runtime : option string) (tags : option (gmap string string))
    (timeout memory_size : option Z) :
  let code_kwargs := [("FunctionName", PStr function_name);
                      ("ZipFile", PStr zip_contents)] in
  let config := update_function_kwargs environment_variables runtime
                  timeout memory_size in
  let config_kwargs := dict_set "FunctionName" (PStr function_name) config in
  let code_out := remote E (trace w0) client "update_function_code" code_kwargs in
  let code := Call client "update_function_code" code_kwargs code_out in
  let run := update_function function_name zip_contents environment_variables
               runtime tags timeout memory_size E w in
  _client "lambda" E w = (Ok client, w0) ->
  (forall return_value, fst run = Ok return_value -> code_out = Ok return_value)
  /\ (forall e, code_out = Raise e -> run = (Raise e, log [code] w0))
  /\ (forall return_value e,
        code_out = Ok return_value ->
        config <> [] ->
        remote E (trace w0 ++ [code]) client "update_function_configuration"
          config_kwargs = Raise e ->
        run = (Raise e,
               log [code; Call client "update_function_configuration"
                            config_kwargs (Raise e)] w0))
  /\ (forall return_value requested,
        code_out = Ok return_value ->
        config = [] ->
        tags = Some requested ->
        py_getitem return_value "FunctionArn" = Raise (KeyError "FunctionArn") ->
        run = (Raise (KeyError "FunctionArn"), log [code] w0)).
Proof.
  intros code_kwargs config config_kwargs code_out code run Hclient.
  assert (run
          = match code_out with
            | Ok return_value =>
                ((if nonempty config then
                    call client "update_function_configuration" config_kwargs ;;
                    ret tt
                  else ret tt) ;;
                 match tags with
                 | Some tags =>
                     function_arn <- lift (py_getitem return_value "FunctionArn") ;;
                     _update_function_tags function_arn tags
                 | None => ret tt
                 end ;;
                 ret return_value) E (log [code] w0)
            | Raise e => (Raise e, log [code] w0)
            | Diverge => (Diverge, log [code] w0)
            end) as Hrun.
  { unfold run, update_function. unfold bind at 1. rewrite Hclient.
    unfold bind at 1. unfold call at 1. fold code_kwargs code_out code.
    by destruct code_out. }
  clearbody run. subst run code code_out.
  split; [|split; [|split]].
  - intros return_value.
    destruct (remote E (trace w0) client "update_function_code" code_kwargs)
      as [rv|e|]; try done.
    intros H. apply bind_Ok_inv in H as (_ & w1 & _ & H).
    apply bind_Ok_inv in H as (_ & w2 & _ & H). by injection H as ->.
  - intros e He. by rewrite He.
  - intros return_value e He Hconfig Hfail. rewrite He in *.
    destruct config as [|c cs] eqn:Hcs; [done|]. cbn [nonempty].
    unfold bind at 1. unfold bind at 1. unfold call at 1.
    rewrite trace_log, Hfail. by rewrite log_log.
  - intros return_value requested He Hconfig -> Harn. rewrite He, Hconfig.
    cbn [nonempty]. unfold bind at 1. unfold ret at 1.
    unfold bind at 1. unfold bind at 1. unfold lift at 1. by rewrite Harn.
Qed.

Lemma update_function_result_witness :
  (forall return_value,
     fst (update_function "app" "b" (Some {["X" := "1"]}) None
            (Some scenario_tags) None None scenario_env (init sample_root))
     = Ok return_value ->
     return_value = PDict [("FunctionArn", sample_arn)])
  /\ update_function "app" "b" None None (Some scenario_tags) None None
       quiet_env (init sample_root)
     = (Raise (KeyError "FunctionArn"),
        log [Call lambda_client "update_function_code"
               [("FunctionName", PStr "app"); ("ZipFile", PStr "b")]
               (Ok (PDict []))] lambda_world).
Proof.
  split.
  - intros return_value Hrun.
    destruct (update_function_result scenario_env (init sample_root)
                lambda_world lambda_client "app" "b" (Some {["X" := "1"]})
                None (Some scenario_tags) None None) as (H & _);
      [vm_compute; reflexivity|].
    specialize (H return_value Hrun). by injection H as <-.
  - destruct (update_function_result quiet_env (init sample_root)
                lambda_world lambda_client "app" "b" None None
                (Some scenario_tags) None None) as (_ & _ & _ & H);
      [vm_compute; reflexivity|].
    apply (H (PDict []) scenario_tags); reflexivity.
Defined.

(** ** Where [delete_role] stops *)

Lemma for_each_delete_role_policy_stops E client name before policy_name after e :
  (forall h p, p ∈ before ->
     exists v, remote E h client "delete_role_policy"
                 [("RoleName", PStr name); ("PolicyName", p)] = Ok v) ->
  (forall h, remote E h client "delete_role_policy"
               [("RoleName", PStr name); ("PolicyName", policy_name)] = Raise e) ->
  forall w,
    _client_cache w !! "iam" = Some client ->
    exists evs,
      for_each (before ++ policy_name :: after)
        (fun policy_name => delete_role_policy name policy_name) E w
      = (Raise e, log evs w)
      /\ requests evs
         = map (fun policy_name =>
                  ("delete_role_policy",
                   [("RoleName", PStr name); ("PolicyName", policy_name)]))
             (before ++ [policy_name]).
Proof.
  intros Hbefore Hfail.
  induction before as [|p before IH]; intros w Hc; cbn [app for_each];
    unfold bind at 1; rewrite (delete_role_policy_cached _ _ _ _ _ Hc).
  - rewrite Hfail. cbn [rbind]. by eexists [_].
  - destruct (Hbefore (trace w) p ltac:(left)) as [v ->]. cbn [rbind].
    destruct (IH (fun h q Hq => Hbefore h q ltac:(by right))
                (log [Call client "delete_role_policy"
                        [("RoleName", PStr name); ("PolicyName", p)] (Ok v)] w)
                Hc) as (evs & -> & Hreq).
    eexists (_ :: evs). rewrite log_log. split; [done|].
    cbn [requests map]. by rewrite Hreq.
Qed.

(** X11. With the IAM client at hand, [delete_role] stops at the first
    request that fails: when the listing raises, or its response has no
    [PolicyNames], nothing else is requested; when the deletion of an
    inline policy raises after those before it succeeded, the exception
    is raised, the policies after it are left alone and the role itself
    is not deleted. *)
Theorem delete_role_stops_at_failure
    (E : Env) (w w0 : World) (client : Client) (name : string) :
  let listing_out :=
    remote E (trace w0) client "list_role_policies" [("RoleName", PStr name)] in
  let listing :=
    Call client "list_role_policies" [("RoleName", PStr name)] listing_out in
  let deletion policy_name :=
    ("delete_role_policy",
     [("RoleName", PStr name); ("PolicyName", policy_name)]) in
  _client "iam" E w = (Ok client, w0) ->
  (forall e, listing_out = Raise e ->
     delete_role name E w = (Raise e, log [listing] w0))
  /\ (forall response,
        listing_out = Ok response ->
        py_getitem response "PolicyNames" = Raise (KeyError "PolicyNames") ->
        delete_role name E w = (Raise (KeyError "PolicyNames"), log [listing] w0))
  /\ (forall response names before policy_name after e,
        listing_out = Ok response ->
        py_getitem response "PolicyNames" = Ok names ->
        py_iter names = Ok (before ++ policy_name :: after)%list ->
        (forall h p, p ∈ before ->
           exists v, remote E h client "delete_role_policy"
                       [("RoleName", PStr name); ("PolicyName", p)] = Ok v) ->
        (forall h, remote E h client "delete_role_policy"
                     [("RoleName", PStr name); ("PolicyName", policy_name)]
                   = Raise e) ->
        exists evs,
          delete_role name E w = (Raise e, log evs w0)
          /\ requests evs
             = (("list_role_policies", [("RoleName", PStr name)])
                :: map deletion (before ++ [policy_name]))%list).
Proof.
  cbv zeta. intros Hclient.
  pose proof (_client_Ok _ _ _ _ _ Hclient) as Hc.
  split; [|split].
  - intros e He. unfold delete_role. unfold bind at 1. rewrite Hclient.
    unfold bind at 1. unfold call at 1. by rewrite He.
  - intros response He Hnames. unfold delete_role. unfold bind at 1.
    rewrite Hclient. unfold bind at 1. unfold call at 1. rewrite He.
    unfold bind at 1. unfold lift at 1. by rewrite Hnames.
  - intros response names before policy_name after e He Hnames Hiter
      Hbefore Hfail.
    unfold delete_role. unfold bind at 1. rewrite Hclient.
    unfold bind at 1. unfold call at 1. rewrite He.
    unfold bind at 1. unfold lift at 1. rewrite Hnames.
    unfold bind at 1. unfold lift at 1. rewrite Hiter.
    unfold bind at 1.
    destruct (for_each_delete_role_policy_stops E client name before
                policy_name after e Hbefore Hfail
                (log [Call client "list_role_policies"
                        [("RoleName", PStr name)] (Ok response)] w0) Hc)
      as (evs & -> & Hreq).
    eexists (_ :: evs). rewrite log_log. split; [done|].
    cbn [requests]. by rewrite Hreq.
Qed.

Lemma delete_role_stops_at_failure_witness :
  exists evs,
    delete_role "deployer" policy_locked_env (init sample_root)
    = (Raise access_denied, log evs iam_world)
    /\ requests evs
       = [("list_role_policies", [("RoleName", PStr "deployer")]);
          ("delete_role_policy",
           [("RoleName", PStr "deployer"); ("PolicyName", PStr "P1")]);
          ("delete_role_policy",
           [("RoleName", PStr "deployer"); ("PolicyName", PStr "P2")])].
Proof.
  destruct (delete_role_stops_at_failure policy_locked_env (init sample_root)
              iam_world iam_client "deployer") as (_ & _ & H);
    [vm_compute; reflexivity|].
  apply (H (PDict [("PolicyNames", PList [PStr "P1"; PStr "P2"; PStr "P3"])])
           (PList [PStr "P1"; PStr "P2"; PStr "P3"])
           [PStr "P1"] (PStr "P2") [PStr "P3"] access_denied);
    try reflexivity.
  intros h p Hp. apply list_elem_of_singleton in Hp as ->. by eexists.
Defined.

(** ** One grant, one source ARN *)

Lemma string_length_app s t :
  String.length (s +:+ t) = String.length s + String.length t.
Proof. induction s as [|a s IH]; simpl; [done | by rewrite IH]. Qed.

Lemma string_app_inj_r u : forall s t, s +:+ u = t +:+ u -> s = t.
Proof.
  induction s as [|a s IH]; intros [|b t] H; simpl in H; try done.
  - apply (f_equal String.length) in H. simpl in H.
    rewrite ?string_length_app in H. simpl in H. lia.
  - apply (f_equal String.length) in H. simpl in H.
    rewrite ?string_length_app in H. simpl in H. lia.
  - injection H as -> H. f_equal. by apply IH.
Qed.

(** In [_gives_apigateway_access], a positive answer fixes the source ARN. *)
Lemma _gives_apigateway_access_arn statement function_name source_arn :
  _gives_apigateway_access statement function_name source_arn = Ok true ->
  get_chain ["Condition"; "ArnLike"; "AWS:SourceArn"] (PStr "") statement
  = Ok (PStr source_arn).
Proof.
  rewrite _gives_apigateway_access_unfold.
  destruct (py_getitem statement "Action") as [action| |]; cbn [rbind]; try done.
  destruct (py_eq_str action "lambda:InvokeFunction"); cbn [negb]; try done.
  destruct (get_chain ["Condition"; "ArnLike"; "AWS:SourceArn"] (PStr "")
              statement) as [arn| |]; cbn [rbind]; try done.
  destruct (py_eq_str arn source_arn) eqn:Harn; cbn [negb]; try done.
  apply py_eq_str_true in Harn as ->. done.
Qed.

(** X12. A statement answers [True] to [_gives_apigateway_access] for at
    most one source ARN, whatever the function name; the ARN that
    [_build_source_arn_str] builds determines the REST API id once region
    and account are fixed; so a statement that grants access to one API
    is answered [False] for every other API of the same region and
    account. *)
Theorem grant_for_one_api
    (statement : pyval) (function_name region account api : string) :
  _gives_apigateway_access statement function_name
    (_build_source_arn_str region account api) = Ok true ->
  (forall other_name source_arn,
     _gives_apigateway_access statement other_name source_arn = Ok true ->
     source_arn = _build_source_arn_str region account api)
  /\ (forall other_api,
        _build_source_arn_str region account other_api
        = _build_source_arn_str region account api ->
        other_api = api)
  /\ (forall other_name other_api,
        other_api <> api ->
        _gives_apigateway_access statement other_name
          (_build_source_arn_str region account other_api) = Ok false).
Proof.
  intros Hgrant.
  assert (forall other_api,
            _build_source_arn_str region account other_api
            = _build_source_arn_str region account api ->
            other_api = api) as Hinj.
  { intros other_api H. unfold _build_source_arn_str in H.
    repeat apply String.app_inj in H. by apply string_app_inj_r in H. }
  pose proof (_gives_apigateway_access_arn _ _ _ Hgrant) as Harn.
  split; [|split; [done|]].
  - intros other_name source_arn Hother.
    apply _gives_apigateway_access_arn in Hother. congruence.
  - intros other_name other_api Hne.
    rewrite _gives_apigateway_access_unfold in Hgrant |- *.
    destruct (py_getitem statement "Action") as [action| |]; cbn [rbind] in *;
      try done.
    destruct (py_eq_str action "lambda:InvokeFunction"); cbn [negb] in *;
      try done.
    rewrite Harn. cbn [rbind py_eq_str].
    destruct (String.eqb_spec (_build_source_arn_str region account api)
                (_build_source_arn_str region account other_api)) as [Heq|_];
      [|done].
    symmetry in Heq. by apply Hinj in Heq.
Qed.

Lemma grant_for_one_api_witness :
  _gives_apigateway_access
    (sample_statement (_build_source_arn_str "us-west-2" "123" "abc")) "app"
    (_build_source_arn_str "us-west-2" "123" "xyz") = Ok false.
Proof.
  destruct (grant_for_one_api
              (sample_statement (_build_source_arn_str "us-west-2" "123" "abc"))
              "app" "us-west-2" "123" "abc") as (_ & _ & H);
    [vm_compute; reflexivity|].
  apply H. discriminate.
Defined.

(** ** The scan stops at the first grant *)

Lemma scan_statements_app before rest function_name source_arn :
  Forall (fun statement =>
            _gives_apigateway_access statement function_name source_arn
            = Ok false) before ->
  scan_statements (before ++ rest) function_name source_arn
  = scan_statements rest function_name source_arn.
Proof.
  induction 1 as [|st before Hst _ IH]; [done|].
  cbn [app scan_statements]. by rewrite Hst.
Qed.

Lemma scan_statements_true statements function_name source_arn :
  scan_statements statements function_name source_arn = Ok true ->
  exists before grant after,
    statements = (before ++ grant :: after)%list
    /\ Forall (fun statement =>
                 _gives_apigateway_access statement function_name source_arn
                 = Ok false) before
    /\ _gives_apigateway_access grant function_name source_arn = Ok true.
Proof.
  induction statements as [|st statements IH]; [done|].
  cbn [scan_statements].
  destruct (_gives_apigateway_access st function_name source_arn)
    as [[|]| |] eqn:Hst; cbn [rbind]; try done.
  - intros _. by exists [], st, statements.
  - intros H. destruct (IH H) as (before & grant & after & -> & Hb & Hg).
    exists (st :: before), grant, after. split; [done|]. split; [|done].
    by constructor.
Qed.

(** X13. The loop over the statements of a policy stops at the first
    statement that grants access: the statements after it are not looked
    at, whatever they are, and the loop answers [True] exactly when there
    is such a first grant; a statement that raises before any grant ends
    the loop with its exception.  So, with the lambda client at hand and
    the policy fetched, [add_permission_for_apigateway_if_needed] returns
    without a request in the first case, and raises without a request in
    the second. *)
Theorem scan_stops_at_first_grant
    (E : Env) (w w0 w1 : World) (client : Client)
    (function_name region account api random_id : string)
    (policy document : pyval) (before after : list pyval) (statement : pyval) :
  let source_arn := _build_source_arn_str region account api in
  let run := add_permission_for_apigateway_if_needed
               function_name region account api random_id E w in
  Forall (fun statement =>
            _gives_apigateway_access statement function_name source_arn
            = Ok false) before ->
  (forall statements,
     scan_statements statements function_name source_arn = Ok true
     <-> exists before grant after,
           statements = (before ++ grant :: after)%list
           /\ Forall (fun statement =>
                        _gives_apigateway_access statement function_name
                          source_arn = Ok false) before
           /\ _gives_apigateway_access grant function_name source_arn = Ok true)
  /\ (_client "lambda" E w = (Ok client, w0) ->
      get_function_policy function_name E w0 = (Ok policy, w1) ->
      py_get policy "Statement" (PList []) = Ok document ->
      py_iter document = Ok (before ++ statement :: after)%list ->
      (_gives_apigateway_access statement function_name source_arn = Ok true ->
       run = (Ok tt, w1))
      /\ (forall e,
            _gives_apigateway_access statement function_name source_arn
            = Raise e ->
            run = (Raise e, w1))).
Proof.
  intros source_arn run Hbefore. split.
  - intros statements. split; [apply scan_statements_true|].
    intros (b & grant & a & -> & Hb & Hg).
    rewrite (scan_statements_app _ _ _ _ Hb). cbn [scan_statements].
    by rewrite Hg.
  - intros Hclient Hpolicy Hdoc Hiter.
    assert (run = (has <- lift (scan_statements (before ++ statement :: after)
                                  function_name source_arn) ;;
                   if negb has
                   then add_permission_for_apigateway function_name region
                          account api random_id
                   else ret tt) E w1) as ->.
    { unfold run, add_permission_for_apigateway_if_needed.
      unfold bind at 1. rewrite Hclient. unfold bind at 1 3, try_except.
      rewrite Hpolicy. unfold bind at 1. unfold bind at 1. unfold lift at 1.
      rewrite Hdoc. unfold bind at 1. unfold lift at 1. by rewrite Hiter. }
    rewrite (scan_statements_app _ _ _ _ Hbefore). cbn [scan_statements].
    unfold bind, lift. split.
    + intros ->. done.
    + intros e ->. done.
Qed.

Lemma scan_stops_at_first_grant_witness :
  add_permission_for_apigateway_if_needed "app" "us-west-2" "123" "abc" "id"
    (policy_env (Some (grant_then_junk_policy
                         (_build_source_arn_str "us-west-2" "123" "abc"))))
    lambda_world
  = (Ok tt,
     snd (get_function_policy "app"
            (policy_env (Some (grant_then_junk_policy
                                 (_build_source_arn_str "us-west-2" "123" "abc"))))
            lambda_world)).
Proof.
  destruct (scan_stops_at_first_grant
              (policy_env (Some (grant_then_junk_policy
                                   (_build_source_arn_str "us-west-2" "123" "abc"))))
              lambda_world lambda_world
              (snd (get_function_policy "app"
                      (policy_env (Some (grant_then_junk_policy
                                           (_build_source_arn_str "us-west-2"
                                              "123" "abc"))))
                      lambda_world))
              lambda_client "app" "us-west-2" "123" "abc" "id"
              (grant_then_junk_policy (_build_source_arn_str "us-west-2" "123" "abc"))
              (PList [sample_statement (_build_source_arn_str "us-west-2" "123" "abc");
                      PInt 0])
              [] [PInt 0]
              (sample_statement (_build_source_arn_str "us-west-2" "123" "abc")))
    as (_ & H); [constructor|].
  destruct H as (H & _);
    [vm_compute; reflexivity | vm_compute; reflexivity
    | reflexivity | reflexivity |].
  apply H. vm_compute. reflexivity.
Defined.

(** ** Log events *)








(** ** What [download_sdk] leaves alone *)

Lemma fs_put_p_frame p : forall new root root' q,
  fs_put_p p new root = Some root' -> disjoint_paths p q ->
  fs_lookup q root' = fs_lookup q root.
Proof.
  induction p as [|name p IH]; intros new root root' q Hput Hdis.
  - destruct Hdis as [H _]. exfalso. apply H, prefix_nil.
  - destruct root as [|es]; [done|]. cbn [fs_put_p] in Hput.
    destruct q as [|qn q].
    { destruct Hdis as [_ H]. exfalso. apply H, prefix_nil. }
    destruct (fs_put_p p new
                match entry_get name es with
                | Some child => child
                | None => Dir []
                end) as [child'|] eqn:Hrec; [|done].
    injection Hput as <-. cbn [fs_lookup].
    destruct (String.eqb_spec qn name) as [->|Hne].
    + rewrite entry_get_set_eq.
      rewrite (IH _ _ _ q Hrec) by by eapply disjoint_paths_cons.
      destruct (entry_get name es) as [child|]; [done|].
      destruct q as [|k q]; [|done].
      destruct Hdis as [_ H]. exfalso. apply H. apply prefix_cons, prefix_nil.
    + by rewrite entry_get_set_ne.
Qed.

Lemma os_rename_frame src dst root root' q :
  os_rename src dst root = Ok root' ->
  disjoint_paths src q -> disjoint_paths dst q ->
  fs_lookup q root' = fs_lookup q root.
Proof.
  unfold os_rename. intros H Hsrc Hdst.
  destruct (fs_lookup src root) as [n|]; [|done].
  destruct (bool_decide (src = dst)); [by injection H as <-|].
  destruct (bool_decide (src `prefix_of` dst)); [done|].
  destruct (negb _); [done|].
  destruct (fs_remove src root) as [root1|] eqn:Hrm; [|done].
  destruct (fs_put dst n root1) as [root2|] eqn:Hput; [|done].
  injection H as <-.
  rewrite (fs_put_frame _ _ _ _ q Hput Hdst).
  by rewrite (fs_remove_frame _ _ _ q Hrm Hsrc).
Qed.

Lemma shutil_move_frame src dst root root' q :
  shutil_move src dst root = Ok root' ->
  disjoint_paths src q -> disjoint_paths dst q ->
  fs_lookup q root' = fs_lookup q root.
Proof.
  unfold shutil_move. intros H Hsrc Hdst.
  destruct (os_path_isdir dst root && bool_decide (src = dst));
    [by injection H as <-|].
  set (real_dst := if os_path_isdir dst root
                   then (dst ++ [List.last src ""])%list else dst) in *.
  assert (disjoint_paths real_dst q) as Hreal.
  { unfold real_dst. destruct (os_path_isdir dst root); [|done].
    by apply disjoint_paths_child_l. }
  destruct (os_path_isdir dst root && os_path_exists real_dst root); [done|].
  destruct (os_rename src real_dst root) as [root1|e|] eqn:Hrename.
  - injection H as <-. by eapply os_rename_frame.
  - destruct e; try done.
    destruct (fs_lookup src root) as [[|es]|]; try done.
    destruct (bool_decide (src `prefix_of` real_dst)); [done|].
    destruct (os_path_exists real_dst root); [done|].
    destruct (fs_put_p real_dst (Dir es) root) as [root1|] eqn:Hput; [|done].
    destruct (fs_remove src root1) as [root2|] eqn:Hrm; [|done].
    injection H as <-.
    rewrite (fs_remove_frame _ _ _ q Hrm Hsrc).
    by rewrite (fs_put_p_frame _ _ _ _ q Hput Hreal).
  - done.
Qed.

Lemma same_at_refl q w : same_at q w w.
Proof. done. Qed.

Lemma same_at_bind {A B} q (m : M A) (k : A -> M B) E w :
  same_at q w (snd (m E w)) ->
  (forall a w1, m E w = (Ok a, w1) -> same_at q w1 (snd (k a E w1))) ->
  same_at q w (snd (bind m k E w)).
Proof.
  unfold bind, same_at. intros Hm Hk.
  destruct (m E w) as [[a|e|] w1]; cbn [snd] in *; try done.
  rewrite <- Hm. by apply Hk.
Qed.

Lemma same_at_with_fs q f E w :
  (forall root', f (fs w) = Ok root' ->
     fs_lookup q root' = fs_lookup q (fs w)) ->
  same_at q w (snd (with_fs f E w)).
Proof.
  unfold with_fs, same_at. intros Hf.
  destruct (f (fs w)) as [root'| |]; cbn [snd set_fs fs]; auto.
Qed.

Lemma same_at_pure {A} q (m : M A) E w :
  snd (m E w) = w -> same_at q w (snd (m E w)).
Proof. intros ->. done. Qed.

Lemma write_file_frame p data root root' q :
  write_file p data root = Ok root' -> disjoint_paths p q ->
  fs_lookup q root' = fs_lookup q root.
Proof.
  unfold write_file. intros H Hdis.
  destruct (fs_lookup p root) as [[|]|];
    destruct (fs_put p (File data) root) as [root1|] eqn:Hput; try done;
    injection H as <-; by eapply fs_put_frame.
Qed.

(** The second part of [download_sdk] touches nothing apart from the
    extract directory and the output directory, whatever it finds. *)
Lemma download_sdk_install_frame E w tmp_extract output_dir sdk_type q :
  disjoint_paths tmp_extract q -> disjoint_paths output_dir q ->
  same_at q w (snd (download_sdk_install tmp_extract output_dir sdk_type E w)).
Proof.
  intros Htmp Hout. unfold download_sdk_install.
  apply same_at_bind; [by apply same_at_pure|].
  intros dirnames w1 _.
  apply same_at_bind; [|intros [|] w2 _; by apply same_at_pure].
  destruct dirnames as [|dirname [|second dirnames]];
    try by apply same_at_pure.
  apply same_at_bind; [by apply same_at_pure|].
  intros [|] w2 _; [|by apply same_at_pure].
  apply same_at_bind.
  - apply same_at_with_fs. intros root' Hrename.
    apply (os_rename_frame _ _ _ _ q Hrename);
      by apply disjoint_paths_child_l.
  - intros _ w3 _. apply same_at_bind; [|intros _ w4 _; by apply same_at_pure].
    apply same_at_with_fs. intros root' Hmove.
    apply (shutil_move_frame _ _ _ _ q Hmove); [|done].
    by apply disjoint_paths_child_l.
Qed.

Lemma tempfile_mkdtemp_path E w tmpdir w' :
  tempfile_mkdtemp E w = (Ok tmpdir, w') -> mkdtemp_path E (fs w) = Ok tmpdir.
Proof.
  unfold tempfile_mkdtemp. unfold bind at 1.
  destruct (mkdtemp_path E (fs w)) as [p| |]; try done.
  unfold bind, ret. destruct (with_fs (os_mkdir p) E w) as [[[]| |] w1]; try done.
  by intros [= -> _].
Qed.

(** The first part of [download_sdk] touches nothing apart from the
    temporary directory, and what it returns is a path in it. *)
Lemma download_sdk_extract_frame E w rest_api_id stage sdk_type q :
  (forall tmpdir, mkdtemp_path E (fs w) = Ok tmpdir -> disjoint_paths tmpdir q) ->
  same_at q w (snd (download_sdk_extract rest_api_id stage sdk_type E w))
  /\ forall tmp_extract w',
       download_sdk_extract rest_api_id stage sdk_type E w = (Ok tmp_extract, w') ->
       disjoint_paths tmp_extract q.
Proof.
  intros Htmp.
  assert (forall zip_stream w0,
            get_sdk_download_stream rest_api_id stage sdk_type E w
            = (Ok zip_stream, w0) -> fs w0 = fs w) as Hfs0.
  { intros zip_stream w0 H.
    pose proof (get_sdk_download_stream_fs E w rest_api_id stage sdk_type) as Hfs.
    by rewrite H in Hfs. }
  unfold download_sdk_extract. split.
  - apply same_at_bind.
    { unfold same_at. by rewrite get_sdk_download_stream_fs. }
    intros zip_stream w0 Hstream. apply Hfs0 in Hstream.
    apply same_at_bind.
    { unfold tempfile_mkdtemp. apply same_at_bind; [apply same_at_refl|].
      intros tmpdir w1 [= Hpath <-].
      apply same_at_bind; [|intros _ w2 _; by apply same_at_pure].
      apply same_at_with_fs. unfold os_mkdir. intros root'.
      destruct (fs_lookup tmpdir (fs w0)); [done|].
      destruct (fs_put tmpdir (Dir []) (fs w0)) eqn:Hput; [|done].
      intros [= <-]. eapply fs_put_frame; [exact Hput|].
      apply Htmp. by rewrite <- Hstream. }
    intros tmpdir w1 Hmk. apply tempfile_mkdtemp_path in Hmk.
    rewrite Hstream in Hmk. specialize (Htmp tmpdir Hmk).
    assert (disjoint_paths (tmpdir ++ ["sdk.zip"]) q) as Hzip
      by by apply disjoint_paths_child_l.
    apply same_at_bind.
    { apply same_at_with_fs. intros root' H. by eapply write_file_frame. }
    intros _ w2 _. apply same_at_bind; [by apply same_at_pure|].
    intros data w3 _. apply same_at_bind.
    { apply same_at_with_fs. intros root' H. by eapply write_file_frame. }
    intros _ w4 _. apply same_at_bind; [|intros _ w5 _; by apply same_at_pure].
    unfold zipfile_extractall.
    apply same_at_bind; [by apply same_at_pure|].
    intros data' w5 _. apply same_at_bind; [by apply same_at_pure|].
    intros [es|] w6 _; [|by apply same_at_pure].
    apply same_at_with_fs. intros root'.
    destruct (fs_put (tmpdir ++ ["extracted"]) (Dir es) (fs w6)) eqn:Hput;
      [|done].
    intros [= <-]. eapply fs_put_frame; [exact Hput|].
    by apply disjoint_paths_child_l.
  - intros tmp_extract w' H.
    apply (f_equal fst) in H. cbn [fst] in H.
    apply bind_Ok_inv in H as (zip_stream & w0 & Hstream & H).
    apply Hfs0 in Hstream.
    apply bind_Ok_inv in H as (tmpdir & w1 & Hmk & H).
    apply tempfile_mkdtemp_path in Hmk. rewrite Hstream in Hmk.
    apply bind_Ok_inv in H as (u2 & w2 & _ & H).
    apply bind_Ok_inv in H as (data & w3 & _ & H).
    apply bind_Ok_inv in H as (u4 & w4 & _ & H).
    apply bind_Ok_inv in H as (u5 & w5 & _ & H).
    injection H as <-. apply disjoint_paths_child_l. by apply Htmp.
Qed.

(** X16. Whatever the service, the archive and the file system are,
    [download_sdk] changes nothing at a path that lies apart from the
    temporary directory it is given and apart from the output directory. *)
Theorem download_sdk_frame
    (E : Env) (w : World) (rest_api_id : string) (output_dir : path)
    (api_gateway_stage sdk_type : string) (q : path) :
  (forall tmpdir, mkdtemp_path E (fs w) = Ok tmpdir -> disjoint_paths tmpdir q) ->
  disjoint_paths output_dir q ->
  fs_lookup q (fs (snd (download_sdk rest_api_id output_dir api_gateway_stage
                          sdk_type E w)))
  = fs_lookup q (fs w).
Proof.
  intros Htmp Hout.
  destruct (download_sdk_extract_frame E w rest_api_id api_gateway_stage
              sdk_type q Htmp) as [Hsame Hpath].
  change (same_at q w (snd (download_sdk rest_api_id output_dir
                              api_gateway_stage sdk_type E w))).
  unfold download_sdk. apply same_at_bind; [done|].
  intros tmp_extract w1 Hextract.
  apply download_sdk_install_frame; [|done]. by eapply Hpath.
Qed.

Lemma download_sdk_frame_witness :
  fs_lookup ["out"; "README"]
    (fs (snd (download_sdk "abc" ["out"; "sdk"] "dev" "javascript"
                (sdk_env js_sdk) (init sample_root))))
  = Some (File "hello").
Proof.
  apply (download_sdk_frame (sdk_env js_sdk) (init sample_root) "abc"
           ["out"; "sdk"] "dev" "javascript" ["out"; "README"]).
  - intros tmpdir [= <-]. split; intros [k Hk]; discriminate Hk.
  - split; intros [k Hk]; discriminate Hk.
Defined.

(** ** What [download_sdk] leaves behind *)

(** The first part of [download_sdk] leaves the archive and its entries
    in the temporary directory. *)
Lemma download_sdk_extract_tmpdir
    E w w0 w1 rest_api_id stage sdk_type data tmpdir entries :
  get_sdk_download_stream rest_api_id stage sdk_type E w
  = (Ok (PStream data), w0) ->
  tempfile_mkdtemp E w0 = (Ok tmpdir, w1) ->
  zip_members E data = Ok (Some entries) ->
  exists w4,
    download_sdk_extract rest_api_id stage sdk_type E w
    = (Ok (tmpdir ++ ["extracted"])%list, w4)
    /\ fs_lookup tmpdir (fs w4)
       = Some (Dir [("sdk.zip", File data); ("extracted", Dir entries)]).
Proof.
  intros Hstream Hmk Hzip.
  unfold tempfile_mkdtemp, bind, with_fs, ret in Hmk.
  destruct (mkdtemp_path E (fs w0)) as [tmp| |] eqn:Hpath; try done.
  destruct (os_mkdir tmp (fs w0)) as [root1| |] eqn:Hmkdir; try done.
  injection Hmk as -> <-. unfold os_mkdir in Hmkdir.
  destruct (fs_lookup tmpdir (fs w0)) eqn:Hfresh; [done|].
  destruct (fs_put tmpdir (Dir []) (fs w0)) as [root1'|] eqn:Hput1; [|done].
  injection Hmkdir as ->.
  pose proof (fs_put_lookup _ _ _ _ Hput1) as Htmp1.
  destruct (fs_put_child tmpdir "sdk.zip" (File "") root1 _ Htmp1)
    as (root2 & Hput2 & Htmp2).
  cbn [entry_set] in Htmp2.
  destruct (fs_put_child tmpdir "sdk.zip" (File data) root2 _ Htmp2)
    as (root3 & Hput3 & Htmp3).
  cbn [entry_set String.eqb Ascii.eqb Bool.eqb] in Htmp3.
  destruct (fs_put_child tmpdir "extracted" (Dir entries) root3 _ Htmp3)
    as (root4 & Hput4 & Htmp4).
  cbn [entry_set String.eqb Ascii.eqb Bool.eqb] in Htmp4.
  exists (set_fs root4 (set_fs root1 w0)). split; [|done].
  unfold download_sdk_extract. unfold bind at 1. rewrite Hstream.
  unfold bind at 1. unfold tempfile_mkdtemp, bind at 1, bind at 1.
  rewrite Hpath. unfold with_fs at 1, os_mkdir. rewrite Hfresh, Hput1.
  unfold ret at 1.
  unfold bind at 1. unfold with_fs at 1, write_file. cbn [fs set_fs].
  rewrite (fs_lookup_child _ "sdk.zip" _ _ Htmp1). cbn [entry_get].
  rewrite Hput2.
  unfold bind at 1. unfold lift at 1. cbn [stream_read].
  unfold bind at 1. unfold with_fs at 1. cbn [fs set_fs].
  rewrite (fs_lookup_child _ "sdk.zip" _ _ Htmp2).
  cbn [entry_get String.eqb Ascii.eqb Bool.eqb]. rewrite Hput3.
  unfold bind at 1. unfold zipfile_extractall.
  unfold bind at 1. unfold read_fs, read_file. cbn [fs set_fs].
  rewrite (fs_lookup_child _ "sdk.zip" _ _ Htmp3).
  cbn [entry_get String.eqb Ascii.eqb Bool.eqb].
  unfold bind at 1. unfold lift at 1. rewrite Hzip.
  unfold with_fs. cbn [fs set_fs]. rewrite Hput4. done.
Qed.

(** X17. Once the archive has been fetched, written and extracted,
    [download_sdk] never removes it: whether the SDK is installed or an
    error is raised, [sdk.zip] is still in the temporary directory, with
    the bytes of the stream. *)
Theorem download_sdk_keeps_archive
    (E : Env) (w w0 w1 : World) (rest_api_id : string) (output_dir : path)
    (api_gateway_stage sdk_type data : string) (tmpdir : path)
    (entries : list (string * node)) :
  get_sdk_download_stream rest_api_id api_gateway_stage sdk_type E w
  = (Ok (PStream data), w0) ->
  tempfile_mkdtemp E w0 = (Ok tmpdir, w1) ->
  zip_members E data = Ok (Some entries) ->
  disjoint_paths tmpdir output_dir ->
  fs_lookup (tmpdir ++ ["sdk.zip"])
    (fs (snd (download_sdk rest_api_id output_dir api_gateway_stage sdk_type
                E w)))
  = Some (File data).
Proof.
  intros Hstream Hmk Hzip Hdis.
  destruct (download_sdk_extract_tmpdir E w w0 w1 rest_api_id
              api_gateway_stage sdk_type data tmpdir entries Hstream Hmk Hzip)
    as (w4 & Hextract & Htmp).
  unfold download_sdk, bind. rewrite Hextract.
  pose proof (download_sdk_install_frame E w4 (tmpdir ++ ["extracted"])
                output_dir sdk_type (tmpdir ++ ["sdk.zip"])) as Hframe.
  destruct (download_sdk_install (tmpdir ++ ["extracted"]) output_dir sdk_type
              E w4) as [[[]|e|] w5]; cbn [snd] in *;
    (rewrite Hframe;
     [ by rewrite (fs_lookup_child _ "sdk.zip" _ _ Htmp)
     | by apply disjoint_paths_siblings
     | by apply disjoint_paths_child_r, disjoint_paths_sym ]).
Qed.

Lemma download_sdk_keeps_archive_witness :
  fs_lookup ["tmp"; "tmpdir"; "sdk.zip"]
    (fs (snd (download_sdk "abc" ["out"] "dev" "javascript"
                (sdk_env js_sdk) (init sample_root))))
  = Some (File "PK-zip-bytes").
Proof.
  apply (download_sdk_keeps_archive (sdk_env js_sdk) (init sample_root)
           (snd (get_sdk_download_stream "abc" "dev" "javascript"
                   (sdk_env js_sdk) (init sample_root)))
           (snd (tempfile_mkdtemp (sdk_env js_sdk)
                   (snd (get_sdk_download_stream "abc" "dev" "javascript"
                           (sdk_env js_sdk) (init sample_root)))))
           "abc" ["out"] "dev" "javascript" "PK-zip-bytes" ["tmp"; "tmpdir"]
           js_sdk).
  - vm_compute. reflexivity.
  - vm_compute. reflexivity.
  - reflexivity.
  - split; intros [k Hk]; discriminate Hk.
Defined.

(** ** The output directory that is not there, or taken *)

(** Moving the only entry of a directory, itself a directory, to a path
    that does not exist under a directory that does. *)
Lemma shutil_move_onto parent name contents dparent dname siblings root :
  fs_lookup parent root = Some (Dir [(name, Dir contents)]) ->
  fs_lookup dparent root = Some (Dir siblings) ->
  entry_get dname siblings = None ->
  disjoint_paths parent dparent ->
  exists root',
    shutil_move (parent ++ [name]) (dparent ++ [dname]) root = Ok root'
    /\ fs_lookup (dparent ++ [dname]) root' = Some (Dir contents)
    /\ (forall k, k <> dname ->
          fs_lookup (dparent ++ [k]) root' = fs_lookup (dparent ++ [k]) root).
Proof.
  intros Hsrc Hdst Hfree Hdis. unfold shutil_move, os_path_isdir.
  rewrite (fs_lookup_child _ dname _ _ Hdst), Hfree. cbn [andb].
  assert (disjoint_paths (parent ++ [name]) (dparent ++ [dname])) as Hdis'
    by by apply disjoint_paths_app.
  unfold os_rename. rewrite (fs_lookup_child _ name _ _ Hsrc).
  cbn [entry_get]. rewrite String.eqb_refl.
  rewrite bool_decide_eq_false_2.
  2:{ intros H. destruct Hdis' as [Hd _]. apply Hd. by rewrite H. }
  rewrite bool_decide_eq_false_2 by apply (proj1 Hdis').
  rewrite (fs_lookup_child _ dname _ _ Hdst), Hfree. cbn [negb].
  destruct (fs_remove_child parent name root _ (Dir contents) Hsrc)
    as (root1 & Hrm & _).
  { cbn [entry_get]. by rewrite String.eqb_refl. }
  rewrite Hrm.
  assert (fs_lookup dparent root1 = Some (Dir siblings)) as Hdst1.
  { rewrite (fs_remove_frame _ _ _ dparent Hrm); [done|].
    by apply disjoint_paths_child_l. }
  destruct (fs_put_child dparent dname (Dir contents) root1 _ Hdst1)
    as (root2 & Hput & _).
  rewrite Hput. exists root2. split; [done|]. split.
  - by apply (fs_put_lookup _ _ _ _ Hput).
  - intros k Hk.
    rewrite (fs_put_frame _ _ _ _ (dparent ++ [k])%list Hput)
      by (apply disjoint_paths_siblings; congruence).
    rewrite (fs_remove_frame _ _ _ (dparent ++ [k])%list Hrm); [done|].
    by apply disjoint_paths_app.
Qed.

(** X18. When the output directory does not exist but the directory it is
    to be in does, [download_sdk] returns and the single directory of the
    archive becomes the output directory itself: its contents are at
    [output_dir], not at [output_dir/chalice-<sdk_type>-sdk].  The other
    entries of the parent directory are as before. *)
Theorem download_sdk_to_missing_directory
    (E : Env) (w w0 w1 : World) (rest_api_id : string)
    (parent_dir : path) (name : string)
    (api_gateway_stage sdk_type data : string) (tmpdir : path)
    (dirname : string) (contents siblings : list (string * node)) :
  let output_dir := (parent_dir ++ [name])%list in
  let run := download_sdk rest_api_id output_dir api_gateway_stage sdk_type E w in
  get_sdk_download_stream rest_api_id api_gateway_stage sdk_type E w
  = (Ok (PStream data), w0) ->
  tempfile_mkdtemp E w0 = (Ok tmpdir, w1) ->
  zip_members E data = Ok (Some [(dirname, Dir contents)]) ->
  disjoint_paths tmpdir parent_dir ->
  fs_lookup parent_dir (fs w) = Some (Dir siblings) ->
  entry_get name siblings = None ->
  fst run = Ok tt
  /\ fs_lookup output_dir (fs (snd run)) = Some (Dir contents)
  /\ (forall k, k <> name ->
        fs_lookup (parent_dir ++ [k]) (fs (snd run))
        = fs_lookup (parent_dir ++ [k]) (fs w)).
Proof.
  intros output_dir run Hstream Hmk Hzip Hdis Hparent Hfree.
  destruct (download_sdk_extract_spec E w w0 w1 rest_api_id api_gateway_stage
              sdk_type data tmpdir _ Hstream Hmk Hzip)
    as (w4 & Hextract & Hdir & Hframe).
  set (tmp_extract := (tmpdir ++ ["extracted"])%list) in *.
  set (final_dirname := "chalice-" +:+ sdk_type +:+ "-sdk").
  assert (disjoint_paths tmp_extract parent_dir) as Hdis'
    by by apply disjoint_paths_child_l.
  destruct (os_rename_only_entry tmp_extract dirname final_dirname
              (Dir contents) (fs w4) Hdir) as (root1 & Hrename & Hdir1 & Hframe1).
  assert (fs_lookup parent_dir root1 = Some (Dir siblings)) as Hparent1.
  { rewrite Hframe1 by done. by rewrite Hframe. }
  destruct (shutil_move_onto tmp_extract final_dirname contents parent_dir
              name siblings root1 Hdir1 Hparent1 Hfree Hdis')
    as (root2 & Hmove & Hthere & Hothers).
  assert (run = (Ok tt, set_fs root2 (set_fs root1 w4))) as ->.
  { unfold run, download_sdk, bind. rewrite Hextract.
    unfold download_sdk_install.
    unfold bind at 1. unfold read_fs at 1, os_listdir. rewrite Hdir.
    cbn [map fst]. unfold bind at 1. unfold bind at 1.
    unfold read_fs, os_path_isdir.
    rewrite (fs_lookup_child _ dirname _ _ Hdir). cbn [entry_get].
    rewrite String.eqb_refl.
    unfold bind at 1. unfold with_fs at 1. fold final_dirname. rewrite Hrename.
    unfold bind at 1. unfold with_fs at 1. cbn [fs set_fs].
    fold output_dir in Hmove. rewrite Hmove. done. }
  cbn [fst snd fs set_fs]. split; [done|]. split; [done|].
  intros k Hk. rewrite (Hothers k Hk).
  rewrite Hframe1 by by apply disjoint_paths_child_r.
  apply Hframe. by apply disjoint_paths_child_r.
Qed.

Lemma download_sdk_to_missing_directory_witness :
  fs_lookup ["out"; "sdk"]
    (fs (snd (download_sdk "abc" ["out"; "sdk"] "dev" "javascript"
                (sdk_env js_sdk) (init sample_root))))
  = Some (Dir [("apigClient.js", File "code")]).
Proof.
  destruct (download_sdk_to_missing_directory (sdk_env js_sdk)
              (init sample_root)
              (snd (get_sdk_download_stream "abc" "dev" "javascript"
                      (sdk_env js_sdk) (init sample_root)))
              (snd (tempfile_mkdtemp (sdk_env js_sdk)
                      (snd (get_sdk_download_stream "abc" "dev" "javascript"
                              (sdk_env js_sdk) (init sample_root)))))
              "abc" ["out"] "sdk" "dev" "javascript" "PK-zip-bytes"
              ["tmp"; "tmpdir"] "apiGateway-js-sdk"
              [("apigClient.js", File "code")] [("README", File "hello")])
    as (_ & H & _).
  - vm_compute. reflexivity.
  - vm_compute. reflexivity.
  - reflexivity.
  - split; intros [k Hk]; discriminate Hk.
  - reflexivity.
  - reflexivity.
  - exact H.
Defined.

(** X19. When the output directory already has an entry named
    [chalice-<sdk_type>-sdk], [download_sdk] raises the error of
    [shutil.move] and the output directory is as before: the entry that
    was there is neither replaced nor merged with. *)
Theorem download_sdk_collision
    (E : Env) (w w0 w1 : World) (rest_api_id : string) (output_dir : path)
    (api_gateway_stage sdk_type data : string) (tmpdir : path)
    (dirname : string) (contents out_entries : list (string * node))
    (existing : node) :
  let final_dirname := "chalice-" +:+ sdk_type +:+ "-sdk" in
  let run := download_sdk rest_api_id output_dir api_gateway_stage sdk_type E w in
  get_sdk_download_stream rest_api_id api_gateway_stage sdk_type E w
  = (Ok (PStream data), w0) ->
  tempfile_mkdtemp E w0 = (Ok tmpdir, w1) ->
  zip_members E data = Ok (Some [(dirname, Dir contents)]) ->
  disjoint_paths tmpdir output_dir ->
  fs_lookup output_dir (fs w) = Some (Dir out_entries) ->
  entry_get final_dirname out_entries = Some existing ->
  (exists message, fst run = Raise (OtherError "shutil.Error" message))
  /\ fs_lookup output_dir (fs (snd run)) = Some (Dir out_entries).
Proof.
  intros final_dirname run Hstream Hmk Hzip Hdis Hout Htaken.
  destruct (download_sdk_extract_spec E w w0 w1 rest_api_id api_gateway_stage
              sdk_type data tmpdir _ Hstream Hmk Hzip)
    as (w4 & Hextract & Hdir & Hframe).
  set (tmp_extract := (tmpdir ++ ["extracted"])%list) in *.
  assert (disjoint_paths tmp_extract output_dir) as Hdis'
    by by apply disjoint_paths_child_l.
  destruct (os_rename_only_entry tmp_extract dirname final_dirname
              (Dir contents) (fs w4) Hdir) as (root1 & Hrename & Hdir1 & Hframe1).
  assert (fs_lookup output_dir root1 = Some (Dir out_entries)) as Hout1.
  { rewrite Hframe1 by done. by rewrite Hframe. }
  assert (shutil_move (tmp_extract ++ [final_dirname]) output_dir root1
          = Raise (OtherError "shutil.Error" "Destination path already exists"))
    as Hmove.
  { unfold shutil_move, os_path_isdir, os_path_exists. rewrite Hout1.
    cbn [andb]. rewrite bool_decide_eq_false_2.
    2:{ intros H. destruct Hdis' as [Hd _]. apply Hd. rewrite <- H.
        by apply prefix_app_r. }
    rewrite last_last, (fs_lookup_child _ final_dirname _ _ Hout1), Htaken.
    done. }
  assert (run = (Raise (OtherError "shutil.Error"
                          "Destination path already exists"),
                 set_fs root1 w4)) as ->.
  { unfold run, download_sdk, bind. rewrite Hextract.
    unfold download_sdk_install.
    unfold bind at 1. unfold read_fs at 1, os_listdir. rewrite Hdir.
    cbn [map fst]. unfold bind at 1. unfold bind at 1.
    unfold read_fs, os_path_isdir.
    rewrite (fs_lookup_child _ dirname _ _ Hdir). cbn [entry_get].
    rewrite String.eqb_refl.
    unfold bind at 1. unfold with_fs at 1. fold final_dirname. rewrite Hrename.
    unfold bind at 1. unfold with_fs at 1. cbn [fs set_fs].
    rewrite Hmove. done. }
  cbn [fst snd fs set_fs]. split; [by eexists | done].
Qed.

Lemma download_sdk_collision_witness :
  fs_lookup ["out"]
    (fs (snd (download_sdk "abc" ["out"] "dev" "README"
                (sdk_env js_sdk)
                (init (Dir [("tmp", Dir []);
                            ("out", Dir [("chalice-README-sdk", File "hello")])])))))
  = Some (Dir [("chalice-README-sdk", File "hello")]).
Proof.
  destruct (download_sdk_collision (sdk_env js_sdk)
              (init (Dir [("tmp", Dir []);
                          ("out", Dir [("chalice-README-sdk", File "hello")])]))
              (snd (get_sdk_download_stream "abc" "dev" "README"
                      (sdk_env js_sdk)
                      (init (Dir [("tmp", Dir []);
                                  ("out", Dir [("chalice-README-sdk",
                                                File "hello")])]))))
              (snd (tempfile_mkdtemp (sdk_env js_sdk)
                      (snd (get_sdk_download_stream "abc" "dev" "README"
                              (sdk_env js_sdk)
                              (init (Dir [("tmp", Dir []);
                                          ("out", Dir [("chalice-README-sdk",
                                                        File "hello")])]))))))
              "abc" ["out"] "dev" "README" "PK-zip-bytes"
              ["tmp"; "tmpdir"] "apiGateway-js-sdk"
              [("apigClient.js", File "code")]
              [("chalice-README-sdk", File "hello")] (File "hello"))
    as (_ & H).
  - vm_compute. reflexivity.
  - vm_compute. reflexivity.
  - reflexivity.
  - split; intros [k Hk]; discriminate Hk.
  - reflexivity.
  - reflexivity.
  - exact H.
Defined.

(** ** The operations of one request *)

(** X20. Each of the operations that [single_request] lists makes, with
    the client of its service at hand, exactly one request, with the
    method and the keyword arguments listed, whatever the service answers;
    and when that request does not return, neither does the operation. *)
Theorem single_request_operations
    (op : Op) (E : Env) (w : World) (client : Client)
    (service_name method : string) (kwargs : list (string * pyval)) :
  single_request op = Some (service_name, method, kwargs) ->
  _client_cache w !! service_name = Some client ->
  let out := remote E (trace w) client method kwargs in
  snd (run_op op E w) = log [Call client method kwargs out] w
  /\ (out = Diverge -> fst (run_op op E w) = Diverge).
Proof.
  intros Hop Hc out.
  assert (exists r, run_op op E w = (r, log [Call client method kwargs out] w)
                    /\ (out = Diverge -> r = Diverge)) as (r & -> & Hr);
    [|done].
  destruct op as [| | | | | | | | | | | | | | | |fn region account api rid
                 | | | |fn region account api rid| |];
    cbn [single_request] in Hop; try discriminate Hop;
    injection Hop as <- <- <-; cbn [run_op]; unfold returning;
    unfold lambda_function_exists, get_function_configuration,
      delete_function, get_role_arn_for_name, delete_role_policy,
      rest_api_exists, delete_rest_api, deploy_rest_api, get_function_policy,
      get_sdk_download_stream, add_permission_for_apigateway, get_rest_api_id;
    unfold bind at 1; unfold bind at 1; rewrite (_client_cached _ _ _ _ Hc);
    unfold bind, try_except, call, ret, lift, raise; fold out;
    unfold grant_kwargs, _build_source_arn_str in *; fold out;
    destruct out as [v|e|];
    repeat match goal with
      | |- context [isinstance ?e ?cls] => destruct (isinstance e cls)
      | |- context [py_getitem ?v ?k] => destruct (py_getitem v k)
      | |- context [py_iter ?v] => destruct (py_iter v)
      | |- context [match ?x with PStr _ => _ | _ => _ end] => destruct x
      | |- context [json_loads ?E ?s] => destruct (json_loads E s)
      | |- context [find_rest_api ?l ?n] => destruct (find_rest_api l n)
      end; by eexists.
Qed.

Lemma single_request_operations_witness :
  snd (run_op (DeployRestApi "abc" "dev") (failing_env access_denied)
         gateway_world)
  = log [Call gateway_client "create_deployment"
           [("restApiId", PStr "abc"); ("stageName", PStr "dev")]
           (Raise access_denied)] gateway_world.
Proof.
  destruct (single_request_operations (DeployRestApi "abc" "dev")
              (failing_env access_denied) gateway_world gateway_client
              "apigateway" "create_deployment"
              [("restApiId", PStr "abc"); ("stageName", PStr "dev")])
    as (H & _); [reflexivity | vm_compute; reflexivity |].
  exact H.
Defined.

(** ** Documents in, documents out *)

(** X21. With the API Gateway client at hand, [import_rest_api] and
    [update_api_from_swagger] serialize the document with [indent=2]
    before anything is sent: when that fails, the failure is raised and no
    request is made; otherwise one request carries the serialized document
    as [body], [update_api_from_swagger] always in [overwrite] mode, and
    [import_rest_api] returns the [id] of the response. *)
Theorem swagger_documents
    (E : Env) (w : World) (client : Client) (rest_api_id : string)
    (swagger_document : pyval) :
  _client_cache w !! "apigateway" = Some client ->
  (forall e,
     json_dumps E swagger_document (Some 2%Z) = Raise e ->
     import_rest_api swagger_document E w = (Raise e, w)
     /\ update_api_from_swagger rest_api_id swagger_document E w = (Raise e, w))
  /\ (forall body,
        json_dumps E swagger_document (Some 2%Z) = Ok body ->
        (let kwargs := [("body", PStr body)] in
         let out := remote E (trace w) client "import_rest_api" kwargs in
         import_rest_api swagger_document E w
         = (rbind out (fun response => py_getitem response "id"),
            log [Call client "import_rest_api" kwargs out] w))
        /\ (let kwargs := [("restApiId", PStr rest_api_id);
                           ("mode", PStr "overwrite");
                           ("body", PStr body)] in
            let out := remote E (trace w) client "put_rest_api" kwargs in
            update_api_from_swagger rest_api_id swagger_document E w
            = (rbind out (fun _ => Ok tt),
               log [Call client "put_rest_api" kwargs out] w))).
Proof.
  intros Hc. split.
  - intros e He. split.
    + unfold import_rest_api. unfold bind at 1.
      rewrite (_client_cached _ _ _ _ Hc). unfold bind at 1, lift. by rewrite He.
    + unfold update_api_from_swagger. unfold bind at 1.
      rewrite (_client_cached _ _ _ _ Hc). unfold bind at 1, lift. by rewrite He.
  - intros body Hbody. split.
    + intros kwargs out. unfold import_rest_api. unfold bind at 1.
      rewrite (_client_cached _ _ _ _ Hc). unfold bind at 1. unfold lift at 1.
      rewrite Hbody. unfold bind, call, lift, ret. fold kwargs out.
      destruct out as [response| |]; try done. cbn [rbind].
      by destruct (py_getitem response "id").
    + intros kwargs out. unfold update_api_from_swagger. unfold bind at 1.
      rewrite (_client_cached _ _ _ _ Hc). unfold bind at 1. unfold lift at 1.
      rewrite Hbody. unfold bind, call, ret. fold kwargs out.
      by destruct out.
Qed.

Lemma swagger_documents_witness :
  import_rest_api (PDict []) unserialisable_env gateway_world
  = (Raise TypeError, gateway_world)
  /\ fst (import_rest_api (PDict []) quiet_env gateway_world)
     = Raise (KeyError "id").
Proof.
  split.
  - destruct (swagger_documents unserialisable_env gateway_world
                gateway_client "abc" (PDict [])) as (H & _);
      [vm_compute; reflexivity|].
    by destruct (H TypeError eq_refl) as (-> & _).
  - destruct (swagger_documents quiet_env gateway_world
                gateway_client "abc" (PDict [])) as (_ & H);
      [vm_compute; reflexivity|].
    destruct (H "{}" eq_refl) as (-> & _). reflexivity.
Defined.

(** X22. With the lambda client at hand, [get_function_policy] makes one
    [get_policy] request and hands the [Policy] string of the response to
    [json.loads]: what it returns or raises is what [json.loads] returns
    or raises; a response without [Policy] raises [KeyError], and a
    [Policy] that is not a string raises [TypeError]. *)
Theorem get_function_policy_decodes
    (E : Env) (w : World) (client : Client) (function_name : string)
    (response : list (string * pyval)) :
  let kwargs := [("FunctionName", PStr function_name)] in
  let run := get_function_policy function_name E w in
  _client_cache w !! "lambda" = Some client ->
  remote E (trace w) client "get_policy" kwargs = Ok (PDict response) ->
  snd run = log [Call client "get_policy" kwargs (Ok (PDict response))] w
  /\ (forall text, dict_get "Policy" response = Some (PStr text) ->
        fst run = json_loads E text)
  /\ (dict_get "Policy" response = None -> fst run = Raise (KeyError "Policy"))
  /\ (forall v, dict_get "Policy" response = Some v ->
        (forall text, v <> PStr text) -> fst run = Raise TypeError).
Proof.
  intros kwargs run Hc Hout.
  assert (run = (match dict_get "Policy" response with
                 | Some (PStr text) => json_loads E text
                 | Some _ => Raise TypeError
                 | None => Raise (KeyError "Policy")
                 end,
                 log [Call client "get_policy" kwargs (Ok (PDict response))] w))
    as ->.
  { unfold run, get_function_policy. unfold bind at 1.
    rewrite (_client_cached _ _ _ _ Hc). unfold bind at 1. unfold call at 1.
    fold kwargs. rewrite Hout. unfold bind at 1. unfold lift at 1.
    cbn [py_getitem].
    destruct (dict_get "Policy" response) as [[]|]; try done. }
  cbn [fst snd]. split; [done|]. split; [|split].
  - by intros text ->.
  - by intros ->.
  - intros v -> Hv. destruct v; try done. by destruct (Hv s).
Qed.

Lemma get_function_policy_decodes_witness :
  fst (get_function_policy "app" (policy_env None) lambda_world)
  = Raise not_found
  /\ fst (get_function_policy "app" quiet_env lambda_world)
     = Raise (KeyError "Policy")
  /\ fst (get_function_policy "app"
            (policy_env (Some (sample_policy "arn"))) lambda_world)
     = Ok (sample_policy "arn").
Proof.
  split; [vm_compute; reflexivity|]. split.
  - destruct (get_function_policy_decodes quiet_env lambda_world lambda_client
                "app" []) as (_ & _ & H & _);
      [vm_compute; reflexivity | reflexivity |].
    by apply H.
  - destruct (get_function_policy_decodes
                (policy_env (Some (sample_policy "arn"))) lambda_world
                lambda_client "app" [("Policy", PStr "<policy>")])
      as (_ & H & _); [vm_compute; reflexivity | reflexivity |].
    by rewrite (H "<policy>" eq_refl).
Defined.

(** ** The region *)

(** X23. [region_name] makes no request: it answers with the region of the
    API Gateway client, and once that client is built the answer is the
    same after any operations, which leave the world as [region_name]
    found it. *)
Theorem region_name_stable
    (E : Env) (w w0 : World) (client : Client) (ops : list Op) :
  _client "apigateway" E w = (Ok client, w0) ->
  region_name E w = (Ok (meta_region_name client), w0)
  /\ region_name E (run_ops ops E w0)
     = (Ok (meta_region_name client), run_ops ops E w0).
Proof.
  intros Hclient. unfold region_name, bind. rewrite Hclient. split; [done|].
  rewrite (_client_cached E (run_ops ops E w0) "apigateway" client); [done|].
  apply cache_le_run_ops. by eapply _client_Ok.
Qed.

Lemma region_name_stable_witness :
  region_name quiet_env
    (run_ops [DeleteRole "deployer"; RestApiExists "abc"] quiet_env gateway_world)
  = (Ok "us-west-2",
     run_ops [DeleteRole "deployer"; RestApiExists "abc"] quiet_env gateway_world).
Proof.
  destruct (region_name_stable quiet_env (init sample_root) gateway_world
              gateway_client [DeleteRole "deployer"; RestApiExists "abc"])
    as (_ & H); [vm_compute; reflexivity|].
  exact H.
Defined.

(** ** The keyword arguments of [create_function] *)

(** X24. The request of [create_function] always carries the function
    name, the runtime, the archive as [Code.ZipFile], the role and the
    handler [app.app]; it carries the environment (under [Variables]), the
    tags, the timeout and the memory size exactly when they are given;
    and it carries no other key. *)
Theorem create_function_kwargs_fields
    (function_name role_arn zip_contents runtime : string)
    (environment_variables tags : option (gmap string string))
    (timeout memory_size : option Z) :
  let kwargs := create_function_kwargs function_name role_arn zip_contents
                  runtime environment_variables tags timeout memory_size in
  dict_get "FunctionName" kwargs = Some (PStr function_name)
  /\ dict_get "Runtime" kwargs = Some (PStr runtime)
  /\ dict_get "Code" kwargs = Some (PDict [("ZipFile", PStr zip_contents)])
  /\ dict_get "Handler" kwargs = Some (PStr "app.app")
  /\ dict_get "Role" kwargs = Some (PStr role_arn)
  /\ dict_get "Environment" kwargs
     = (fun ev => PDict [("Variables", py_of_strmap ev)]) <$> environment_variables
  /\ dict_get "Tags" kwargs = py_of_strmap <$> tags
  /\ dict_get "Timeout" kwargs = PInt <$> timeout
  /\ dict_get "MemorySize" kwargs = PInt <$> memory_size
  /\ (forall k,
        k ∉ ["FunctionName"; "Runtime"; "Code"; "Handler"; "Role";
             "Environment"; "Tags"; "Timeout"; "MemorySize"] ->
        dict_get k kwargs = None).
Proof.
  intros kwargs. unfold kwargs, create_function_kwargs.
  repeat split;
    try (destruct environment_variables, tags, timeout, memory_size;
         reflexivity).
  intros k Hk.
  assert (forall k', k' ∈ ["FunctionName"; "Runtime"; "Code"; "Handler"; "Role";
                           "Environment"; "Tags"; "Timeout"; "MemorySize"] ->
                     k <> k') as Hne.
  { intros k' Hk' ->. done. }
  destruct environment_variables, tags, timeout, memory_size;
    cbn [set_opt]; rewrite ?dict_get_set_ne by (apply Hne; set_solver);
    cbn [dict_get];
    repeat match goal with
      | |- context [String.eqb k ?s] =>
          destruct (String.eqb_spec k s) as [Heq|_];
          [exfalso; apply (Hne s); [set_solver | exact Heq]|]
      end; reflexivity.
Qed.
